(** * MobSF CI helper ([.github/scripts/mobsf_ci.py]): model and properties

    The script drives a MobSF instance over HTTP (readiness probe, upload,
    scan trigger, completion poll, MASVS fetch) and classifies the MASVS
    report.  The development embeds the Python functions as Rocq functions:
    values decoded from JSON are an inductive type, exceptions are an
    error type, and everything that touches the network, the clock, the
    file system or the output streams runs in a state-and-exception monad
    over an explicit [world]. *)

From Stdlib Require Import ZArith NArith List String Ascii Bool Lia.
From Stdlib Require Import Floats.SpecFloat.
From Stdlib Require DecimalString.
Import ListNotations.

Local Open Scope Z_scope.
Local Open Scope list_scope.

Set Warnings "-register-all".

(** ** Text

    A Python [str] is modelled by Rocq's [string]; each [ascii] stands for
    one code point in the range 0..255. *)

Module Text.

Definition code (c : ascii) : N := N_of_ascii c.

(** [str.isspace] on one code point below 256. *)
Definition is_space (c : ascii) : bool :=
  let n := code c in
  (((9 <=? n) && (n <=? 13)) || ((28 <=? n) && (n <=? 32))
   || (n =? 133) || (n =? 160))%N.

(** [str.lower] on one code point below 256: the ASCII capitals and the
    Latin-1 capitals U+00C0..U+00DE, the multiplication sign excepted. *)
Definition lower_char (c : ascii) : ascii :=
  let n := code c in
  if (((65 <=? n) && (n <=? 90))
      || ((192 <=? n) && (n <=? 222) && negb (n =? 215)))%N
  then ascii_of_N (n + 32) else c.

Fixpoint lower (s : string) : string :=
  match s with
  | EmptyString => EmptyString
  | String c rest => String (lower_char c) (lower rest)
  end.

Fixpoint lstrip_by (sp : ascii -> bool) (s : string) : string :=
  match s with
  | EmptyString => EmptyString
  | String c rest => if sp c then lstrip_by sp rest else s
  end.

Fixpoint rev_onto (s acc : string) : string :=
  match s with
  | EmptyString => acc
  | String c rest => rev_onto rest (String c acc)
  end.

Definition rev (s : string) : string := rev_onto s EmptyString.

Definition strip_by (sp : ascii -> bool) (s : string) : string :=
  rev (lstrip_by sp (rev (lstrip_by sp s))).

(** [str.strip()] with no argument. *)
Definition strip : string -> string := strip_by is_space.

Definition is_empty (s : string) : bool :=
  match s with EmptyString => true | String _ _ => false end.

Fixpoint mem (s : string) (l : list string) : bool :=
  match l with
  | [] => false
  | x :: rest => String.eqb s x || mem s rest
  end.

(** [sep.join(parts)]. *)
Fixpoint join (sep : string) (parts : list string) : string :=
  match parts with
  | [] => EmptyString
  | [x] => x
  | x :: rest => (x ++ sep ++ join sep rest)%string
  end.

(** [str(n)] for a Python [int]. *)
Definition of_Z (n : Z) : string :=
  DecimalString.NilZero.string_of_int (Z.to_int n).

(** Whitespace that [int(text)] skips at both ends: for code points
    below 127 the C set (tab .. carriage return, space), above it the
    Unicode spaces. *)
Definition is_int_space (c : ascii) : bool :=
  let n := code c in
  (((9 <=? n) && (n <=? 13)) || (n =? 32) || (n =? 133) || (n =? 160))%N.

Definition digit_value (c : ascii) : option Z :=
  let n := code c in
  if ((48 <=? n) && (n <=? 57))%N then Some (Z.of_N n - 48) else None.

(** The digit part of a decimal literal: digits with single underscores
    between them.  [after_digit] tells whether the previous character
    was a digit; [count] is the number of digits read so far. *)
Fixpoint digits_from (s : string) (acc : Z) (count : nat) (after_digit : bool)
  : option (Z * nat) :=
  match s with
  | EmptyString => if after_digit then Some (acc, count) else None
  | String c rest =>
      match digit_value c with
      | Some d => digits_from rest (10 * acc + d) (S count) true
      | None =>
          if (code c =? 95)%N && after_digit
          then digits_from rest acc count false
          else None
      end
  end.

Definition signed_digits (s : string) : option (Z * nat) :=
  match s with
  | String c rest =>
      if (code c =? 45)%N then
        match digits_from rest 0 0%nat false with
        | Some (v, k) => Some (- v, k)
        | None => None
        end
      else if (code c =? 43)%N then digits_from rest 0 0%nat false
      else digits_from s 0 0%nat false
  | EmptyString => None
  end.

End Text.

(** ** Values decoded from JSON

    A [dict] is the list of its items in insertion order, its keys
    distinct; [int] is unbounded; a [float] is an IEEE 754 value. *)

Definition path : Type := list string.

Inductive json : Type :=
| JNull
| JBool (b : bool)
| JInt (n : Z)
| JFloat (x : spec_float)
| JStr (s : string)
| JList (items : list json)
| JDict (items : list (string * json)).

(** What the interpreter is left to decide: how a float and a container
    print, and the limit on the number of digits [int] accepts
    ([None]: no limit). *)
Class PyRuntime : Type := {
  float_repr : spec_float -> string;
  container_str : json -> string;
  int_max_str_digits : option nat
}.

Inductive mobsf_failure : Type :=
| AppNotFound (app_path : path)
| ServerNotReady (base_url : string) (timeout : Z)
| StatusFailure (context : string) (status_code : Z) (text : string)
| UploadMissingKeys (missing : list string)
| PollTimeout
| PolicyViolation.

Inductive request_failure : Type :=
| TransportFailure
| JSONDecodeFailure.

Inductive exn : Type :=
| MobSFError (m : mobsf_failure)
| RequestException (k : request_failure)
| ValueError
| KeyError (key : string)
| TypeError
| AttributeError
| OSError
| OverflowError
| FuelExhausted.

Inductive result (A : Type) : Type :=
| Ok (a : A)
| Raise (e : exn).

Arguments Ok {A} a.
Arguments Raise {A} e.

Module Py.

(** Truth value of an object, as [if], [or], [and] and [not] test it. *)
Definition truthy (v : json) : bool :=
  match v with
  | JNull => false
  | JBool b => b
  | JInt n => negb (n =? 0)
  | JFloat (S754_zero _) => false
  | JFloat _ => true
  | JStr s => negb (Text.is_empty s)
  | JList [] => false
  | JList _ => true
  | JDict [] => false
  | JDict _ => true
  end.

Fixpoint lookup (items : list (string * json)) (key : string) : option json :=
  match items with
  | [] => None
  | (k, v) :: rest => if String.eqb key k then Some v else lookup rest key
  end.

(** [d.get(key, default)] on a [dict]. *)
Definition dict_get (items : list (string * json)) (key : string) (default : json) : json :=
  match lookup items key with
  | Some v => v
  | None => default
  end.

(** [obj.get(key, default)] on any object: only a [dict] has the method. *)
Definition get (obj : json) (key : string) (default : json) : result json :=
  match obj with
  | JDict items => Ok (dict_get items key default)
  | _ => Raise AttributeError
  end.

(** [d[key]]. *)
Definition item (items : list (string * json)) (key : string) : result json :=
  match lookup items key with
  | Some v => Ok v
  | None => Raise (KeyError key)
  end.

(** The sequence a [for] loop runs over. *)
Definition iterate (obj : json) : result (list json) :=
  match obj with
  | JList items => Ok items
  | JDict items => Ok (map (fun kv => JStr (fst kv)) items)
  | JStr s => Ok (map (fun c => JStr (String c EmptyString)) (list_ascii_of_string s))
  | JNull | JBool _ | JInt _ | JFloat _ => Raise TypeError
  end.

Definition is_list (v : json) : bool :=
  match v with JList _ => true | _ => false end.

Section WithRuntime.
Context {rt : PyRuntime}.

  (** [str(v)]. *)
Definition str (v : json) : string :=
    match v with
    | JNull => "None"
    | JBool true => "True"
    | JBool false => "False"
    | JInt n => Text.of_Z n
    | JFloat x => float_repr x
    | JStr s => s
    | JList _ | JDict _ => container_str v
    end.

  (** [int(text)] in base ten. *)
Definition int (text : string) : result Z :=
    match Text.signed_digits (Text.strip_by Text.is_int_space text) with
    | None => Raise ValueError
    | Some (v, k) =>
        match int_max_str_digits with
        | Some limit => if (limit <? k)%nat then Raise ValueError else Ok v
        | None => Ok v
        end
    end.

End WithRuntime.

End Py.


(** ** [json.dumps(value, indent=2)]

    The serialiser with its defaults: [ensure_ascii] on, item separator a
    comma and key separator a colon and a space, one item per line. *)

Module Json.

Definition newline : string := String (ascii_of_nat 10) EmptyString.

Definition quote : string := String (ascii_of_nat 34) EmptyString.

Definition hex_digit (n : N) : ascii :=
  if (n <? 10)%N then ascii_of_N (48 + n) else ascii_of_N (87 + n).

(** One character inside a string literal. *)
Definition escape_char (c : ascii) : string :=
  let n := Text.code c in
  if (n =? 34)%N then "\" ++ quote
  else if (n =? 92)%N then "\\"
  else if (n =? 10)%N then "\n"
  else if (n =? 13)%N then "\r"
  else if (n =? 9)%N then "\t"
  else if (n =? 12)%N then "\f"
  else if (n =? 8)%N then "\b"
  else if ((32 <=? n) && (n <=? 126))%N then String c EmptyString
  else "\u00" ++ String (hex_digit (n / 16)) (String (hex_digit (n mod 16)) EmptyString).

Fixpoint escape (s : string) : string :=
  match s with
  | EmptyString => EmptyString
  | String c rest => escape_char c ++ escape rest
  end.

Definition string_literal (s : string) : string := quote ++ escape s ++ quote.

Fixpoint spaces (n : nat) : string :=
  match n with
  | O => EmptyString
  | S k => String " " (spaces k)
  end.

Definition newline_indent (depth : nat) : string := newline ++ spaces (2 * depth).

(** A JSON text written down with an apostrophe for each double quote. *)
Fixpoint text (s : string) : string :=
  match s with
  | EmptyString => EmptyString
  | String c rest =>
      String (if (Text.code c =? 39)%N then ascii_of_nat 34 else c) (text rest)
  end.

Section WithRuntime.
Context {rt : PyRuntime}.

Definition float_literal (x : spec_float) : string :=
  match x with
  | S754_nan => "NaN"
  | S754_infinity false => "Infinity"
  | S754_infinity true => "-Infinity"
  | _ => float_repr x
  end.

Fixpoint dumps_at (depth : nat) (v : json) : string :=
  match v with
  | JNull => "null"
  | JBool true => "true"
  | JBool false => "false"
  | JInt n => Text.of_Z n
  | JFloat x => float_literal x
  | JStr s => string_literal s
  | JList [] => "[]"
  | JList items =>
      "[" ++ newline_indent (S depth)
      ++ Text.join ("," ++ newline_indent (S depth)) (map (dumps_at (S depth)) items)
      ++ newline_indent depth ++ "]"
  | JDict [] => "{}"
  | JDict items =>
      "{" ++ newline_indent (S depth)
      ++ Text.join ("," ++ newline_indent (S depth))
           (map (fun kv => let '(k, x) := kv in
                           string_literal k ++ ": " ++ dumps_at (S depth) x) items)
      ++ newline_indent depth ++ "}"
  end%string.

Definition dumps (v : json) : string := dumps_at 0 v.

End WithRuntime.

End Json.

(** ** The world outside the process

    The MobSF service answers the [k]-th request of the run with an
    outcome and the time the exchange took; the clock counts nanoseconds.
    What [time.monotonic()] returns is a float of seconds, and the two
    waiting loops compute with such floats: that arithmetic is the
    interpreter's, and is given with the world. *)

Inductive http_method : Type := GET | POST.

Inductive body : Type :=
| NoBody
| JsonBody (payload : json)
| FormBody (payload : json)
| FilesBody (file_name : string) (content : string).

Record request : Type := {
  req_method : http_method;
  req_url : string;
  req_body : body;
  req_authorization : string;
  req_timeout : Z
}.

(** [raw] is the body as the service sent it, [decoded] what
    [response.json()] makes of it ([None]: the body is not JSON). *)
Record response : Type := {
  status_code : Z;
  raw : string;
  decoded : option json
}.

Inductive outcome : Type :=
| Unreachable
| Replied (r : response).

Inductive node : Type :=
| File (content : string)
| Dir.

Inductive stream : Type := Stdout | Stderr.

Inductive message : Type :=
| WarnNotInteger (env_name raw_value : string) (default : Z)
| WarnNotPositive (env_name : string) (parsed default : Z)
| ServerReachable (base_url : string)
| Uploaded (file_name hash : json)
| AnalysisStarted
| ReportSaved (output_path : path)
| LevelSummary (level : string) (passed : json) (failed_count : nat)
| NonCompliantDetected
| Failures (rendered : string)
| AllPassed
| ErrorLine (m : mobsf_failure)
| NetworkErrorLine (k : request_failure).

Inductive step_summary : Type :=
| SummaryFailed (m : mobsf_failure)
| SummaryNetwork (k : request_failure)
| SummaryDone (warnings : bool) (level : string) (passed : json)
    (failed_count : nat) (report : option path).

(** Python's float arithmetic on the readings of the clock.  A reading of
    [time.monotonic()] is named by the count of nanoseconds at which it
    was taken; with [now] and [start] two readings and [timeout] an
    [int],
    - [elapsed_below now start timeout] is the value of
      [now - start < timeout], the test of the readiness loop;
    - [deadline_fits timeout] tells whether [start + timeout] can be
      computed: an [int] too large for a float raises [OverflowError];
    - [before_deadline now start timeout] is the value of
      [now < start + timeout], the test of the completion poll.
    Nothing is assumed of the rounding: a property that needs the tests to
    follow the clock says how closely. *)
Record float_clock : Type := {
  elapsed_below : Z -> Z -> Z -> bool;
  deadline_fits : Z -> bool;
  before_deadline : Z -> Z -> Z -> bool
}.

(** [summaries] is what the run appended to the step-summary sinks, each
    block with the sink it went to; the sinks are files named by the
    environment, kept apart from [files]. *)
Record world : Type := {
  service : nat -> request -> N * outcome;
  environ : string -> option string;
  appendable : string -> bool;
  timer : float_clock;
  clock : Z;
  sent : list request;
  files : list (path * node);
  printed : list (stream * message);
  summaries : list (string * step_summary)
}.

Definition set_clock (t : Z) (w : world) : world :=
  {| service := service w; environ := environ w; appendable := appendable w;
     timer := timer w;
     clock := t; sent := sent w; files := files w; printed := printed w;
     summaries := summaries w |}.

Definition set_sent (l : list request) (w : world) : world :=
  {| service := service w; environ := environ w; appendable := appendable w;
     timer := timer w;
     clock := clock w; sent := l; files := files w; printed := printed w;
     summaries := summaries w |}.

Definition set_files (fs : list (path * node)) (w : world) : world :=
  {| service := service w; environ := environ w; appendable := appendable w;
     timer := timer w;
     clock := clock w; sent := sent w; files := fs; printed := printed w;
     summaries := summaries w |}.

Definition set_printed (l : list (stream * message)) (w : world) : world :=
  {| service := service w; environ := environ w; appendable := appendable w;
     timer := timer w;
     clock := clock w; sent := sent w; files := files w; printed := l;
     summaries := summaries w |}.

Definition set_summaries (l : list (string * step_summary)) (w : world) : world :=
  {| service := service w; environ := environ w; appendable := appendable w;
     timer := timer w;
     clock := clock w; sent := sent w; files := files w; printed := printed w;
     summaries := l |}.

(** ** The monad of the script: state and exceptions

    A raised exception keeps the effects made before it. *)

Definition io (A : Type) : Type := world -> result A * world.

Definition ret {A : Type} (a : A) : io A := fun w => (Ok a, w).

Definition raise {A : Type} (e : exn) : io A := fun w => (Raise e, w).

Definition bind {A B : Type} (c : io A) (k : A -> io B) : io B :=
  fun w =>
    match c w with
    | (Ok a, w') => k a w'
    | (Raise e, w') => (Raise e, w')
    end.

Definition lift {A : Type} (r : result A) : io A := fun w => (r, w).

(** [try: c  except requests.RequestException: pass], the value of [c]
    kept when it returns. *)
Definition attempt {A : Type} (c : io A) : io (option A) :=
  fun w =>
    match c w with
    | (Ok a, w') => (Ok (Some a), w')
    | (Raise (RequestException _), w') => (Ok None, w')
    | (Raise e, w') => (Raise e, w')
    end.

Declare Scope io_scope.
Delimit Scope io_scope with io.

Notation "x <- c ;; k" := (bind c (fun x => k))
  (at level 100, c at next level, right associativity) : io_scope.
Notation "c ;; k" := (bind c (fun _ => k))
  (at level 100, right associativity) : io_scope.

Local Open Scope io_scope.

Definition nanoseconds (seconds : Z) : Z := seconds * 1000000000.

(** [time.monotonic()]: the reading, named by the value of the clock. *)
Definition monotonic : io Z := fun w => (Ok (clock w), w).

(** The value of a float test on readings. *)
Definition float_test (test : float_clock -> bool) : io bool :=
  fun w => (Ok (test (timer w)), w).

Definition slept (seconds : Z) (w : world) : world :=
  set_clock (clock w + nanoseconds seconds) w.

(** The longest sleep, in seconds, that the C time type holds:
    [2^63 - 1] nanoseconds. *)
Definition longest_sleep : Z := 9223372036.

(** [time.sleep(seconds)] for an [int]: a negative length is a
    [ValueError], one beyond the C time type an [OverflowError]. *)
Definition sleep (seconds : Z) : io unit :=
  fun w =>
    if seconds <? 0 then (Raise ValueError, w)
    else if longest_sleep <? seconds then (Raise OverflowError, w)
    else (Ok tt, slept seconds w).

(** [print(...)] and [print(..., file=sys.stderr)]. *)
Definition print (s : stream) (m : message) : io unit :=
  fun w => (Ok tt, set_printed (printed w ++ [(s, m)]) w).

(** [os.environ.get(name)]. *)
Definition getenv (name : string) : io (option string) :=
  fun w => (Ok (environ w name), w).

(** The world after one exchange that took [elapsed] nanoseconds. *)
Definition exchanged (r : request) (elapsed : N) (w : world) : world :=
  set_sent (sent w ++ [r]) (set_clock (clock w + Z.of_N elapsed) w).

(** What the service does with the next request of the run. *)
Definition answer (w : world) (r : request) : N * outcome :=
  service w (List.length (sent w)) r.

(** One exchange with the service through the session. *)
Definition send (r : request) : io response :=
  fun w =>
    let '(elapsed, o) := answer w r in
    match o with
    | Replied resp => (Ok resp, exchanged r elapsed w)
    | Unreachable => (Raise (RequestException TransportFailure), exchanged r elapsed w)
    end.

(** *** Files *)

Definition path_eqb (p q : path) : bool :=
  if list_eq_dec string_dec p q then true else false.

Fixpoint find_node (fs : list (path * node)) (p : path) : option node :=
  match fs with
  | [] => None
  | (q, n) :: rest => if path_eqb p q then Some n else find_node rest p
  end.

(** The root always exists. *)
Definition node_at (fs : list (path * node)) (p : path) : option node :=
  match p with
  | [] => Some Dir
  | _ => find_node fs p
  end.

Definition parent (p : path) : path := removelast p.

(** [Path.name]. *)
Definition name (p : path) : string := last p EmptyString.

(** [Path.exists()]. *)
Definition path_exists (p : path) : io bool :=
  fun w => (Ok (match node_at (files w) p with Some _ => true | None => false end), w).

(** The content read from [path.open("rb")]. *)
Definition read_file (p : path) : io string :=
  fun w =>
    match node_at (files w) p with
    | Some (File content) => (Ok content, w)
    | _ => (Raise OSError, w)
    end.

(** [mkdir(parents=True, exist_ok=True)]: the ancestors [prefix ++ [c]],
    shortest first, are created where missing; a file in the way fails. *)
Fixpoint make_dirs (fs : list (path * node)) (prefix : path) (components : list string)
  : result (list (path * node)) :=
  match components with
  | [] => Ok fs
  | c :: rest =>
      let p := prefix ++ [c] in
      match node_at fs p with
      | Some (File _) => Raise OSError
      | Some Dir => make_dirs fs p rest
      | None => make_dirs ((p, Dir) :: fs) p rest
      end
  end.

Definition mkdir_parents (p : path) : io unit :=
  fun w =>
    match make_dirs (files w) [] p with
    | Ok fs => (Ok tt, set_files fs w)
    | Raise e => (Raise e, w)
    end.

(** [Path.write_text(content)]. *)
Definition write_text (p : path) (content : string) : io unit :=
  fun w =>
    match node_at (files w) (parent p), node_at (files w) p with
    | Some Dir, Some (File _) | Some Dir, None =>
        match p with
        | [] => (Raise OSError, w)
        | _ => (Ok tt, set_files ((p, File content) :: files w) w)
        end
    | _, _ => (Raise OSError, w)
    end.

(** ** The script *)

Declare Scope result_scope.
Delimit Scope result_scope with res.

Definition rbind {A B : Type} (r : result A) (k : A -> result B) : result B :=
  match r with
  | Ok a => k a
  | Raise e => Raise e
  end.

Notation "x <- c ;; k" := (rbind c (fun x => k))
  (at level 100, c at next level, right associativity) : result_scope.

(** [a or b], where evaluating [b] may raise. *)
Definition or_else (a : json) (b : result json) : result json :=
  if Py.truthy a then Ok a else b.

(** [obj.get(key) or rest]. *)
Definition get_or (obj : json) (key : string) (rest : result json) : result json :=
  (found <- Py.get obj key JNull ;; or_else found rest)%res.

(** [obj.get(first) or obj.get(second) or default]: the first of the two
    keys whose value is truthy wins. *)
Definition get_first (obj : json) (first second : string) (default : json)
  : result json :=
  get_or obj first (get_or obj second (Ok default)).

Definition DEFAULT_POLL_DELAY_SECONDS : Z := 5.
Definition DEFAULT_POLL_TIMEOUT_SECONDS : Z := 600.
Definition PASS_TOKENS : list string := ["pass"; "passed"; "compliant"]%string.

Record session : Type := { authorization : string }.

Record globals : Type := {
  POLL_DELAY_SECONDS : Z;
  POLL_TIMEOUT_SECONDS : Z
}.

Record MASVSResult : Type := {
  level : string;
  passed : json;
  failed : list json
}.

Definition is_compliant (r : MASVSResult) : bool := negb (Py.truthy (JList (failed r))).

Record args : Type := {
  app : path;
  masvs_level : string;
  fail_on_violation : bool;
  mobsf_url : string;
  api_key : string;
  output : option path
}.

(** [raise_for_status] of the HTTP library raises for the statuses
    400..599. *)
Definition is_http_error (status : Z) : bool := (400 <=? status) && (status <? 600).

Definition _raise_for_status (r : response) (context : string) : io unit :=
  if is_http_error (status_code r)
  then raise (MobSFError (StatusFailure context (status_code r) (raw r)))
  else ret tt.

(** [response.json()]; the decode error of the HTTP library is one of its
    [RequestException]s. *)
Definition response_json (r : response) : io json :=
  match decoded r with
  | Some v => ret v
  | None => raise (RequestException JSONDecodeFailure)
  end.

Definition get_request (s : session) (url : string) (timeout : Z) : request :=
  {| req_method := GET; req_url := url; req_body := NoBody;
     req_authorization := authorization s; req_timeout := timeout |}.

Definition post_request (s : session) (url : string) (b : body) (timeout : Z) : request :=
  {| req_method := POST; req_url := url; req_body := b;
     req_authorization := authorization s; req_timeout := timeout |}.

Section Script.
Context {rt : PyRuntime}.

Definition _get_positive_int_env (env_name : string) (default : Z) : io Z :=
  raw_value <- getenv env_name ;;
  match raw_value with
  | None => ret default
  | Some raw =>
      match Py.int raw with
      | Ok parsed =>
          if parsed <=? 0
          then print Stderr (WarnNotPositive env_name parsed default) ;; ret default
          else ret parsed
      | Raise ValueError =>
          print Stderr (WarnNotInteger env_name raw default) ;; ret default
      | Raise e => raise e
      end
  end.

(** The two module-level assignments made when the script is loaded. *)
Definition load_globals : io globals :=
  delay <- _get_positive_int_env "MOBSF_POLL_DELAY_SECONDS" DEFAULT_POLL_DELAY_SECONDS ;;
  timeout <- _get_positive_int_env "MOBSF_POLL_TIMEOUT_SECONDS" DEFAULT_POLL_TIMEOUT_SECONDS ;;
  ret {| POLL_DELAY_SECONDS := delay; POLL_TIMEOUT_SECONDS := timeout |}.

Definition _append_step_summary (summary : step_summary) : io unit :=
  summary_path <- getenv "GITHUB_STEP_SUMMARY" ;;
  match summary_path with
  | None => ret tt
  | Some p =>
      if Text.is_empty p then ret tt
      else fun w =>
        if appendable w p
        then (Ok tt, set_summaries (summaries w ++ [(p, summary)]) w)
        else (Ok tt, w)
  end.

(** One readiness probe: [true] when the service answered 200. *)
Definition probe (r : request) : io bool :=
  answer <- attempt (send r) ;;
  match answer with
  | Some resp => ret (status_code resp =? 200)
  | None => ret false
  end.

Fixpoint wait_for_server_loop (fuel : nat) (s : session) (base_url : string)
  (timeout start : Z) : io unit :=
  match fuel with
  | O => raise FuelExhausted
  | S fuel' =>
      now <- monotonic ;;
      waiting <- float_test (fun t => elapsed_below t now start timeout) ;;
      if waiting then
        ready <- probe (get_request s base_url 10) ;;
        if ready then ret tt
        else sleep 3 ;; wait_for_server_loop fuel' s base_url timeout start
      else raise (MobSFError (ServerNotReady base_url timeout))
  end.

(** Every turn of the loop sleeps three seconds: with a float test that
    follows the clock to within a second, the turns given here are never
    all used. *)
Definition wait_for_server (s : session) (base_url : string) (timeout : Z) : io unit :=
  start <- monotonic ;;
  wait_for_server_loop (S (S (Z.to_nat timeout))) s base_url timeout start.

Definition required_keys : list string := ["file_name"; "hash"; "scan_type"]%string.

(** [sorted(required - payload.keys())]. *)
Definition missing_keys (payload : list (string * json)) : list string :=
  filter (fun k => match Py.lookup payload k with Some _ => false | None => true end)
    required_keys.

Definition upload_app (s : session) (base_url : string) (app_path : path)
  : io (list (string * json)) :=
  content <- read_file app_path ;;
  response <- send (post_request s (base_url ++ "/api/v1/upload")
                      (FilesBody (name app_path) content) 120) ;;
  _raise_for_status response "Upload" ;;
  payload <- response_json response ;;
  match payload with
  | JDict items =>
      match missing_keys items with
      | [] => ret items
      | missing => raise (MobSFError (UploadMissingKeys missing))
      end
  | _ => raise AttributeError
  end.

Definition trigger_scan (s : session) (base_url : string)
  (upload_meta : list (string * json)) : io json :=
  scan_type <- lift (Py.item upload_meta "scan_type") ;;
  file_name <- lift (Py.item upload_meta "file_name") ;;
  hash <- lift (Py.item upload_meta "hash") ;;
  let scan_payload :=
    JDict [("scan_type", scan_type); ("file_name", file_name); ("hash", hash)]%string in
  response <- send (post_request s (base_url ++ "/api/v1/scan") (JsonBody scan_payload) 120) ;;
  response <- (if status_code response =? 415
               then send (post_request s (base_url ++ "/api/v1/scan")
                            (FormBody scan_payload) 120)
               else ret response) ;;
  _raise_for_status response "Scan" ;;
  response_json response.

(** The loop of [wait_for_scan_completion]; the deadline is the float
    [start + POLL_TIMEOUT_SECONDS], named by the reading [start] it was
    computed from. *)
Fixpoint wait_for_scan_completion_loop (g : globals) (fuel : nat) (s : session)
  (report_endpoint : string) (payload : json) (start : Z) : io unit :=
  match fuel with
  | O => raise FuelExhausted
  | S fuel' =>
      now <- monotonic ;;
      waiting <- float_test
                   (fun t => before_deadline t now start (POLL_TIMEOUT_SECONDS g)) ;;
      if waiting then
        ready <- probe (post_request s report_endpoint (JsonBody payload) 30) ;;
        if ready then ret tt
        else sleep (POLL_DELAY_SECONDS g) ;;
             wait_for_scan_completion_loop g fuel' s report_endpoint payload start
      else raise (MobSFError PollTimeout)
  end.

(** The deadline is computed first, then the hash is read.  Every turn of
    the loop sleeps the delay, a second or more: with a float test that
    follows the clock to within a second, the turns given here are never
    all used. *)
Definition wait_for_scan_completion (g : globals) (s : session) (base_url : string)
  (upload_meta : list (string * json)) : io unit :=
  start <- monotonic ;;
  fits <- float_test (fun t => deadline_fits t (POLL_TIMEOUT_SECONDS g)) ;;
  if fits then
    let report_endpoint := (base_url ++ "/api/v1/report_json")%string in
    hash <- lift (Py.item upload_meta "hash") ;;
    wait_for_scan_completion_loop g (S (S (Z.to_nat (2 * POLL_TIMEOUT_SECONDS g)))) s
      report_endpoint (JDict [("hash", hash)]%string) start
  else raise OverflowError.

Definition request_masvs_report (s : session) (base_url : string)
  (upload_meta : list (string * json)) (level : string) : io json :=
  let endpoint := (base_url ++ "/api/v1/masvs")%string in
  scan_type <- lift (Py.item upload_meta "scan_type") ;;
  file_name <- lift (Py.item upload_meta "file_name") ;;
  hash <- lift (Py.item upload_meta "hash") ;;
  let payload :=
    JDict [("scan_type", scan_type); ("file_name", file_name); ("hash", hash);
           ("masvs_level", JStr level)]%string in
  response <- send (post_request s endpoint (JsonBody payload) 60) ;;
  response <- (if (status_code response =? 400) || (status_code response =? 415)
               then send (post_request s endpoint (FormBody payload) 60)
               else ret response) ;;
  _raise_for_status response "MASVS report" ;;
  response_json response.

(** [str(status_raw).strip().lower()] for one entry of the list. *)
Definition entry_status (entry : json) : result string :=
  (status_raw <- get_first entry "status" "value" (JStr EmptyString) ;;
   Ok (Text.lower (Text.strip (Py.str status_raw))))%res.

(** The [for] loop of [parse_masvs] over the entries still to visit. *)
Fixpoint classify (entries : list json) (passed : Z) (failed : list json)
  : result (Z * list json) :=
  match entries with
  | [] => Ok (passed, failed)
  | entry :: rest =>
      (status <- entry_status entry ;;
       if Text.mem status PASS_TOKENS then classify rest (passed + 1) failed
       else if negb (Text.is_empty status) then classify rest passed (failed ++ [entry])
       else classify rest passed (failed ++ [entry]))%res
  end.

(** The body of [if not controls and aggregate:]. *)
Definition from_aggregate (aggregate : json) (level : string) : result MASVSResult :=
  (failed_controls <- get_first aggregate "failed" "non_compliant" (JList []) ;;
   by_pass <- Py.get aggregate "pass" (JInt 0) ;;
   passed <- or_else by_pass (Py.get aggregate "passed" (JInt 0)) ;;
   Ok {| level := level; passed := passed;
         failed := match failed_controls with JList l => l | _ => [] end |})%res.

Definition parse_masvs (data : json) (level : string) : result MASVSResult :=
  (controls <- get_first data "controls" "masvs_controls" (JList []) ;;
   entries <- Py.iterate controls ;;
   counted <- classify entries 0 [] ;;
   aggregate <- get_first data "summary" "masvs_summary" (JDict []) ;;
   if negb (Py.truthy controls) && Py.truthy aggregate
   then from_aggregate aggregate level
   else Ok {| level := level; passed := JInt (fst counted); failed := snd counted |})%res.

Definition render_entry (entry : json) : result string :=
  (requirement <- get_or entry "control"
                    (get_first entry "id" "title" (JStr "Unknown control")) ;;
   description <- get_first entry "description" "details" (JStr EmptyString) ;;
   guidance <- get_first entry "remediation" "remedy" (JStr EmptyString) ;;
   Ok ("- " ++ Py.str requirement ++ Json.newline
       ++ "  Description: " ++ Py.str description ++ Json.newline
       ++ "  Guidance: " ++ Py.str guidance)%string)%res.

Fixpoint render_lines (failures : list json) : result (list string) :=
  match failures with
  | [] => Ok []
  | entry :: rest =>
      (line <- render_entry entry ;;
       lines <- render_lines rest ;;
       Ok (line :: lines))%res
  end.

Definition render_failures (failures : list json) : result string :=
  (lines <- render_lines failures ;; Ok (Text.join Json.newline lines))%res.

(** The steps of [run_masvs_audit] up to the MASVS request. *)
Definition fetch_report (g : globals) (app_path : path) (level base_url api_key : string)
  : io json :=
  found <- path_exists app_path ;;
  if negb found then raise (MobSFError (AppNotFound app_path))
  else
    let s := {| authorization := api_key |} in
    wait_for_server s base_url 120 ;;
    print Stdout (ServerReachable base_url) ;;
    upload_meta <- upload_app s base_url app_path ;;
    file_name <- lift (Py.item upload_meta "file_name") ;;
    hash <- lift (Py.item upload_meta "hash") ;;
    print Stdout (Uploaded file_name hash) ;;
    trigger_scan s base_url upload_meta ;;
    print Stdout AnalysisStarted ;;
    wait_for_scan_completion g s base_url upload_meta ;;
    request_masvs_report s base_url upload_meta level.

(** The [if output_path:] block of [run_masvs_audit]. *)
Definition save_report (output_path : option path) (masvs_raw : json) : io unit :=
  match output_path with
  | Some p =>
      mkdir_parents (parent p) ;;
      write_text p (Json.dumps masvs_raw) ;;
      print Stdout (ReportSaved p)
  | None => ret tt
  end.

(** The rest of [run_masvs_audit]: classification and verdict. *)
Definition report (masvs_raw : json) (requested_level : string)
  (fail_on_violation : bool) : io MASVSResult :=
  result <- lift (parse_masvs masvs_raw requested_level) ;;
  print Stdout (LevelSummary result.(level) result.(passed) (List.length result.(failed))) ;;
  if Py.truthy (JList result.(failed)) then
    print Stdout NonCompliantDetected ;;
    rendered <- lift (render_failures result.(failed)) ;;
    print Stdout (Failures rendered) ;;
    if fail_on_violation then raise (MobSFError PolicyViolation) else ret result
  else
    print Stdout AllPassed ;;
    ret result.

Definition run_masvs_audit (g : globals) (app_path : path) (level : string)
  (fail_on_violation : bool) (base_url api_key : string) (output_path : option path)
  : io MASVSResult :=
  masvs_raw <- fetch_report g app_path level base_url api_key ;;
  save_report output_path masvs_raw ;;
  report masvs_raw level fail_on_violation.

(** The [type=] function of the [--fail-on-violation] option. *)
Definition fail_on_violation_flag (value : string) : bool :=
  Text.mem (Text.lower value) ["1"; "true"; "yes"]%string.

(** [main] after [parse_args]: the exit code it returns, or the exception
    that neither handler catches. *)
Definition main (g : globals) (a : args) : io Z :=
  fun w =>
    match run_masvs_audit g a.(app) a.(masvs_level) a.(fail_on_violation)
            a.(mobsf_url) a.(api_key) a.(output) w with
    | (Ok result, w') =>
        (_append_step_summary
           (SummaryDone (Py.truthy (JList result.(failed))) result.(level)
              result.(passed) (List.length result.(failed)) a.(output)) ;;
         ret 0) w'
    | (Raise (MobSFError m), w') =>
        (print Stderr (ErrorLine m) ;;
         _append_step_summary (SummaryFailed m) ;;
         ret 1) w'
    | (Raise (RequestException k), w') =>
        (print Stderr (NetworkErrorLine k) ;;
         _append_step_summary (SummaryNetwork k) ;;
         ret 1) w'
    | (Raise e, w') => (Raise e, w')
    end.

(** Loading the module, then [main]. *)
Definition script (a : args) : io Z :=
  g <- load_globals ;;
  main g a.

End Script.

(** ** Vocabulary of the properties *)

Definition is_record (v : json) : Prop := exists items, v = JDict items.

(** An entry counts as passed, or is kept as a failure, by its status. *)
Definition passes {rt : PyRuntime} (entry : json) : bool :=
  match entry_status entry with
  | Ok status => Text.mem status PASS_TOKENS
  | Raise _ => false
  end.

Definition violates {rt : PyRuntime} (entry : json) : bool :=
  match entry_status entry with
  | Ok status => negb (Text.mem status PASS_TOKENS)
  | Raise _ => false
  end.

(** A runtime for the closed examples, whose values hold no float and
    print no container. *)
Definition sample_runtime : PyRuntime :=
  {| float_repr := fun _ => "0.0"%string;
     container_str := fun _ => "[]"%string;
     int_max_str_digits := Some 4300%nat |}.

(** The payload of the worked example. *)
Definition example_passed_entry : json :=
  JDict [("control", JStr "C1"); ("status", JStr "Passed")]%string.

Definition example_failed_entry : json :=
  JDict [("control", JStr "C2"); ("status", JStr "Failed");
         ("description", JStr "d"); ("remediation", JStr "r")]%string.

Definition example_payload : json :=
  JDict [("controls", JList [example_passed_entry; example_failed_entry])]%string.

(** How a call ends on the response that settles it: the tool's error
    for a status [raise_for_status] rejects, the decoded body otherwise. *)
Definition settled (context : string) (r : response) : result json :=
  if is_http_error (status_code r)
  then Raise (MobSFError (StatusFailure context (status_code r) (raw r)))
  else match decoded r with
       | Some v => Ok v
       | None => Raise (RequestException JSONDecodeFailure)
       end.

(** [call] sends [first]; it sends [second] after it when and only when
    the first response has a status in [rejected], and then nothing more;
    the last response received settles the call, and a failed exchange
    ends it at once. *)
Definition retries_once_on (rejected : Z -> bool) (context : string)
  (first second : request) (call : io json) : Prop :=
  forall (w : world) (elapsed1 : N) (outcome1 : outcome),
    answer w first = (elapsed1, outcome1) ->
    let w1 := exchanged first elapsed1 w in
    match outcome1 with
    | Unreachable => call w = (Raise (RequestException TransportFailure), w1)
    | Replied r1 =>
        if rejected (status_code r1) then
          forall (elapsed2 : N) (outcome2 : outcome),
            answer w1 second = (elapsed2, outcome2) ->
            let w2 := exchanged second elapsed2 w1 in
            match outcome2 with
            | Unreachable => call w = (Raise (RequestException TransportFailure), w2)
            | Replied r2 => call w = (settled context r2, w2)
            end
        else call w = (settled context r1, w1)
    end.

(** The polls of one waiting loop entered in the world [w]:
    [poll_world delay r w k] is the world in which poll number [k] (from
    0) is sent, every poll before it having found the service not ready
    and having been followed by the sleep of [delay] seconds. *)
Fixpoint poll_world (delay : Z) (r : request) (w : world) (k : nat) : world :=
  match k with
  | O => w
  | S k' =>
      let before := poll_world delay r w k' in
      slept delay (exchanged r (fst (answer before r)) before)
  end.

(** The request sent in [w] is answered with status 200. *)
Definition answered_200 (r : request) (w : world) : bool :=
  match snd (answer w r) with
  | Replied resp => status_code resp =? 200
  | Unreachable => false
  end.

(** The world once poll [k] has been sent and its exchange is over. *)
Definition poll_done (delay : Z) (r : request) (w : world) (k : nat) : world :=
  exchanged r (fst (answer (poll_world delay r w k) r)) (poll_world delay r w k).

(** The readiness probes of one call of [wait_for_server] made in the
    world [w] are the polls with the sleep of three seconds:
    [probe_world r w k] is the world in which probe number [k] is sent. *)
Definition probe_world (r : request) (w : world) (k : nat) : world :=
  poll_world 3 r w k.

(** Probe [k] is answered with status 200. *)
Definition ready_at (r : request) (w : world) (k : nat) : bool :=
  answered_200 r (probe_world r w k).

(** Probe [k] starts while the test of the loop holds:
    [time.monotonic() - start < timeout], on the floats read when the
    call started and when the probe is about to be sent. *)
Definition in_time (r : request) (w : world) (timeout : Z) (k : nat) : bool :=
  elapsed_below (timer w) (clock (probe_world r w k)) (clock w) timeout.

(** The world in which the call returns when probe [k] is the one
    answered with 200. *)
Definition probe_done (r : request) (w : world) (k : nat) : world :=
  poll_done 3 r w k.

(** The test of the readiness loop follows the clock to within a second:
    it holds only if less than [timeout + 1] seconds have passed between
    the two readings, and fails only if more than [timeout - 1] have. *)
Definition elapsed_test_accurate (t : float_clock) (timeout : Z) : Prop :=
  forall now start : Z,
    (elapsed_below t now start timeout = true ->
     now - start < nanoseconds (timeout + 1))
    /\ (elapsed_below t now start timeout = false ->
        nanoseconds (timeout - 1) < now - start).

(** The same of the test of the completion poll. *)
Definition deadline_test_accurate (t : float_clock) (timeout : Z) : Prop :=
  forall now start : Z,
    (before_deadline t now start timeout = true ->
     now - start < nanoseconds (timeout + 1))
    /\ (before_deadline t now start timeout = false ->
        nanoseconds (timeout - 1) < now - start).

(** Float tests that agree with the clock, for the closed examples; an
    [int] converts to a float when it rounds to a finite double, that is
    below [2^1024 - 2^970]. *)
Definition exact_clock : float_clock :=
  {| elapsed_below := fun now start timeout => now - start <? nanoseconds timeout;
     deadline_fits := fun timeout => timeout <? 2 ^ 1024 - 2 ^ 970;
     before_deadline := fun now start timeout => now <? start + nanoseconds timeout |}.

(** The rule for an environment override in the words of the
    specification: the positive integer the text denotes, the default for
    any other text and when the variable is unset. *)
Definition validated_override {rt : PyRuntime} (value : option string) (default : Z) : Z :=
  match value with
  | None => default
  | Some text =>
      match Py.int text with
      | Ok n => if 0 <? n then n else default
      | Raise _ => default
      end
  end.

(** The upload metadata of the worked example. *)
Definition sample_upload_meta : list (string * json) :=
  [("hash", JStr "abc"); ("scan_type", JStr "apk"); ("file_name", JStr "app.apk")]%string.

Definition reply (status : Z) (text : string) (value : option json) : outcome :=
  Replied {| status_code := status; raw := text; decoded := value |}.

Definition sample_upload_response : response :=
  {| status_code := 200;
     raw := Json.text "{'hash':'abc','scan_type':'apk','file_name':'app.apk'}";
     decoded := Some (JDict sample_upload_meta) |}.

Definition sample_masvs_response : response :=
  {| status_code := 200;
     raw := Json.text ("{'controls':[{'control':'C1','status':'Passed'},"
                       ++ "{'control':'C2','status':'Failed','description':'d',"
                       ++ "'remediation':'r'}]}");
     decoded := Some example_payload |}.

(** A service for the closed examples: down for the first probe, it then
    answers every step of a run, refusing the first encoding of the scan
    request and of the MASVS request and reporting the analysis as not
    finished once. *)
Definition sample_service (k : nat) (r : request) : N * outcome :=
  match k with
  | 0%nat => (2000000000%N, Unreachable)
  | 1%nat => (50000000%N, reply 200 "<html>MobSF</html>" None)
  | 2%nat => (900000000%N, Replied sample_upload_response)
  | 3%nat => (10000000%N, reply 415 "Unsupported Media Type" None)
  | 4%nat => (10000000%N, reply 200 "{}" (Some (JDict [])))
  | 5%nat => (10000000%N, reply 404 "Report not Found" None)
  | 6%nat => (10000000%N, reply 200 "{}" (Some (JDict [])))
  | 7%nat => (10000000%N, reply 400 "Bad Request" None)
  | _ => (10000000%N, Replied sample_masvs_response)
  end.

(** The poll delay is overridden by a text that is not a number, the poll
    timeout by a number between spaces. *)
Definition sample_environ (name : string) : option string :=
  if String.eqb name "MOBSF_POLL_DELAY_SECONDS" then Some "soon"%string
  else if String.eqb name "MOBSF_POLL_TIMEOUT_SECONDS" then Some " 90 "%string
  else if String.eqb name "GITHUB_STEP_SUMMARY" then Some "/tmp/summary.md"%string
  else None.

Definition sample_world : world :=
  {| service := sample_service;
     environ := sample_environ;
     appendable := fun _ => true;
     timer := exact_clock;
     clock := 0;
     sent := [];
     files := [(["work"]%string, Dir); (["work"; "app.apk"]%string, File "PK")];
     printed := [];
     summaries := [] |}.

Definition sample_session : session := {| authorization := "mobsf_default_api_key" |}.

Definition sample_base_url : string := "http://127.0.0.1:8000".

(** [sample_world] once the first [k] requests of a run have been sent;
    only their number matters to the service. *)
Definition sample_world_after (k : nat) : world :=
  set_sent (repeat (get_request sample_session sample_base_url 10) k) sample_world.

(** The settings [load_globals] computes in [sample_world]. *)
Definition sample_globals : globals :=
  {| POLL_DELAY_SECONDS := 5; POLL_TIMEOUT_SECONDS := 90 |}.

Definition sample_args : args :=
  {| app := ["work"; "app.apk"]%string;
     masvs_level := "L2";
     fail_on_violation := fail_on_violation_flag "true";
     mobsf_url := "http://127.0.0.1:8000";
     api_key := "mobsf_default_api_key";
     output := Some ["work"; "reports"; "masvs.json"]%string |}.

(** ** Vocabulary of the further properties *)

(** An action respects a relation between worlds when the world it
    leaves, returning or raising, is related to the one it started in. *)
Definition respects {A : Type} (R : world -> world -> Prop) (c : io A) : Prop :=
  forall w : world, R w (snd (c w)).

(** Nothing was taken from the log of requests, and every request added
    satisfies [Q]. *)
Definition sends_only (Q : request -> Prop) (w w' : world) : Prop :=
  exists added : list request, sent w' = sent w ++ added /\ Forall Q added.

(** A request that carries [key] as its authorization and whose URL
    starts with [base_url]. *)
Definition addressed (base_url key : string) (r : request) : Prop :=
  req_authorization r = key /\ String.prefix base_url (req_url r) = true.

(** Every file and directory at a path in [spared] is still there,
    unchanged. *)
Definition keeps_nodes (spared : path -> Prop) (w w' : world) : Prop :=
  forall (q : path) (n : node),
    spared q -> node_at (files w) q = Some n -> node_at (files w') q = Some n.

(** The exceptions of the steps of a run that follow the check of the
    binary: any but a [KeyError] and the error of a binary not found. *)
Definition ordinary (e : exn) : bool :=
  match e with
  | KeyError _ | MobSFError (AppNotFound _) => false
  | _ => true
  end.

(** Every exception but a [KeyError]. *)
Definition not_key_error (e : exn) : bool :=
  match e with
  | KeyError _ => false
  | _ => true
  end.

(** The exceptions of the classification and of the rendering. *)
Definition uncaught (e : exn) : bool :=
  match e with
  | AttributeError | TypeError => true
  | _ => false
  end.

(** Every exception the action can raise satisfies [E]; every value it
    can return satisfies [P]. *)
Definition raises_only {A : Type} (E : exn -> bool) (c : io A) : Prop :=
  forall (w : world) (e : exn) (w' : world), c w = (Raise e, w') -> E e = true.

Definition returns_only {A : Type} (P : A -> Prop) (c : io A) : Prop :=
  forall (w : world) (a : A) (w' : world), c w = (Ok a, w') -> P a.

Definition fails_only {A : Type} (E : exn -> bool) (r : result A) : Prop :=
  forall e : exn, r = Raise e -> E e = true.

(** The metadata holds the three keys the later steps read. *)
Definition has_metadata (upload_meta : list (string * json)) : Prop :=
  forall key : string,
    In key ["scan_type"; "file_name"; "hash"]%string ->
    Py.lookup upload_meta key <> None.

(** The request of the completion poll. *)
Definition report_request (s : session) (base_url : string) (hash : json) : request :=
  post_request s (base_url ++ "/api/v1/report_json")
    (JsonBody (JDict [("hash", hash)]%string)) 30.

(** Poll [k] of a call of [wait_for_scan_completion] made in the world
    [w] starts while the test of the loop holds:
    [time.monotonic() < deadline], the deadline computed when the call
    started. *)
Definition before_the_deadline (g : globals) (r : request) (w : world) (k : nat) : bool :=
  before_deadline (timer w) (clock (poll_world (POLL_DELAY_SECONDS g) r w k)) (clock w)
    (POLL_TIMEOUT_SECONDS g).

(** A service that answers every step of a run at the first attempt and
    serves [payload] as the MASVS report, and a world with it: the binary
    is in place, no variable of the environment is set. *)
Definition serving (payload : json) (k : nat) (r : request) : N * outcome :=
  match k with
  | 0%nat => (20000000%N, reply 200 "<html>MobSF</html>" None)
  | 1%nat => (900000000%N, Replied sample_upload_response)
  | 2%nat => (10000000%N, reply 200 "{}" (Some (JDict [])))
  | 3%nat => (10000000%N, reply 200 "{}" (Some (JDict [])))
  | _ => (10000000%N, reply 200 (@Json.dumps sample_runtime payload) (Some payload))
  end.

Definition world_serving (payload : json) : world :=
  {| service := serving payload;
     environ := fun _ => None;
     appendable := fun _ => true;
     timer := exact_clock;
     clock := 0;
     sent := [];
     files := [(["work"]%string, Dir); (["work"; "app.apk"]%string, File "PK")];
     printed := [];
     summaries := [] |}.

(** A service that answers every request, ten milliseconds after it was
    sent, with the same status and body, and a world with it. *)
Definition answering (status : Z) (text : string) (value : option json)
  (k : nat) (r : request) : N * outcome :=
  (10000000%N, reply status text value).

Definition world_answering (status : Z) (text : string) (value : option json) : world :=
  {| service := answering status text value;
     environ := fun _ => None;
     appendable := fun _ => true;
     timer := exact_clock;
     clock := 0;
     sent := [];
     files := [(["work"]%string, Dir); (["work"; "app.apk"]%string, File "PK")];
     printed := [];
     summaries := [] |}.

Definition default_globals : globals :=
  {| POLL_DELAY_SECONDS := DEFAULT_POLL_DELAY_SECONDS;
     POLL_TIMEOUT_SECONDS := DEFAULT_POLL_TIMEOUT_SECONDS |}.

(** Arguments as [sample_args], the violations tolerated and no output
    path given. *)
Definition lenient_args : args :=
  {| app := ["work"; "app.apk"]%string;
     masvs_level := "L2";
     fail_on_violation := fail_on_violation_flag "no";
     mobsf_url := "http://127.0.0.1:8000";
     api_key := "mobsf_default_api_key";
     output := None |}.

(** An aggregate report whose failures are given by their names. *)
Definition named_failures_payload : json :=
  JDict [("summary",
          JDict [("passed", JInt 12);
                 ("failed", JList [JStr "MSTG-STORAGE-1"])])]%string.


(** The step-summary sink of the world, when one is named and can be
    appended to. *)
Definition summary_sink (w : world) : option string :=
  match environ w "GITHUB_STEP_SUMMARY" with
  | Some p => if negb (Text.is_empty p) && appendable w p then Some p else None
  | None => None
  end.

(** * Properties *)

(** ** Classification *)

Lemma mem_In (s : string) (l : list string) : Text.mem s l = true <-> In s l.
Proof.
  induction l as [|x l IH]; simpl.
  - split; [discriminate | tauto].
  - rewrite orb_true_iff, IH, String.eqb_eq. split; intros [E|E]; auto.
Qed.

Lemma get_first_dict (items : list (string * json)) (first second : string) (default : json) :
  get_first (JDict items) first second default =
  Ok (if Py.truthy (Py.dict_get items first JNull) then Py.dict_get items first JNull
      else if Py.truthy (Py.dict_get items second JNull) then Py.dict_get items second JNull
      else default).
Proof.
  unfold get_first, get_or, or_else; simpl.
  destruct (Py.truthy (Py.dict_get items first JNull)); [reflexivity|].
  destruct (Py.truthy (Py.dict_get items second JNull)); reflexivity.
Qed.

Lemma get_first_ok_record (obj : json) (first second : string) (default v : json) :
  get_first obj first second default = Ok v -> is_record obj.
Proof.
  destruct obj; try discriminate. intros _. eexists; reflexivity.
Qed.

Lemma get_first_falsy (obj : json) (first second : string) (default v : json) :
  get_first obj first second default = Ok v -> Py.truthy v = false -> v = default.
Proof.
  intros H F. destruct (get_first_ok_record _ _ _ _ _ H) as [items ->].
  rewrite get_first_dict in H. injection H as H.
  destruct (Py.truthy (Py.dict_get items first JNull)) eqn:E1; [congruence|].
  destruct (Py.truthy (Py.dict_get items second JNull)) eqn:E2; congruence.
Qed.

Lemma entry_status_record {rt : PyRuntime} (entry : json) :
  is_record entry -> exists status, entry_status entry = Ok status.
Proof.
  intros [items ->]. unfold entry_status. rewrite get_first_dict. simpl. eauto.
Qed.

Lemma entry_status_ok_record {rt : PyRuntime} (entry : json) (status : string) :
  entry_status entry = Ok status -> is_record entry.
Proof.
  destruct entry; try discriminate. intros _. eexists; reflexivity.
Qed.

(** The loop, once every entry is a record: passed entries are counted and
    the others appended in order. *)
Lemma classify_records {rt : PyRuntime} (entries : list json) :
  Forall is_record entries ->
  forall (count : Z) (kept : list json),
    classify entries count kept =
    Ok (count + Z.of_nat (List.length (filter passes entries)),
        kept ++ filter violates entries).
Proof.
  induction 1 as [|entry rest Hrec _ IH]; intros count kept; cbn [classify filter].
  - cbn. now rewrite Z.add_0_r, app_nil_r.
  - destruct (entry_status_record entry Hrec) as [status Hs].
    assert (Hp : passes entry = Text.mem status PASS_TOKENS)
      by (unfold passes; now rewrite Hs).
    assert (Hv : violates entry = negb (Text.mem status PASS_TOKENS))
      by (unfold violates; now rewrite Hs).
    rewrite Hs, Hp, Hv. cbn [rbind].
    destruct (Text.mem status PASS_TOKENS) eqn:M; cbn [negb].
    + rewrite IH. cbn [List.length]. f_equal. f_equal. lia.
    + assert (Hsame : (if negb (Text.is_empty status)
                       then classify rest count (kept ++ [entry])
                       else classify rest count (kept ++ [entry]))
                      = classify rest count (kept ++ [entry]))
        by (destruct (Text.is_empty status); reflexivity).
      rewrite Hsame, IH, <- app_assoc. reflexivity.
Qed.

(** What [parse_masvs] returns when the per-control list is not empty. *)
Lemma parse_masvs_controls {rt : PyRuntime} (data : json) (level : string)
  (entries : list json) :
  get_first data "controls" "masvs_controls" (JList []) = Ok (JList entries) ->
  Forall is_record entries ->
  entries <> [] ->
  parse_masvs data level =
  Ok {| level := level;
        passed := JInt (Z.of_nat (List.length (filter passes entries)));
        failed := filter violates entries |}.
Proof.
  intros Hc Hrec Hne. unfold parse_masvs. rewrite Hc. simpl.
  rewrite (classify_records entries Hrec). simpl.
  destruct (get_first_ok_record _ _ _ _ _ Hc) as [items ->].
  rewrite get_first_dict. simpl.
  destruct entries; [congruence|]. reflexivity.
Qed.

(** What it returns when neither key holds a truthy list. *)
Lemma parse_masvs_no_controls {rt : PyRuntime} (data : json) (level : string)
  (aggregate : json) :
  get_first data "controls" "masvs_controls" (JList []) = Ok (JList []) ->
  get_first data "summary" "masvs_summary" (JDict []) = Ok aggregate ->
  parse_masvs data level =
  if Py.truthy aggregate then from_aggregate aggregate level
  else Ok {| level := level; passed := JInt 0; failed := [] |}.
Proof.
  intros Hc Ha. unfold parse_masvs. rewrite Hc. simpl. rewrite Ha. simpl.
  reflexivity.
Qed.

Lemma is_compliant_iff (r : MASVSResult) : is_compliant r = true <-> failed r = [].
Proof.
  unfold is_compliant. destruct (failed r); simpl.
  - tauto.
  - split; discriminate.
Qed.

Lemma filter_violates_none {rt : PyRuntime} (entries : list json) :
  Forall (fun entry => exists status,
            entry_status entry = Ok status /\ In status PASS_TOKENS) entries ->
  filter violates entries = [].
Proof.
  induction 1 as [|entry rest (status & Hs & Hin) _ IH]; cbn [filter]; [reflexivity|].
  unfold violates at 1. rewrite Hs.
  apply mem_In in Hin. rewrite Hin. exact IH.
Qed.

Lemma filter_passes_all {rt : PyRuntime} (entries : list json) :
  Forall (fun entry => exists status,
            entry_status entry = Ok status /\ In status PASS_TOKENS) entries ->
  filter passes entries = entries.
Proof.
  induction 1 as [|entry rest (status & Hs & Hin) _ IH]; cbn [filter]; [reflexivity|].
  unfold passes at 1. rewrite Hs.
  apply mem_In in Hin. rewrite Hin, IH. reflexivity.
Qed.

(** The result for a list whose entries all pass, in a payload that
    carries the list: the list is not empty, or no aggregate summary
    stands in for it. *)
Lemma all_pass_result {rt : PyRuntime} (data : json) (level : string)
  (entries : list json) :
  get_first data "controls" "masvs_controls" (JList []) = Ok (JList entries) ->
  Forall (fun entry => exists status,
            entry_status entry = Ok status /\ In status PASS_TOKENS) entries ->
  entries <> [] \/ get_first data "summary" "masvs_summary" (JDict []) = Ok (JDict []) ->
  parse_masvs data level
  = Ok {| level := level; passed := JInt (Z.of_nat (List.length entries)); failed := [] |}.
Proof.
  intros Hc Hall Hshape.
  assert (Hrec : Forall is_record entries).
  { eapply Forall_impl; [|exact Hall]. intros e (s & Hs & _).
    exact (entry_status_ok_record e s Hs). }
  destruct entries as [|entry rest].
  - destruct Hshape as [Hne|Hagg]; [congruence|].
    rewrite (parse_masvs_no_controls data level (JDict []) Hc Hagg). reflexivity.
  - rewrite (parse_masvs_controls data level (entry :: rest) Hc Hrec) by discriminate.
    rewrite (filter_violates_none (entry :: rest) Hall).
    rewrite (filter_passes_all (entry :: rest) Hall). reflexivity.
Qed.

(** C2: when every entry of a per-control list has a status that
    normalises to a pass synonym, [parse_masvs] returns a result with an
    empty [failed] and [is_compliant] true: for the payload made of the
    list under either of its keys, whatever the list, and for any payload
    in which that list is the per-control list found and is not empty.
    And [is_compliant] is true exactly when [failed] is empty. *)
Theorem all_pass_is_compliant {rt : PyRuntime} (level : string) (entries : list json) :
  Forall (fun entry => exists status,
            entry_status entry = Ok status /\ In status PASS_TOKENS) entries ->
  (forall key : string,
      key = "controls"%string \/ key = "masvs_controls"%string ->
      exists r, parse_masvs (JDict [(key, JList entries)]) level = Ok r
                /\ failed r = [] /\ is_compliant r = true)
  /\ (forall data : json,
         get_first data "controls" "masvs_controls" (JList []) = Ok (JList entries) ->
         entries <> [] ->
         exists r, parse_masvs data level = Ok r
                   /\ failed r = [] /\ is_compliant r = true)
  /\ (forall r : MASVSResult, is_compliant r = true <-> failed r = []).
Proof.
  intros Hall. split; [|split].
  - intros key Hkey.
    rewrite (all_pass_result (JDict [(key, JList entries)]) level entries).
    + eexists; repeat split.
    + destruct Hkey as [-> | ->]; destruct entries; reflexivity.
    + exact Hall.
    + right. destruct Hkey as [-> | ->]; reflexivity.
  - intros data Hc Hne.
    rewrite (all_pass_result data level entries Hc Hall (or_introl Hne)).
    eexists; repeat split.
  - exact is_compliant_iff.
Qed.

Lemma all_pass_is_compliant_witness :
  exists r,
    @parse_masvs sample_runtime
      (JDict [("controls",
               JList [JDict [("status", JStr "  PASSED ")];
                      JDict [("status", JNull); ("value", JStr "Compliant")]])]%string)
      "L2" = Ok r
    /\ failed r = [] /\ is_compliant r = true.
Proof.
  refine (proj1 (@all_pass_is_compliant sample_runtime "L2"%string
                   [JDict [("status", JStr "  PASSED ")];
                    JDict [("status", JNull); ("value", JStr "Compliant")]]%string _)
            "controls"%string (or_introl eq_refl)).
  repeat constructor.
  - exists "passed"%string. split; [reflexivity | simpl; tauto].
  - exists "compliant"%string. split; [reflexivity | simpl; tauto].
Defined.





(** C10: a payload object with nothing truthy under [controls],
    [masvs_controls], [summary] and [masvs_summary] (the key missing, or
    its value empty) gives [passed = 0] and [failed = []], a compliant
    result. *)
Theorem unrecognised_report_is_compliant {rt : PyRuntime}
  (items : list (string * json)) (level : string) :
  Py.truthy (Py.dict_get items "controls" JNull) = false ->
  Py.truthy (Py.dict_get items "masvs_controls" JNull) = false ->
  Py.truthy (Py.dict_get items "summary" JNull) = false ->
  Py.truthy (Py.dict_get items "masvs_summary" JNull) = false ->
  parse_masvs (JDict items) level = Ok {| level := level; passed := JInt 0; failed := [] |}
  /\ is_compliant {| level := level; passed := JInt 0; failed := [] |} = true.
Proof.
  intros H1 H2 H3 H4. split; [|reflexivity].
  rewrite (parse_masvs_no_controls (JDict items) level (JDict [])).
  - reflexivity.
  - now rewrite get_first_dict, H1, H2.
  - now rewrite get_first_dict, H3, H4.
Qed.

Lemma unrecognised_report_is_compliant_witness :
  @parse_masvs sample_runtime
    (JDict [("controls", JList []); ("report", JStr "n/a")]%string) "L2"
  = Ok {| level := "L2"; passed := JInt 0; failed := [] |}
  /\ is_compliant {| level := "L2"; passed := JInt 0; failed := [] |} = true.
Proof.
  apply (@unrecognised_report_is_compliant sample_runtime); reflexivity.
Defined.

(** ** Configuration *)

Lemma int_raises_value_error {rt : PyRuntime} (text : string) (e : exn) :
  Py.int text = Raise e -> e = ValueError.
Proof.
  unfold Py.int.
  destruct (Text.signed_digits _) as [[v k]|]; [|congruence].
  destruct int_max_str_digits as [limit|]; [|discriminate].
  destruct (limit <? k)%nat; congruence.
Qed.

(** The loader computes the specification's rule, and never raises. *)
Lemma get_positive_int_env_value {rt : PyRuntime} (env_name : string) (default : Z)
  (w : world) :
  exists w', _get_positive_int_env env_name default w
             = (Ok (validated_override (environ w env_name) default), w')
             /\ environ w' = environ w.
Proof.
  unfold _get_positive_int_env, validated_override, bind, getenv.
  destruct (environ w env_name) as [raw|]; [|eexists; split; reflexivity].
  destruct (Py.int raw) as [n|e] eqn:E.
  - rewrite Z.leb_antisym. destruct (0 <? n); eexists; split; reflexivity.
  - rewrite (int_raises_value_error raw e E). eexists; split; reflexivity.
Qed.

(** C5: for every text of an override the loader returns without raising:
    the integer itself, with nothing printed, when the text parses as a
    positive integer; the default, after one warning on the error stream,
    for any other text.  The poll delay and the poll timeout are loaded
    by this rule, with the defaults 5 and 600. *)
Theorem invalid_override_falls_back {rt : PyRuntime} (w : world)
  (env_name raw : string) (default : Z) :
  environ w env_name = Some raw ->
  (forall n, Py.int raw = Ok n -> 0 < n ->
             _get_positive_int_env env_name default w = (Ok n, w))
  /\ ((forall n, Py.int raw = Ok n -> n <= 0) ->
      exists warning,
        _get_positive_int_env env_name default w
        = (Ok default, set_printed (printed w ++ [(Stderr, warning)]) w))
  /\ (exists g w',
         load_globals w = (Ok g, w')
         /\ POLL_DELAY_SECONDS g
            = validated_override (environ w "MOBSF_POLL_DELAY_SECONDS") 5
         /\ POLL_TIMEOUT_SECONDS g
            = validated_override (environ w "MOBSF_POLL_TIMEOUT_SECONDS") 600).
Proof.
  intros Henv. repeat split.
  - intros n Hn Hpos. unfold _get_positive_int_env, bind, getenv.
    rewrite Henv, Hn. destruct (n <=? 0) eqn:L; [lia|reflexivity].
  - intros Hbad. unfold _get_positive_int_env, bind, getenv. rewrite Henv.
    destruct (Py.int raw) as [n|e] eqn:E.
    + specialize (Hbad n eq_refl). destruct (n <=? 0) eqn:L; [|lia].
      eexists; reflexivity.
    + rewrite (int_raises_value_error raw e E). eexists; reflexivity.
  - unfold load_globals, bind.
    destruct (get_positive_int_env_value
                "MOBSF_POLL_DELAY_SECONDS" DEFAULT_POLL_DELAY_SECONDS w)
      as (w1 & -> & Hsame).
    destruct (get_positive_int_env_value
                "MOBSF_POLL_TIMEOUT_SECONDS" DEFAULT_POLL_TIMEOUT_SECONDS w1)
      as (w2 & -> & _).
    rewrite Hsame. eexists; eexists; repeat split.
Qed.

Lemma invalid_override_falls_back_witness :
  exists warning,
    @_get_positive_int_env sample_runtime "MOBSF_POLL_DELAY_SECONDS" 5 sample_world
    = (Ok 5, set_printed (printed sample_world ++ [(Stderr, warning)]) sample_world).
Proof.
  refine (proj1 (proj2 (@invalid_override_falls_back sample_runtime sample_world
                          "MOBSF_POLL_DELAY_SECONDS" "soon" 5 eq_refl)) _).
  intros n Hn. discriminate Hn.
Defined.

Lemma load_globals_sample :
  fst (@load_globals sample_runtime sample_world) = Ok sample_globals.
Proof. reflexivity. Qed.

Lemma validated_override_positive {rt : PyRuntime} (value : option string) (default : Z) :
  0 < default -> 0 < validated_override value default.
Proof.
  intros Hd. unfold validated_override.
  destruct value as [text|]; [|exact Hd].
  destruct (Py.int text) as [n|e]; [|exact Hd].
  destruct (0 <? n) eqn:L; [lia | exact Hd].
Qed.

Lemma globals_positive {rt : PyRuntime} (w w' : world) (g : globals) :
  load_globals w = (Ok g, w') ->
  0 < POLL_DELAY_SECONDS g /\ 0 < POLL_TIMEOUT_SECONDS g.
Proof.
  intros H.
  destruct (get_positive_int_env_value
              "MOBSF_POLL_DELAY_SECONDS" DEFAULT_POLL_DELAY_SECONDS w)
    as (w1 & H1 & Hsame).
  destruct (get_positive_int_env_value
              "MOBSF_POLL_TIMEOUT_SECONDS" DEFAULT_POLL_TIMEOUT_SECONDS w1)
    as (w2 & H2 & _).
  unfold load_globals, bind in H. rewrite H1, H2 in H. injection H as <- _.
  simpl. split; apply validated_override_positive; reflexivity.
Qed.

(** ** Upload *)

Lemma upload_app_run (s : session) (base_url : string) (app_path : path)
  (w : world) (content : string) (elapsed : N) (resp : response)
  (payload : list (string * json)) :
  node_at (files w) app_path = Some (File content) ->
  answer w (post_request s (base_url ++ "/api/v1/upload")
              (FilesBody (name app_path) content) 120) = (elapsed, Replied resp) ->
  is_http_error (status_code resp) = false ->
  decoded resp = Some (JDict payload) ->
  upload_app s base_url app_path w =
  (match missing_keys payload with
   | [] => Ok payload
   | missing => Raise (MobSFError (UploadMissingKeys missing))
   end,
   exchanged (post_request s (base_url ++ "/api/v1/upload")
                (FilesBody (name app_path) content) 120) elapsed w).
Proof.
  intros Hfile Hans Hok Hbody.
  unfold upload_app, bind, read_file. rewrite Hfile.
  unfold send. rewrite Hans.
  unfold _raise_for_status. rewrite Hok. unfold ret at 1.
  unfold response_json. rewrite Hbody. unfold ret at 1.
  destruct (missing_keys payload); reflexivity.
Qed.

Lemma missing_keys_spec (payload : list (string * json)) (key : string) :
  In key (missing_keys payload) <->
  In key ["hash"; "scan_type"; "file_name"]%string /\ Py.lookup payload key = None.
Proof.
  unfold missing_keys. rewrite filter_In. unfold required_keys.
  split; intros [Hin Hk]; (split; [simpl in *; tauto|]).
  - destruct (Py.lookup payload key); [discriminate|reflexivity].
  - now rewrite Hk.
Qed.

(** C6: on an upload response whose status [raise_for_status] accepts and
    whose body is a JSON object, [upload_app] raises [MobSFError] exactly
    when one of [hash], [scan_type], [file_name] is missing from the
    object (the error names the missing keys), and returns the object as
    it is when all three are there. *)
Theorem upload_requires_metadata (s : session) (base_url : string)
  (app_path : path) (w : world) (content : string) (elapsed : N) (resp : response)
  (payload : list (string * json)) :
  node_at (files w) app_path = Some (File content) ->
  answer w (post_request s (base_url ++ "/api/v1/upload")
              (FilesBody (name app_path) content) 120) = (elapsed, Replied resp) ->
  is_http_error (status_code resp) = false ->
  decoded resp = Some (JDict payload) ->
  ((exists m w', upload_app s base_url app_path w = (Raise (MobSFError m), w'))
   <-> (exists key, In key ["hash"; "scan_type"; "file_name"]%string
                    /\ Py.lookup payload key = None))
  /\ ((exists key, In key ["hash"; "scan_type"; "file_name"]%string
                   /\ Py.lookup payload key = None) ->
      exists w', upload_app s base_url app_path w
                 = (Raise (MobSFError (UploadMissingKeys (missing_keys payload))), w'))
  /\ ((forall key, In key ["hash"; "scan_type"; "file_name"]%string ->
                   Py.lookup payload key <> None) ->
      exists w', upload_app s base_url app_path w = (Ok payload, w')).
Proof.
  intros Hfile Hans Hok Hbody.
  rewrite (upload_app_run s base_url app_path w content elapsed resp payload
             Hfile Hans Hok Hbody).
  repeat split.
  - intros (m & w' & H). destruct (missing_keys payload) as [|key rest] eqn:M.
    + discriminate.
    + exists key. apply missing_keys_spec. rewrite M. left; reflexivity.
  - intros (key & Hkey). apply missing_keys_spec in Hkey.
    destruct (missing_keys payload); [destruct Hkey|]. eexists; eexists; reflexivity.
  - intros (key & Hkey). apply missing_keys_spec in Hkey.
    destruct (missing_keys payload); [destruct Hkey|]. eexists; reflexivity.
  - intros Hall. destruct (missing_keys payload) as [|key rest] eqn:M.
    + eexists; reflexivity.
    + assert (Hin : In key (missing_keys payload)) by (rewrite M; left; reflexivity).
      apply missing_keys_spec in Hin. destruct Hin as [Hin Hnone].
      destruct (Hall key Hin Hnone).
Qed.

Lemma upload_requires_metadata_witness :
  exists w',
    upload_app sample_session sample_base_url
      ["work"; "app.apk"]%string (sample_world_after 2)
    = (Ok sample_upload_meta, w').
Proof.
  refine (proj2 (proj2 (upload_requires_metadata
                          sample_session sample_base_url
                          ["work"; "app.apk"]%string (sample_world_after 2)
                          "PK"%string 900000000%N
                          sample_upload_response
                          sample_upload_meta eq_refl eq_refl eq_refl eq_refl)) _).
  intros key [<-|[<-|[<-|[]]]]; discriminate.
Defined.

(** The claim fails for a body that is not a JSON object: the service
    answers the upload with status 200 and the JSON list [[]]; none of
    the three fields is there, and the call ends with [AttributeError],
    not with the tool's error. *)
Lemma upload_of_a_list_body_is_no_tool_error :
  answer (world_answering 200 "[]" (Some (JList [])))
    (post_request sample_session (sample_base_url ++ "/api/v1/upload")
       (FilesBody "app.apk" "PK") 120)
  = (10000000%N, reply 200 "[]" (Some (JList [])))
  /\ is_http_error 200 = false
  /\ upload_app sample_session sample_base_url ["work"; "app.apk"]%string
       (world_answering 200 "[]" (Some (JList [])))
     = (Raise AttributeError,
        exchanged (post_request sample_session (sample_base_url ++ "/api/v1/upload")
                     (FilesBody "app.apk" "PK") 120) 10000000
          (world_answering 200 "[]" (Some (JList []))))
  /\ (forall (m : mobsf_failure) (w' : world),
         upload_app sample_session sample_base_url ["work"; "app.apk"]%string
           (world_answering 200 "[]" (Some (JList [])))
         <> (Raise (MobSFError m), w')).
Proof.
  assert (Hrun : upload_app sample_session sample_base_url ["work"; "app.apk"]%string
                   (world_answering 200 "[]" (Some (JList [])))
                 = (Raise AttributeError,
                    exchanged (post_request sample_session
                                 (sample_base_url ++ "/api/v1/upload")
                                 (FilesBody "app.apk" "PK") 120) 10000000
                      (world_answering 200 "[]" (Some (JList [])))))
    by reflexivity.
  split; [reflexivity|]. split; [reflexivity|]. split; [exact Hrun|].
  intros m w' H. rewrite Hrun in H. discriminate H.
Qed.

(** ** Encoding fallback *)

Lemma bind_send {A : Type} (r : request) (k : response -> io A) (w : world) :
  (response <- send r ;; k response) w =
  match answer w r with
  | (elapsed, Replied resp) => k resp (exchanged r elapsed w)
  | (elapsed, Unreachable) =>
      (Raise (RequestException TransportFailure), exchanged r elapsed w)
  end.
Proof.
  unfold bind, send. destruct (answer w r) as [elapsed [|resp]]; reflexivity.
Qed.

Lemma raise_for_status_then_json (context : string) (r : response) (w : world) :
  (_raise_for_status r context ;; response_json r) w = (settled context r, w).
Proof.
  unfold bind, _raise_for_status, settled, response_json, raise, ret.
  destruct (is_http_error (status_code r)); [reflexivity|].
  destruct (decoded r); reflexivity.
Qed.

Lemma retry_pattern (rejected : Z -> bool) (context : string) (first second : request) :
  retries_once_on rejected context first second
    (response <- send first ;;
     response <- (if rejected (status_code response) then send second else ret response) ;;
     _raise_for_status response context ;;
     response_json response).
Proof.
  intros w elapsed1 outcome1 H1. cbv zeta. rewrite bind_send, H1.
  destruct outcome1 as [|r1]; [reflexivity|].
  destruct (rejected (status_code r1)) eqn:R.
  - intros elapsed2 outcome2 H2. rewrite bind_send, H2.
    destruct outcome2 as [|r2]; [reflexivity|]. apply raise_for_status_then_json.
  - unfold bind at 1. unfold ret at 1. apply raise_for_status_then_json.
Qed.

(** C7: [trigger_scan] posts the metadata as JSON and repeats the post
    form-encoded, once, exactly when the first status is 415;
    [request_masvs_report] does the same exactly when the first status is
    400 or 415.  The last response settles the call: a status in 400..599
    raises [MobSFError], any other returns the decoded body. *)
Theorem encoding_fallback_retries_once (s : session)
  (base_url level : string) (upload_meta : list (string * json))
  (scan_type file_name hash : json) :
  Py.lookup upload_meta "scan_type" = Some scan_type ->
  Py.lookup upload_meta "file_name" = Some file_name ->
  Py.lookup upload_meta "hash" = Some hash ->
  retries_once_on (fun status => status =? 415) "Scan"
    (post_request s (base_url ++ "/api/v1/scan")
       (JsonBody (JDict [("scan_type", scan_type); ("file_name", file_name);
                         ("hash", hash)]%string)) 120)
    (post_request s (base_url ++ "/api/v1/scan")
       (FormBody (JDict [("scan_type", scan_type); ("file_name", file_name);
                         ("hash", hash)]%string)) 120)
    (trigger_scan s base_url upload_meta)
  /\ retries_once_on (fun status => (status =? 400) || (status =? 415)) "MASVS report"
       (post_request s (base_url ++ "/api/v1/masvs")
          (JsonBody (JDict [("scan_type", scan_type); ("file_name", file_name);
                            ("hash", hash); ("masvs_level", JStr level)]%string)) 60)
       (post_request s (base_url ++ "/api/v1/masvs")
          (FormBody (JDict [("scan_type", scan_type); ("file_name", file_name);
                            ("hash", hash); ("masvs_level", JStr level)]%string)) 60)
       (request_masvs_report s base_url upload_meta level).
Proof.
  intros Hs Hf Hh. split.
  - intros w elapsed1 outcome1 H1.
    unfold trigger_scan, lift, Py.item. rewrite Hs, Hf, Hh.
    unfold bind at 1 2 3.
    exact (retry_pattern (fun status => status =? 415) "Scan" _ _ w elapsed1 outcome1 H1).
  - intros w elapsed1 outcome1 H1.
    unfold request_masvs_report, lift, Py.item. rewrite Hs, Hf, Hh.
    unfold bind at 1 2 3.
    exact (retry_pattern (fun status => (status =? 400) || (status =? 415))
             "MASVS report" _ _ w elapsed1 outcome1 H1).
Qed.

Lemma encoding_fallback_retries_once_witness :
  trigger_scan sample_session sample_base_url sample_upload_meta (sample_world_after 3)
  = (Ok (JDict []),
     exchanged
       (post_request sample_session (sample_base_url ++ "/api/v1/scan")
          (FormBody (JDict [("scan_type", JStr "apk"); ("file_name", JStr "app.apk");
                            ("hash", JStr "abc")]%string)) 120)
       10000000
       (exchanged
          (post_request sample_session (sample_base_url ++ "/api/v1/scan")
             (JsonBody (JDict [("scan_type", JStr "apk"); ("file_name", JStr "app.apk");
                               ("hash", JStr "abc")]%string)) 120)
          10000000 (sample_world_after 3))).
Proof.
  exact (proj1 (encoding_fallback_retries_once sample_session sample_base_url "L2"
                  sample_upload_meta (JStr "apk") (JStr "app.apk") (JStr "abc")
                  eq_refl eq_refl eq_refl)
           (sample_world_after 3)
           10000000%N (reply 415 "Unsupported Media Type" None) eq_refl
           10000000%N (reply 200 "{}" (Some (JDict []))) eq_refl).
Defined.

(** ** Waiting loops *)

Lemma probe_run (r : request) (w : world) :
  probe r w = (Ok (answered_200 r w), exchanged r (fst (answer w r)) w).
Proof.
  unfold probe, bind, attempt, send, answered_200.
  destruct (answer w r) as [elapsed [|resp]]; reflexivity.
Qed.

Lemma sleep_run (seconds : Z) (w : world) :
  0 <= seconds <= longest_sleep -> sleep seconds w = (Ok tt, slept seconds w).
Proof.
  intros [Hlow Hhigh]. unfold sleep.
  destruct (Z.ltb_spec seconds 0) as [H|_]; [lia|].
  destruct (Z.ltb_spec longest_sleep seconds) as [H|_]; [lia | reflexivity].
Qed.

(** A sleep changes nothing but the clock. *)
Lemma sleep_keeps {A : Type} (f : world -> A) (seconds : Z) (w : world) :
  (forall (t : Z) (w0 : world), f (set_clock t w0) = f w0) ->
  f (snd (sleep seconds w)) = f w.
Proof.
  intros Hf. unfold sleep. destruct (seconds <? 0); [reflexivity|].
  destruct (longest_sleep <? seconds); [reflexivity|]. apply Hf.
Qed.

Lemma poll_world_timer (delay : Z) (r : request) (w : world) (k : nat) :
  timer (poll_world delay r w k) = timer w.
Proof. induction k as [|k IH]; [reflexivity | exact IH]. Qed.

Lemma poll_world_sent (delay : Z) (r : request) (w : world) (n : nat) :
  sent (poll_world delay r w n) = sent w ++ repeat r n.
Proof.
  induction n as [|n IH]; [simpl; now rewrite app_nil_r|].
  cbn [poll_world]. unfold slept, exchanged. simpl. rewrite IH.
  rewrite <- app_assoc. f_equal.
  change (r :: repeat r n) with (repeat r (S n)).
  rewrite <- repeat_cons. reflexivity.
Qed.

Lemma poll_done_sent (delay : Z) (r : request) (w : world) (n : nat) :
  sent (poll_done delay r w n) = sent w ++ repeat r (S n).
Proof.
  unfold poll_done, exchanged. simpl. rewrite poll_world_sent.
  rewrite <- app_assoc. f_equal.
  change (r :: repeat r n) with (repeat r (S n)).
  rewrite <- repeat_cons. reflexivity.
Qed.

Lemma poll_world_clock_from (delay : Z) (r : request) (w : world) (k : nat) :
  0 <= delay ->
  clock w + nanoseconds delay * Z.of_nat k <= clock (poll_world delay r w k).
Proof.
  intros Hdelay. induction k as [|k IH]; [simpl; lia|].
  assert (Hstep : clock (poll_world delay r w k) + nanoseconds delay
                  <= clock (poll_world delay r w (S k))).
  { cbn [poll_world]. unfold slept, exchanged. simpl. lia. }
  unfold nanoseconds in *. nia.
Qed.

(** A loop that polls while [test] holds, returns at the first poll
    answered with 200 and raises [failure] when the test fails. *)
Section Waiting.
Variables (delay : Z) (r : request) (w : world).
Variable test : nat -> bool.
Variable failure : exn.
Variable loop : nat -> io unit.

Hypothesis loop_step : forall fuel k : nat,
  loop (S fuel) (poll_world delay r w k) =
  if test k then
    if answered_200 r (poll_world delay r w k) then (Ok tt, poll_done delay r w k)
    else loop fuel (poll_world delay r w (S k))
  else (Raise failure, poll_world delay r w k).

Lemma waiting_returns (n : nat) :
  (forall k, (k < n)%nat ->
             test k = true /\ answered_200 r (poll_world delay r w k) = false) ->
  test n = true ->
  answered_200 r (poll_world delay r w n) = true ->
  forall fuel k : nat, (k <= n)%nat -> (n - k < fuel)%nat ->
    loop fuel (poll_world delay r w k) = (Ok tt, poll_done delay r w n).
Proof.
  intros Hbusy Htest Hready fuel.
  induction fuel as [|fuel IH]; intros k Hk Hfuel; [lia|].
  rewrite loop_step. destruct (Nat.eq_dec k n) as [->|Hneq].
  - now rewrite Htest, Hready.
  - assert (Hlt : (k < n)%nat) by lia.
    destruct (Hbusy k Hlt) as [Ht Ha]. rewrite Ht, Ha. apply IH; lia.
Qed.

Lemma waiting_gives_up (n : nat) :
  (forall k, (k < n)%nat ->
             test k = true /\ answered_200 r (poll_world delay r w k) = false) ->
  test n = false ->
  forall fuel k : nat, (k <= n)%nat -> (n - k < fuel)%nat ->
    loop fuel (poll_world delay r w k) = (Raise failure, poll_world delay r w n).
Proof.
  intros Hbusy Htest fuel.
  induction fuel as [|fuel IH]; intros k Hk Hfuel; [lia|].
  rewrite loop_step. destruct (Nat.eq_dec k n) as [->|Hneq].
  - now rewrite Htest.
  - assert (Hlt : (k < n)%nat) by lia.
    destruct (Hbusy k Hlt) as [Ht Ha]. rewrite Ht, Ha. apply IH; lia.
Qed.

(** When the test holds for polls below [bound] only, there is a first
    poll that ends the loop. *)
Lemma waiting_ends (bound : nat) :
  (forall k, test k = true -> (k < bound)%nat) ->
  exists n : nat,
    (n <= bound)%nat
    /\ (forall k, (k < n)%nat ->
                  test k = true /\ answered_200 r (poll_world delay r w k) = false)
    /\ ((test n = true /\ answered_200 r (poll_world delay r w n) = true)
        \/ test n = false).
Proof.
  intros Hbound.
  assert (Hsearch : forall m : nat,
             (forall k, (k < m)%nat ->
                        test k = true /\ answered_200 r (poll_world delay r w k) = false)
             \/ exists n : nat,
                 (n < m)%nat
                 /\ (forall k, (k < n)%nat ->
                               test k = true
                               /\ answered_200 r (poll_world delay r w k) = false)
                 /\ ((test n = true /\ answered_200 r (poll_world delay r w n) = true)
                     \/ test n = false)).
  { induction m as [|m IH].
    - left. intros k Hk. lia.
    - destruct IH as [Hbusy|(n & Hn & Hrest)].
      + destruct (test m) eqn:Ht.
        * destruct (answered_200 r (poll_world delay r w m)) eqn:Ha.
          -- right. exists m. split; [lia|]. split; [exact Hbusy|].
             left. split; assumption.
          -- left. intros k Hk. destruct (Nat.eq_dec k m) as [->|Hne].
             ++ split; assumption.
             ++ apply Hbusy. lia.
        * right. exists m. split; [lia|]. split; [exact Hbusy|]. right. exact Ht.
      + right. exists n. split; [lia | exact Hrest]. }
  destruct (Hsearch bound) as [Hbusy|(n & Hn & Hrest)].
  - exists bound. split; [lia|]. split; [exact Hbusy|]. right.
    destruct (test bound) eqn:Ht; [|reflexivity]. apply Hbound in Ht. lia.
  - exists n. split; [lia | exact Hrest].
Qed.

End Waiting.

(** ** Readiness probe *)

Lemma exact_clock_accurate (timeout : Z) :
  elapsed_test_accurate exact_clock timeout /\ deadline_test_accurate exact_clock timeout.
Proof.
  split; intros now start; cbn [exact_clock elapsed_below before_deadline];
    (split; intros H; [apply Z.ltb_lt in H | apply Z.ltb_ge in H]);
    unfold nanoseconds in *; lia.
Qed.

Section Readiness.
Variables (s : session) (base_url : string) (timeout : Z) (w : world).
Hypothesis accurate : elapsed_test_accurate (timer w) timeout.

Local Abbreviation r := (get_request s base_url 10).
Local Abbreviation loop fuel :=
  (wait_for_server_loop fuel s base_url timeout (clock w)).

(** One turn of the loop, taken in the world of probe [k]. *)
Lemma wait_for_server_loop_step (fuel k : nat) :
  loop (S fuel) (poll_world 3 r w k) =
  if in_time r w timeout k then
    if answered_200 r (poll_world 3 r w k) then (Ok tt, poll_done 3 r w k)
    else loop fuel (poll_world 3 r w (S k))
  else (Raise (MobSFError (ServerNotReady base_url timeout)), poll_world 3 r w k).
Proof.
  cbn [wait_for_server_loop]. unfold bind at 1. unfold monotonic at 1.
  unfold bind at 1. unfold float_test at 1. rewrite poll_world_timer.
  unfold in_time, probe_world.
  destruct (elapsed_below (timer w) (clock (poll_world 3 r w k)) (clock w) timeout);
    [|reflexivity].
  unfold bind at 1. rewrite probe_run.
  destruct (answered_200 r (poll_world 3 r w k)); [reflexivity|].
  unfold bind at 1. rewrite sleep_run by (unfold longest_sleep; lia). reflexivity.
Qed.

Lemma wait_for_server_unfold :
  wait_for_server s base_url timeout w
  = loop (S (S (Z.to_nat timeout))) (poll_world 3 r w 0).
Proof. reflexivity. Qed.

(** A probe that starts while the test holds starts less than
    [timeout + 1] seconds after the call. *)
Lemma in_time_bound (k : nat) :
  in_time r w timeout k = true -> 3 * Z.of_nat k < timeout + 1.
Proof.
  unfold in_time, probe_world. intros H. apply (proj1 (accurate _ _)) in H.
  assert (Hdelay : 0 <= 3) by lia.
  pose proof (poll_world_clock_from 3 r w k Hdelay) as Hc.
  unfold nanoseconds in *. lia.
Qed.

Lemma probes_within_fuel (n : nat) :
  (forall k, (k < n)%nat ->
             in_time r w timeout k = true /\ answered_200 r (poll_world 3 r w k) = false) ->
  (n < S (S (Z.to_nat timeout)))%nat.
Proof.
  intros Hbusy. destruct n as [|p]; [lia|].
  assert (Hp : (p < S p)%nat) by lia.
  destruct (Hbusy p Hp) as [Hin _]. apply in_time_bound in Hin. lia.
Qed.

Lemma wait_for_server_returns (n : nat) :
  (forall k, (k < n)%nat ->
             in_time r w timeout k = true /\ answered_200 r (poll_world 3 r w k) = false) ->
  in_time r w timeout n = true ->
  answered_200 r (poll_world 3 r w n) = true ->
  wait_for_server s base_url timeout w = (Ok tt, poll_done 3 r w n).
Proof.
  intros Hbusy Hin Hready. rewrite wait_for_server_unfold.
  pose proof (probes_within_fuel n Hbusy) as Hfuel.
  apply (waiting_returns 3 r w (in_time r w timeout)
           (MobSFError (ServerNotReady base_url timeout)) (fun fuel => loop fuel)
           wait_for_server_loop_step n Hbusy Hin Hready); lia.
Qed.

Lemma wait_for_server_gives_up (n : nat) :
  (forall k, (k < n)%nat ->
             in_time r w timeout k = true /\ answered_200 r (poll_world 3 r w k) = false) ->
  in_time r w timeout n = false ->
  wait_for_server s base_url timeout w
  = (Raise (MobSFError (ServerNotReady base_url timeout)), poll_world 3 r w n).
Proof.
  intros Hbusy Hout. rewrite wait_for_server_unfold.
  pose proof (probes_within_fuel n Hbusy) as Hfuel.
  apply (waiting_gives_up 3 r w (in_time r w timeout)
           (MobSFError (ServerNotReady base_url timeout)) (fun fuel => loop fuel)
           wait_for_server_loop_step n Hbusy Hout); lia.
Qed.

(** The call always ends, at the first probe that is answered with 200
    or that comes after the test has failed. *)
Lemma wait_for_server_ends :
  exists n : nat,
    (forall k, (k < n)%nat ->
               in_time r w timeout k = true
               /\ answered_200 r (poll_world 3 r w k) = false)
    /\ ((in_time r w timeout n = true /\ answered_200 r (poll_world 3 r w n) = true)
        \/ in_time r w timeout n = false).
Proof.
  destruct (waiting_ends 3 r w (in_time r w timeout) (S (Z.to_nat timeout)))
    as (n & _ & Hbusy & Hcase).
  - intros k Hin. apply in_time_bound in Hin. lia.
  - exists n. split; assumption.
Qed.

(** C9, as the code has it: whatever the outcomes of the probes,
    [wait_for_server] counts a failed exchange, like any answer with
    another status than 200, as not ready and probes again after three
    seconds; it returns at the first probe answered with 200, having sent
    nothing after it, provided every probe up to that one starts while
    the test of the loop holds; and it raises [MobSFError] at the first
    probe for which the test fails, no probe before it having been
    answered with 200.  One of the two always happens.  The test is that
    of the code on the floats it reads, taken to follow the clock to
    within a second. *)
Theorem readiness_probe_outcomes :
  (forall k : nat,
      match snd (answer (probe_world r w k) r) with
      | Unreachable => ready_at r w k = false
      | Replied resp => ready_at r w k = (status_code resp =? 200)
      end)
  /\ (forall n : nat,
         (forall k, (k < n)%nat ->
                    in_time r w timeout k = true /\ ready_at r w k = false) ->
         in_time r w timeout n = true ->
         ready_at r w n = true ->
         wait_for_server s base_url timeout w = (Ok tt, probe_done r w n)
         /\ sent (probe_done r w n) = sent w ++ repeat r (S n))
  /\ (forall n : nat,
         (forall k, (k < n)%nat ->
                    in_time r w timeout k = true /\ ready_at r w k = false) ->
         in_time r w timeout n = false ->
         wait_for_server s base_url timeout w
         = (Raise (MobSFError (ServerNotReady base_url timeout)), probe_world r w n))
  /\ (exists n : nat,
         (forall k, (k < n)%nat ->
                    in_time r w timeout k = true /\ ready_at r w k = false)
         /\ ((in_time r w timeout n = true /\ ready_at r w n = true)
             \/ in_time r w timeout n = false)).
Proof.
  unfold ready_at, probe_done, probe_world. split; [|split; [|split]].
  - intros k. unfold answered_200.
    destruct (snd (answer (poll_world 3 r w k) r)); reflexivity.
  - intros n Hbusy Hin Hready. split.
    + exact (wait_for_server_returns n Hbusy Hin Hready).
    + apply poll_done_sent.
  - intros n Hbusy Hout. exact (wait_for_server_gives_up n Hbusy Hout).
  - exact wait_for_server_ends.
Qed.

End Readiness.

Lemma readiness_probe_outcomes_witness :
  wait_for_server sample_session sample_base_url 120 sample_world
  = (Ok tt, probe_done (get_request sample_session sample_base_url 10) sample_world 1)
  /\ sent (probe_done (get_request sample_session sample_base_url 10) sample_world 1)
     = sent sample_world ++ repeat (get_request sample_session sample_base_url 10) 2.
Proof.
  refine (proj1 (proj2 (readiness_probe_outcomes sample_session sample_base_url 120
                          sample_world (proj1 (exact_clock_accurate 120))))
            1%nat _ eq_refl eq_refl).
  intros k Hk. destruct k as [|k]; [split; reflexivity|].
  exfalso. exact (Nat.nlt_0_r k (proj2 (Nat.succ_lt_mono k 0) Hk)).
Defined.

(** The claim fails for a success status other than 200: the service
    answers every probe with 204 No Content, which [raise_for_status]
    accepts, and the call returns neither at the first probe nor at a
    later one: it sends forty probes and raises the readiness error. *)
Lemma no_content_is_not_ready :
  snd (answer (world_answering 204 EmptyString None)
         (get_request sample_session sample_base_url 10))
  = reply 204 EmptyString None
  /\ is_http_error 204 = false
  /\ fst (wait_for_server sample_session sample_base_url 120
            (world_answering 204 EmptyString None))
     = Raise (MobSFError (ServerNotReady sample_base_url 120))
  /\ sent (snd (wait_for_server sample_session sample_base_url 120
                  (world_answering 204 EmptyString None)))
     = repeat (get_request sample_session sample_base_url 10) 40.
Proof. repeat split; vm_compute; reflexivity. Qed.

(** ** The run *)

Lemma append_step_summary_returns (summary : step_summary) (w : world) :
  exists w', _append_step_summary summary w = (Ok tt, w').
Proof.
  unfold _append_step_summary, bind, getenv.
  destruct (environ w "GITHUB_STEP_SUMMARY") as [p|]; [|eexists; reflexivity].
  destruct (Text.is_empty p); [eexists; reflexivity|].
  destruct (appendable w p); eexists; reflexivity.
Qed.

Lemma parse_example_payload {rt : PyRuntime} (level : string) :
  parse_masvs example_payload level
  = Ok {| level := level; passed := JInt 1; failed := [example_failed_entry] |}.
Proof. reflexivity. Qed.

Lemma report_example_payload {rt : PyRuntime} (level : string) (w : world) :
  exists w', report example_payload level true w
             = (Raise (MobSFError PolicyViolation), w').
Proof.
  unfold report, bind, lift. rewrite parse_example_payload.
  cbn. eexists; reflexivity.
Qed.

(** C1: on the payload of the example [parse_masvs] returns one passed
    control and the [C2] entry as the only failure, so the result is not
    compliant; the option value [true] switches [fail_on_violation] on;
    and a run that receives the payload with [fail_on_violation] on
    raises [MobSFError], which [main] turns into exit code 1. *)
Theorem example_payload_fails_the_run {rt : PyRuntime} (g : globals) (a : args)
  (w w1 w2 : world) :
  fail_on_violation a = true ->
  fetch_report g (app a) (masvs_level a) (mobsf_url a) (api_key a) w
  = (Ok example_payload, w1) ->
  save_report (output a) example_payload w1 = (Ok tt, w2) ->
  (forall level : string,
      parse_masvs example_payload level
      = Ok {| level := level; passed := JInt 1; failed := [example_failed_entry] |}
      /\ is_compliant {| level := level; passed := JInt 1;
                         failed := [example_failed_entry] |} = false)
  /\ fail_on_violation_flag "true" = true
  /\ (exists w3,
         run_masvs_audit g (app a) (masvs_level a) (fail_on_violation a)
           (mobsf_url a) (api_key a) (output a) w
         = (Raise (MobSFError PolicyViolation), w3))
  /\ (exists w4, main g a w = (Ok 1, w4)).
Proof.
  intros Hflag Hfetch Hsave.
  destruct (report_example_payload (masvs_level a) w2) as [w3 Hreport].
  assert (Hrun : run_masvs_audit g (app a) (masvs_level a) (fail_on_violation a)
                   (mobsf_url a) (api_key a) (output a) w
                 = (Raise (MobSFError PolicyViolation), w3)).
  { unfold run_masvs_audit. unfold bind at 1. rewrite Hfetch.
    unfold bind at 1. rewrite Hsave. rewrite Hflag. exact Hreport. }
  split; [|split; [|split]].
  - intros level. split; reflexivity.
  - reflexivity.
  - exists w3. exact Hrun.
  - unfold main. rewrite Hrun.
    unfold bind at 1. unfold print at 1.
    destruct (append_step_summary_returns (SummaryFailed PolicyViolation)
                (set_printed (printed w3 ++ [(Stderr, ErrorLine PolicyViolation)]) w3))
      as [w4 Hsum].
    unfold bind. rewrite Hsum. exists w4. reflexivity.
Qed.

Lemma pair_from_fst {A B : Type} (x : A * B) (a : A) : fst x = a -> x = (a, snd x).
Proof. intros <-. destruct x; reflexivity. Qed.

Lemma example_payload_fails_the_run_witness :
  exists w4, @main sample_runtime sample_globals sample_args sample_world = (Ok 1, w4).
Proof.
  refine (proj2 (proj2 (proj2
            (@example_payload_fails_the_run sample_runtime sample_globals sample_args
               sample_world
               (snd (fetch_report sample_globals (app sample_args)
                       (masvs_level sample_args) (mobsf_url sample_args)
                       (api_key sample_args) sample_world))
               (snd (@save_report sample_runtime (output sample_args) example_payload
                       (snd (fetch_report sample_globals (app sample_args)
                               (masvs_level sample_args) (mobsf_url sample_args)
                               (api_key sample_args) sample_world))))
               eq_refl _ _)))).
  - apply pair_from_fst. vm_compute. reflexivity.
  - apply pair_from_fst. vm_compute. reflexivity.
Defined.

(** ** The saved report *)

Lemma path_eqb_refl (p : path) : path_eqb p p = true.
Proof. unfold path_eqb. destruct (list_eq_dec string_dec p p); congruence. Qed.

Lemma path_eqb_eq (p q : path) : path_eqb p q = true -> p = q.
Proof. unfold path_eqb. destruct (list_eq_dec string_dec p q); congruence. Qed.

Lemma node_at_cons (fs : list (path * node)) (p q : path) (n : node) :
  q <> [] ->
  node_at ((q, n) :: fs) p = if path_eqb p q then Some n else node_at fs p.
Proof.
  intros Hq. destruct p as [|c p]; [|reflexivity].
  simpl. destruct (path_eqb [] q) eqn:E; [|reflexivity].
  apply path_eqb_eq in E. congruence.
Qed.

Lemma make_dirs_keeps (components : list string) :
  forall (fs : list (path * node)) (prefix : path) (fs' : list (path * node)),
    make_dirs fs prefix components = Ok fs' ->
    forall (q : path) (n : node), node_at fs q = Some n -> node_at fs' q = Some n.
Proof.
  induction components as [|c rest IH]; intros fs prefix fs' H q n Hq; simpl in H.
  - injection H as <-. exact Hq.
  - destruct (node_at fs (prefix ++ [c])) as [[content|]|] eqn:E.
    + discriminate.
    + exact (IH _ _ _ H q n Hq).
    + apply (IH _ _ _ H q n).
      rewrite node_at_cons by (destruct prefix; discriminate).
      destruct (path_eqb q (prefix ++ [c])) eqn:Q; [|exact Hq].
      apply path_eqb_eq in Q. congruence.
Qed.

Lemma make_dirs_creates (components : list string) :
  forall (fs : list (path * node)) (prefix : path) (fs' : list (path * node)),
    make_dirs fs prefix components = Ok fs' ->
    node_at fs prefix = Some Dir ->
    node_at fs' (prefix ++ components) = Some Dir.
Proof.
  induction components as [|c rest IH]; intros fs prefix fs' H Hprefix; simpl in H.
  - injection H as <-. now rewrite app_nil_r.
  - replace (prefix ++ c :: rest) with ((prefix ++ [c]) ++ rest)
      by (rewrite <- app_assoc; reflexivity).
    destruct (node_at fs (prefix ++ [c])) as [[content|]|] eqn:E.
    + discriminate.
    + exact (IH _ _ _ H E).
    + apply (IH _ _ _ H).
      rewrite node_at_cons by (destruct prefix; discriminate).
      now rewrite path_eqb_refl.
Qed.

Lemma parent_differs (p : path) : p <> [] -> parent p <> p.
Proof.
  intros Hp E. apply (f_equal (@List.length string)) in E.
  unfold parent in E. destruct (exists_last Hp) as (front & c & ->).
  rewrite removelast_last, length_app in E. simpl in E. lia.
Qed.

(** What a successful [save_report] leaves behind. *)
Lemma save_report_done {rt : PyRuntime} (p : path) (masvs_raw : json) (w1 w2 : world) :
  save_report (Some p) masvs_raw w1 = (Ok tt, w2) ->
  node_at (files w2) p = Some (File (Json.dumps masvs_raw))
  /\ node_at (files w2) (parent p) = Some Dir.
Proof.
  unfold save_report, bind, mkdir_parents, write_text, print.
  destruct (make_dirs (files w1) [] (parent p)) as [fs|e] eqn:M; [|discriminate].
  simpl.
  pose proof (make_dirs_creates _ _ _ _ M eq_refl) as Hparent. simpl in Hparent.
  rewrite Hparent.
  assert (Hwritten : forall q : path,
             q <> [] -> q = p ->
             node_at ((q, File (Json.dumps masvs_raw)) :: fs) p
             = Some (File (Json.dumps masvs_raw))
             /\ node_at ((q, File (Json.dumps masvs_raw)) :: fs) (parent p) = Some Dir).
  { intros q Hq ->. rewrite !node_at_cons by exact Hq. rewrite path_eqb_refl.
    split; [reflexivity|].
    destruct (path_eqb (parent p) p) eqn:E; [|exact Hparent].
    apply path_eqb_eq in E. destruct (parent_differs p Hq E). }
  assert (Hp : forall c rest, c :: rest <> @nil string) by discriminate.
  destruct (node_at fs p) as [[content|]|]; try discriminate;
    (destruct p as [|c p]; [discriminate|]);
    intros H; injection H as <-; exact (Hwritten (c :: p) (Hp c p) eq_refl).
Qed.

Lemma report_keeps_files {rt : PyRuntime} (masvs_raw : json) (level : string)
  (fail_on_violation : bool) (w : world) :
  files (snd (report masvs_raw level fail_on_violation w)) = files w.
Proof.
  unfold report, bind, lift, print, raise, ret.
  destruct (parse_masvs masvs_raw level) as [result|e]; [|reflexivity].
  destruct (Py.truthy (JList (failed result))); [|reflexivity].
  destruct (render_failures (failed result)) as [rendered|e]; [|reflexivity].
  destruct fail_on_violation; reflexivity.
Qed.

(** C8, as the code has it: when an output path is given and the file can
    be written, the compliance payload decoded from the response is
    written to that path as [json.dumps(payload, indent=2)], the parent
    directories created as needed, before the classification runs: the
    rest of the run is the classification started in a world that holds
    the file, and it leaves the files as they are. *)
Theorem report_saved_before_classification {rt : PyRuntime} (g : globals)
  (app_path : path) (level : string) (fail_on_violation : bool)
  (base_url api_key : string) (p : path) (masvs_raw : json) (w w1 w2 : world) :
  fetch_report g app_path level base_url api_key w = (Ok masvs_raw, w1) ->
  save_report (Some p) masvs_raw w1 = (Ok tt, w2) ->
  node_at (files w2) p = Some (File (Json.dumps masvs_raw))
  /\ node_at (files w2) (parent p) = Some Dir
  /\ run_masvs_audit g app_path level fail_on_violation base_url api_key (Some p) w
     = report masvs_raw level fail_on_violation w2
  /\ files (snd (report masvs_raw level fail_on_violation w2)) = files w2.
Proof.
  intros Hfetch Hsave.
  destruct (save_report_done p masvs_raw w1 w2 Hsave) as [Hfile Hdir].
  repeat split; auto.
  - unfold run_masvs_audit. unfold bind at 1. rewrite Hfetch.
    unfold bind at 1. rewrite Hsave. reflexivity.
  - apply report_keeps_files.
Qed.

Lemma report_saved_before_classification_witness :
  node_at
    (files (snd (@save_report sample_runtime (output sample_args) example_payload
                   (snd (fetch_report sample_globals (app sample_args)
                           (masvs_level sample_args) (mobsf_url sample_args)
                           (api_key sample_args) sample_world)))))
    ["work"; "reports"; "masvs.json"]%string
  = Some (File (@Json.dumps sample_runtime example_payload)).
Proof.
  refine (proj1 (@report_saved_before_classification sample_runtime sample_globals
                   (app sample_args) (masvs_level sample_args) true
                   (mobsf_url sample_args) (api_key sample_args)
                   ["work"; "reports"; "masvs.json"]%string example_payload
                   sample_world
                   (snd (fetch_report sample_globals (app sample_args)
                           (masvs_level sample_args) (mobsf_url sample_args)
                           (api_key sample_args) sample_world))
                   _ _ _)).
  - apply pair_from_fst. vm_compute. reflexivity.
  - apply pair_from_fst. vm_compute. reflexivity.
Defined.

(** The claim of a byte-for-byte copy fails on the sample run: the ninth
    and last request is the compliance fetch, the service answers it with
    the compact text of the example, and the file written at the output
    path holds the re-serialised payload, spread over lines and indented,
    which is another text. *)
Lemma saved_report_is_not_the_response_body :
  List.length (sent (snd (@script sample_runtime sample_args sample_world))) = 9%nat
  /\ nth_error (sent (snd (@script sample_runtime sample_args sample_world))) 8
     = Some (post_request sample_session (sample_base_url ++ "/api/v1/masvs")
               (FormBody (JDict [("scan_type", JStr "apk"); ("file_name", JStr "app.apk");
                                 ("hash", JStr "abc"); ("masvs_level", JStr "L2")]%string))
               60)
  /\ sample_service 8
       (post_request sample_session (sample_base_url ++ "/api/v1/masvs")
          (FormBody (JDict [("scan_type", JStr "apk"); ("file_name", JStr "app.apk");
                            ("hash", JStr "abc"); ("masvs_level", JStr "L2")]%string))
          60)
     = (10000000%N, Replied sample_masvs_response)
  /\ node_at (files (snd (@script sample_runtime sample_args sample_world)))
       ["work"; "reports"; "masvs.json"]%string
     = Some (File (@Json.dumps sample_runtime example_payload))
  /\ node_at (files (snd (@script sample_runtime sample_args sample_world)))
       ["work"; "reports"; "masvs.json"]%string
     <> Some (File (raw sample_masvs_response)).
Proof.
  repeat split; try (vm_compute; reflexivity).
  vm_compute. intros H. discriminate H.
Qed.

(** * Further properties *)

(** ** Relations every step respects *)

Section Respects.
Variable R : world -> world -> Prop.
Hypothesis R_refl : forall w, R w w.
Hypothesis R_trans : forall w1 w2 w3, R w1 w2 -> R w2 w3 -> R w1 w3.

Lemma respects_ret {A : Type} (a : A) : respects R (ret a).
Proof. intros w. apply R_refl. Qed.

Lemma respects_raise {A : Type} (e : exn) : respects R (@raise A e).
Proof. intros w. apply R_refl. Qed.

Lemma respects_lift {A : Type} (r : result A) : respects R (lift r).
Proof. intros w. apply R_refl. Qed.

Lemma respects_bind {A B : Type} (c : io A) (k : A -> io B) :
  respects R c -> (forall a, respects R (k a)) -> respects R (bind c k).
Proof.
  intros Hc Hk w. unfold bind. specialize (Hc w).
  destruct (c w) as [[a|e] w']; simpl in *.
  - exact (R_trans _ _ _ Hc (Hk a w')).
  - exact Hc.
Qed.

Lemma respects_attempt {A : Type} (c : io A) : respects R c -> respects R (attempt c).
Proof.
  intros Hc w. unfold attempt. specialize (Hc w).
  destruct (c w) as [[a|[]] w']; exact Hc.
Qed.

Lemma respects_monotonic : respects R monotonic.
Proof. intros w. apply R_refl. Qed.

Lemma respects_float_test (test : float_clock -> bool) : respects R (float_test test).
Proof. intros w. apply R_refl. Qed.

Lemma respects_getenv (name : string) : respects R (getenv name).
Proof. intros w. apply R_refl. Qed.

Lemma respects_path_exists (p : path) : respects R (path_exists p).
Proof. intros w. apply R_refl. Qed.

Lemma respects_read_file (p : path) : respects R (read_file p).
Proof.
  intros w. unfold read_file. destruct (node_at (files w) p) as [[content|]|]; apply R_refl.
Qed.

Local Ltac r_bind := apply respects_bind.
Local Ltac r_ret := apply respects_ret.

Lemma respects_raise_for_status (r : response) (context : string) :
  respects R (_raise_for_status r context).
Proof.
  unfold _raise_for_status. destruct (is_http_error (status_code r));
    [apply respects_raise | apply respects_ret].
Qed.

Lemma respects_response_json (r : response) : respects R (response_json r).
Proof.
  unfold response_json. destruct (decoded r); [apply respects_ret | apply respects_raise].
Qed.

Variable Q : request -> Prop.
Hypothesis R_send : forall r, Q r -> respects R (send r).
Hypothesis R_print : forall (s : stream) (m : message), respects R (print s m).
Hypothesis R_sleep : forall seconds, respects R (sleep seconds).

Lemma respects_probe (r : request) : Q r -> respects R (probe r).
Proof.
  intros Hr. unfold probe. apply respects_bind.
  - apply respects_attempt, R_send, Hr.
  - intros [resp|]; apply respects_ret.
Qed.

Variables (s : session) (base_url : string).
Hypothesis Q_get : forall timeout, Q (get_request s base_url timeout).
Hypothesis Q_post :
  forall suffix b timeout, Q (post_request s (base_url ++ suffix) b timeout).

Lemma respects_wait_for_server (timeout : Z) :
  respects R (wait_for_server s base_url timeout).
Proof.
  unfold wait_for_server. apply respects_bind; [apply respects_monotonic|].
  intros start. generalize (S (S (Z.to_nat timeout))). intros fuel.
  induction fuel as [|fuel IH]; cbn [wait_for_server_loop]; [apply respects_raise|].
  apply respects_bind; [apply respects_monotonic|]. intros now.
  apply respects_bind; [apply respects_float_test|]. intros [|]; [|apply respects_raise].
  apply respects_bind; [apply respects_probe, Q_get|]. intros [|].
  - apply respects_ret.
  - apply respects_bind; [apply R_sleep | intros _; exact IH].
Qed.

Lemma respects_upload_app (app_path : path) :
  respects R (upload_app s base_url app_path).
Proof.
  unfold upload_app. apply respects_bind; [apply respects_read_file|]. intros content.
  apply respects_bind; [apply R_send, Q_post|]. intros response.
  apply respects_bind; [apply respects_raise_for_status|]. intros _.
  apply respects_bind; [apply respects_response_json|]. intros payload.
  destruct payload; try apply respects_raise.
  destruct (missing_keys items); [apply respects_ret | apply respects_raise].
Qed.

Lemma respects_fallback (endpoint context : string) (payload : json) (timeout : Z)
  (rejected : Z -> bool) :
  respects R
    (response <- send (post_request s (base_url ++ endpoint) (JsonBody payload) timeout) ;;
     response <- (if rejected (status_code response)
                  then send (post_request s (base_url ++ endpoint) (FormBody payload)
                               timeout)
                  else ret response) ;;
     _raise_for_status response context ;;
     response_json response).
Proof.
  apply respects_bind; [apply R_send, Q_post|]. intros response.
  apply respects_bind.
  - destruct (rejected (status_code response)); [apply R_send, Q_post | apply respects_ret].
  - intros response'. apply respects_bind; [apply respects_raise_for_status|].
    intros _. apply respects_response_json.
Qed.

Lemma respects_trigger_scan (upload_meta : list (string * json)) :
  respects R (trigger_scan s base_url upload_meta).
Proof.
  unfold trigger_scan. apply respects_bind; [apply respects_lift|]. intros scan_type.
  apply respects_bind; [apply respects_lift|]. intros file_name.
  apply respects_bind; [apply respects_lift|]. intros hash.
  exact (respects_fallback "/api/v1/scan" "Scan" _ 120 (fun status => status =? 415)).
Qed.

Lemma respects_request_masvs_report (upload_meta : list (string * json)) (level : string) :
  respects R (request_masvs_report s base_url upload_meta level).
Proof.
  unfold request_masvs_report. cbv zeta.
  apply respects_bind; [apply respects_lift|]. intros scan_type.
  apply respects_bind; [apply respects_lift|]. intros file_name.
  apply respects_bind; [apply respects_lift|]. intros hash.
  exact (respects_fallback "/api/v1/masvs" "MASVS report" _ 60
           (fun status => (status =? 400) || (status =? 415))).
Qed.

Lemma respects_wait_for_scan_completion (g : globals) (upload_meta : list (string * json)) :
  respects R (wait_for_scan_completion g s base_url upload_meta).
Proof.
  unfold wait_for_scan_completion. apply respects_bind; [apply respects_monotonic|].
  intros start. apply respects_bind; [apply respects_float_test|].
  intros [|]; [|apply respects_raise].
  cbv zeta. apply respects_bind; [apply respects_lift|]. intros hash.
  generalize (S (S (Z.to_nat (2 * POLL_TIMEOUT_SECONDS g)))). intros fuel.
  induction fuel as [|fuel IH]; cbn [wait_for_scan_completion_loop];
    [apply respects_raise|].
  apply respects_bind; [apply respects_monotonic|]. intros now.
  apply respects_bind; [apply respects_float_test|]. intros [|]; [|apply respects_raise].
  apply respects_bind; [apply respects_probe, Q_post|]. intros [|].
  - apply respects_ret.
  - apply respects_bind; [apply R_sleep | intros _; exact IH].
Qed.

End Respects.

Section RespectsRun.
Context {rt : PyRuntime}.
Variable R : world -> world -> Prop.
Hypothesis R_refl : forall w, R w w.
Hypothesis R_trans : forall w1 w2 w3, R w1 w2 -> R w2 w3 -> R w1 w3.
Variable Q : request -> Prop.
Hypothesis R_send : forall r, Q r -> respects R (send r).
Hypothesis R_print : forall (s : stream) (m : message), respects R (print s m).
Hypothesis R_sleep : forall seconds, respects R (sleep seconds).
Hypothesis R_summaries :
  forall (l : list (string * step_summary)) (w : world), R w (set_summaries l w).
Variables (base_url key : string) (output_path : option path).
Hypothesis Q_get : forall timeout, Q (get_request {| authorization := key |} base_url timeout).
Hypothesis Q_post :
  forall suffix b timeout,
    Q (post_request {| authorization := key |} (base_url ++ suffix) b timeout).
Hypothesis R_save : forall masvs_raw, respects R (save_report output_path masvs_raw).

Local Ltac r_bind := apply (respects_bind R R_trans).
Local Ltac r_ret := apply (respects_ret R R_refl).
Local Ltac r_raise := apply (respects_raise R R_refl).
Local Ltac r_lift := apply (respects_lift R R_refl).

Lemma respects_fetch_report (g : globals) (app_path : path) (level : string) :
  respects R (fetch_report g app_path level base_url key).
Proof.
  unfold fetch_report. r_bind; [apply (respects_path_exists R R_refl)|].
  intros found. destruct (negb found); [r_raise|]. cbv zeta.
  r_bind;
    [exact (respects_wait_for_server R R_refl R_trans Q R_send R_sleep _ _ Q_get 120)|].
  intros _. r_bind; [apply R_print|]. intros _.
  r_bind;
    [exact (respects_upload_app R R_refl R_trans Q R_send _ _ Q_post app_path)|].
  intros upload_meta.
  r_bind; [r_lift|]. intros file_name.
  r_bind; [r_lift|]. intros hash.
  r_bind; [apply R_print|]. intros _.
  r_bind;
    [exact (respects_trigger_scan R R_refl R_trans Q R_send _ _ Q_post upload_meta)|].
  intros _. r_bind; [apply R_print|]. intros _.
  r_bind;
    [exact (respects_wait_for_scan_completion R R_refl R_trans Q R_send R_sleep _ _
              Q_post g upload_meta)|].
  intros _.
  exact (respects_request_masvs_report R R_refl R_trans Q R_send _ _ Q_post
           upload_meta level).
Qed.

Lemma respects_report (masvs_raw : json) (level : string) (fail_on_violation : bool) :
  respects R (report masvs_raw level fail_on_violation).
Proof.
  unfold report. r_bind; [r_lift|]. intros result.
  r_bind; [apply R_print|]. intros _.
  destruct (Py.truthy (JList (failed result))).
  - r_bind; [apply R_print|]. intros _.
    r_bind; [r_lift|]. intros rendered.
    r_bind; [apply R_print|]. intros _.
    destruct fail_on_violation; [r_raise | r_ret].
  - r_bind; [apply R_print|]. intros _. r_ret.
Qed.

Lemma respects_run_masvs_audit (g : globals) (app_path : path) (level : string)
  (fail_on_violation : bool) :
  respects R (run_masvs_audit g app_path level fail_on_violation base_url key output_path).
Proof.
  unfold run_masvs_audit. r_bind; [apply respects_fetch_report|].
  intros masvs_raw. r_bind; [apply R_save|]. intros _.
  apply respects_report.
Qed.

Lemma respects_append_step_summary (summary : step_summary) :
  respects R (_append_step_summary summary).
Proof.
  unfold _append_step_summary. r_bind; [apply (respects_getenv R R_refl)|].
  intros [p|]; [|r_ret].
  destruct (Text.is_empty p); [r_ret|].
  intros w. destruct (appendable w p); simpl; auto.
Qed.

Lemma respects_main (g : globals) (a : args) :
  mobsf_url a = base_url -> api_key a = key -> output a = output_path ->
  respects R (main g a).
Proof.
  intros Hu Hk Ho w. unfold main. rewrite Hu, Hk, Ho.
  pose proof (respects_run_masvs_audit g (app a) (masvs_level a) (fail_on_violation a) w)
    as Hrun.
  destruct (run_masvs_audit g (app a) (masvs_level a) (fail_on_violation a)
              base_url key output_path w) as [[result|e] w'].
  - simpl in Hrun. apply (R_trans _ _ _ Hrun).
    r_bind; [apply respects_append_step_summary|].
    intros _. r_ret.
  - simpl in Hrun.
    assert (Hcaught : forall (m : message) (sm : step_summary),
               R w (snd ((print Stderr m ;; _append_step_summary sm ;; ret 1) w'))).
    { intros m sm. apply (R_trans _ _ _ Hrun).
      r_bind; [apply R_print|]. intros _.
      r_bind; [apply respects_append_step_summary|].
      intros _. r_ret. }
    destruct e; try exact Hrun; apply Hcaught.
Qed.

Lemma respects_get_positive_int_env (env_name : string) (default : Z) :
  respects R (_get_positive_int_env env_name default).
Proof.
  unfold _get_positive_int_env. r_bind; [apply (respects_getenv R R_refl)|].
  intros [raw|]; [|r_ret].
  destruct (Py.int raw) as [parsed|e].
  - destruct (parsed <=? 0); [|r_ret].
    r_bind; [apply R_print|]. intros _. r_ret.
  - destruct e; try r_raise.
    r_bind; [apply R_print|]. intros _. r_ret.
Qed.

Lemma respects_script (a : args) :
  mobsf_url a = base_url -> api_key a = key -> output a = output_path ->
  respects R (script a).
Proof.
  intros Hu Hk Ho. unfold script, load_globals.
  r_bind.
  - r_bind; [apply respects_get_positive_int_env|]. intros delay.
    r_bind; [apply respects_get_positive_int_env|]. intros timeout.
    r_ret.
  - intros g. apply respects_main; assumption.
Qed.

End RespectsRun.

(** ** Requests of a run *)

Lemma prefix_append (s t : string) : String.prefix s (s ++ t) = true.
Proof.
  induction s as [|c s IH]; simpl.
  - destruct t; reflexivity.
  - destruct (ascii_dec c c) as [_|Hc]; [exact IH | congruence].
Qed.

Lemma prefix_self (s : string) : String.prefix s s = true.
Proof.
  induction s as [|c s IH]; simpl; [reflexivity|].
  destruct (ascii_dec c c) as [_|Hc]; [exact IH | congruence].
Qed.

Lemma sends_only_refl (Q : request -> Prop) (w : world) : sends_only Q w w.
Proof. exists []. split; [now rewrite app_nil_r | constructor]. Qed.

Lemma sends_only_trans (Q : request -> Prop) (w1 w2 w3 : world) :
  sends_only Q w1 w2 -> sends_only Q w2 w3 -> sends_only Q w1 w3.
Proof.
  intros (l1 & E1 & F1) (l2 & E2 & F2). exists (l1 ++ l2). split.
  - now rewrite E2, E1, app_assoc.
  - apply Forall_app; split; assumption.
Qed.

Lemma sends_only_same_sent (Q : request -> Prop) (w w' : world) :
  sent w' = sent w -> sends_only Q w w'.
Proof. intros E. exists []. split; [now rewrite app_nil_r | constructor]. Qed.

Lemma sends_only_send (Q : request -> Prop) (r : request) :
  Q r -> respects (sends_only Q) (send r).
Proof.
  intros Hr w. unfold send. destruct (answer w r) as [elapsed [|resp]]; simpl;
    (exists [r]; split; [reflexivity | repeat constructor; exact Hr]).
Qed.

Lemma sends_only_save_report {rt : PyRuntime} (Q : request -> Prop)
  (output_path : option path) (masvs_raw : json) :
  respects (sends_only Q) (save_report output_path masvs_raw).
Proof.
  intros w. apply sends_only_same_sent.
  destruct output_path as [p|]; [|reflexivity].
  unfold save_report, bind, mkdir_parents, write_text, print.
  destruct (make_dirs (files w) [] (parent p)) as [fs|e]; [|reflexivity]. simpl.
  destruct (node_at fs (parent p)) as [[content|]|]; try reflexivity.
  destruct (node_at fs p) as [[content|]|]; try reflexivity;
    destruct p; reflexivity.
Qed.

(** X1: every request [main] sends, on any path through the run, carries
    the API key as its authorization and goes to a URL that starts with
    the base URL; no request already in the log is dropped. *)
Theorem requests_are_authorized_and_addressed {rt : PyRuntime} (g : globals) (a : args)
  (w : world) :
  sends_only (addressed (mobsf_url a) (api_key a)) w (snd (main g a w))
  /\ sends_only (addressed (mobsf_url a) (api_key a)) w (snd (script a w)).
Proof.
  assert (Hget : forall timeout,
             addressed (mobsf_url a) (api_key a)
               (get_request {| authorization := api_key a |} (mobsf_url a) timeout))
    by (intros timeout; split; [reflexivity | apply prefix_self]).
  assert (Hpost : forall suffix b timeout,
             addressed (mobsf_url a) (api_key a)
               (post_request {| authorization := api_key a |} (mobsf_url a ++ suffix)
                  b timeout))
    by (intros suffix b timeout; split; [reflexivity | apply prefix_append]).
  split.
  - apply (respects_main (sends_only (addressed (mobsf_url a) (api_key a)))
             (sends_only_refl _) (sends_only_trans _) (addressed (mobsf_url a) (api_key a))
             (sends_only_send _)
             (fun s m w0 => sends_only_same_sent _ _ _ eq_refl)
             (fun n w0 =>
                sends_only_same_sent _ _ _ (sleep_keeps sent n w0 (fun _ _ => eq_refl)))
             (fun l w0 => sends_only_same_sent _ _ _ eq_refl)
             (mobsf_url a) (api_key a) (output a) Hget Hpost
             (sends_only_save_report _ _) g a eq_refl eq_refl eq_refl).
  - apply (respects_script (sends_only (addressed (mobsf_url a) (api_key a)))
             (sends_only_refl _) (sends_only_trans _) (addressed (mobsf_url a) (api_key a))
             (sends_only_send _)
             (fun s m w0 => sends_only_same_sent _ _ _ eq_refl)
             (fun n w0 =>
                sends_only_same_sent _ _ _ (sleep_keeps sent n w0 (fun _ _ => eq_refl)))
             (fun l w0 => sends_only_same_sent _ _ _ eq_refl)
             (mobsf_url a) (api_key a) (output a) Hget Hpost
             (sends_only_save_report _ _) a eq_refl eq_refl eq_refl).
Qed.

(** ** Files of a run *)

Lemma keeps_nodes_refl (spared : path -> Prop) (w : world) : keeps_nodes spared w w.
Proof. intros q n _ H. exact H. Qed.

Lemma keeps_nodes_trans (spared : path -> Prop) (w1 w2 w3 : world) :
  keeps_nodes spared w1 w2 -> keeps_nodes spared w2 w3 -> keeps_nodes spared w1 w3.
Proof. intros H1 H2 q n Hq H. exact (H2 q n Hq (H1 q n Hq H)). Qed.

Lemma keeps_nodes_same_files (spared : path -> Prop) (w w' : world) :
  files w' = files w -> keeps_nodes spared w w'.
Proof. intros E q n _ H. now rewrite E. Qed.

Lemma same_files_send (r : request) (w : world) : files (snd (send r w)) = files w.
Proof. unfold send. destruct (answer w r) as [elapsed [|resp]]; reflexivity. Qed.

Lemma keeps_nodes_save_report {rt : PyRuntime} (output_path : option path)
  (masvs_raw : json) :
  respects (keeps_nodes (fun q => output_path <> Some q)) (save_report output_path masvs_raw).
Proof.
  intros w. destruct output_path as [p|]; [|apply keeps_nodes_refl].
  intros q n Hq Hnode.
  unfold save_report, bind, mkdir_parents, write_text, print.
  destruct (make_dirs (files w) [] (parent p)) as [fs|e] eqn:M; [|exact Hnode]. simpl.
  pose proof (make_dirs_keeps _ _ _ _ M q n Hnode) as Hkept.
  assert (Hwritten : forall c rest content,
             c :: rest = p ->
             node_at ((c :: rest, File content) :: fs) q = Some n).
  { intros c rest content Hp. rewrite node_at_cons by discriminate.
    destruct (path_eqb q (c :: rest)) eqn:E; [|exact Hkept].
    apply path_eqb_eq in E. subst q. congruence. }
  destruct (node_at fs (parent p)) as [[content|]|]; try exact Hkept.
  destruct (node_at fs p) as [[content|]|]; try exact Hkept;
    (destruct p as [|c rest]; [exact Hkept|]); simpl; apply Hwritten; reflexivity.
Qed.

(** ** Exceptions of a run *)

Lemma raises_only_bind {A B : Type} (E : exn -> bool) (P : A -> Prop)
  (c : io A) (k : A -> io B) :
  raises_only E c -> returns_only P c ->
  (forall a, P a -> raises_only E (k a)) ->
  raises_only E (bind c k).
Proof.
  intros Hc Hp Hk w e w'. unfold bind.
  destruct (c w) as [[a|e0] w0] eqn:Hcw.
  - apply (Hk a (Hp w a w0 Hcw)).
  - intros H. injection H as <- <-. exact (Hc w e0 w0 Hcw).
Qed.

Lemma raises_only_then {A B : Type} (E : exn -> bool) (c : io A) (k : A -> io B) :
  raises_only E c -> (forall a, raises_only E (k a)) -> raises_only E (bind c k).
Proof.
  intros Hc Hk. apply (raises_only_bind E (fun _ => True) c k Hc).
  - intros w a w' _. exact I.
  - intros a _. apply Hk.
Qed.

Lemma raises_only_weaken {A : Type} (E E' : exn -> bool) (c : io A) :
  (forall e, E e = true -> E' e = true) -> raises_only E c -> raises_only E' c.
Proof. intros HE Hc w e w' H. exact (HE e (Hc w e w' H)). Qed.

Lemma raises_only_ret {A : Type} (E : exn -> bool) (a : A) : raises_only E (ret a).
Proof. intros w e w' H. discriminate H. Qed.

Lemma raises_only_raise {A : Type} (E : exn -> bool) (e : exn) :
  E e = true -> raises_only E (@raise A e).
Proof. intros He w e' w' H. injection H as <- _. exact He. Qed.

Lemma raises_only_lift {A : Type} (E : exn -> bool) (r : result A) :
  fails_only E r -> raises_only E (lift r).
Proof. intros Hr w e w' H. injection H as -> _. exact (Hr e eq_refl). Qed.

Lemma raises_only_print (E : exn -> bool) (s : stream) (m : message) :
  raises_only E (print s m).
Proof. intros w e w' H. discriminate H. Qed.

Lemma raises_only_monotonic (E : exn -> bool) : raises_only E monotonic.
Proof. intros w e w' H. discriminate H. Qed.

Lemma raises_only_float_test (E : exn -> bool) (test : float_clock -> bool) :
  raises_only E (float_test test).
Proof. intros w e w' H. discriminate H. Qed.

Lemma raises_only_probe (E : exn -> bool) (r : request) : raises_only E (probe r).
Proof. intros w e w'. rewrite probe_run. intros H. discriminate H. Qed.

Lemma raises_only_sleep (seconds : Z) : raises_only ordinary (sleep seconds).
Proof.
  intros w e w'. unfold sleep.
  destruct (seconds <? 0); [intros H; injection H as <- _; reflexivity|].
  destruct (longest_sleep <? seconds); intros H;
    [injection H as <- _; reflexivity | discriminate H].
Qed.

Lemma raises_only_send (r : request) : raises_only ordinary (send r).
Proof.
  intros w e w'. unfold send. destruct (answer w r) as [elapsed [|resp]]; intros H.
  - injection H as <- _. reflexivity.
  - discriminate H.
Qed.

Lemma raises_only_settle (context : string) (r : response) :
  raises_only ordinary (_raise_for_status r context ;; response_json r).
Proof.
  intros w e w'. rewrite raise_for_status_then_json. unfold settled.
  destruct (is_http_error (status_code r)).
  - intros H. injection H as <- _. reflexivity.
  - destruct (decoded r); intros H; [discriminate H|]. injection H as <- _. reflexivity.
Qed.

Lemma fails_only_rbind {A B : Type} (E : exn -> bool) (r : result A)
  (k : A -> result B) :
  fails_only E r -> (forall a, fails_only E (k a)) -> fails_only E (rbind r k).
Proof.
  intros Hr Hk e. destruct r as [a|e0]; simpl.
  - apply Hk.
  - intros H. injection H as <-. exact (Hr e0 eq_refl).
Qed.

Lemma fails_only_ok {A : Type} (E : exn -> bool) (a : A) : fails_only E (Ok a).
Proof. intros e H. discriminate H. Qed.

Lemma fails_only_get (obj : json) (key : string) (default : json) :
  fails_only uncaught (Py.get obj key default).
Proof. intros e. destruct obj; simpl; intros H; try discriminate H; now injection H as <-. Qed.

Lemma fails_only_get_or (obj : json) (key : string) (rest : result json) :
  fails_only uncaught rest -> fails_only uncaught (get_or obj key rest).
Proof.
  intros Hrest. unfold get_or. apply fails_only_rbind; [apply fails_only_get|].
  intros found. unfold or_else. destruct (Py.truthy found); [apply fails_only_ok | exact Hrest].
Qed.

Lemma fails_only_get_first (obj : json) (first second : string) (default : json) :
  fails_only uncaught (get_first obj first second default).
Proof.
  unfold get_first. apply fails_only_get_or, fails_only_get_or, fails_only_ok.
Qed.

Lemma fails_only_classify {rt : PyRuntime} (entries : list json) :
  forall (count : Z) (kept : list json), fails_only uncaught (classify entries count kept).
Proof.
  induction entries as [|entry rest IH]; intros count kept; cbn [classify].
  - apply fails_only_ok.
  - apply fails_only_rbind.
    + unfold entry_status. apply fails_only_rbind; [apply fails_only_get_first|].
      intros status_raw. apply fails_only_ok.
    + intros status. destruct (Text.mem status PASS_TOKENS); [apply IH|].
      destruct (negb (Text.is_empty status)); apply IH.
Qed.

(** [parse_masvs] raises nothing but [AttributeError] and [TypeError]. *)
Lemma fails_only_parse_masvs {rt : PyRuntime} (data : json) (level : string) :
  fails_only uncaught (parse_masvs data level).
Proof.
  unfold parse_masvs. apply fails_only_rbind; [apply fails_only_get_first|].
  intros controls. apply fails_only_rbind.
  { intros e. destruct controls; simpl; intros H; try discriminate H; now injection H as <-. }
  intros entries. apply fails_only_rbind; [apply fails_only_classify|].
  intros counted. apply fails_only_rbind; [apply fails_only_get_first|].
  intros aggregate.
  destruct (negb (Py.truthy controls) && Py.truthy aggregate); [|apply fails_only_ok].
  unfold from_aggregate. apply fails_only_rbind; [apply fails_only_get_first|].
  intros failed_controls. apply fails_only_rbind; [apply fails_only_get|].
  intros by_pass. apply fails_only_rbind.
  - unfold or_else. destruct (Py.truthy by_pass); [apply fails_only_ok | apply fails_only_get].
  - intros passed. apply fails_only_ok.
Qed.

Lemma fails_only_render_lines {rt : PyRuntime} (failures : list json) :
  fails_only uncaught (render_lines failures).
Proof.
  induction failures as [|entry rest IH]; cbn [render_lines]; [apply fails_only_ok|].
  apply fails_only_rbind.
  - unfold render_entry.
    apply fails_only_rbind; [apply fails_only_get_or, fails_only_get_first|].
    intros requirement. apply fails_only_rbind; [apply fails_only_get_first|].
    intros description. apply fails_only_rbind; [apply fails_only_get_first|].
    intros guidance. apply fails_only_ok.
  - intros line. apply fails_only_rbind; [exact IH|]. intros lines. apply fails_only_ok.
Qed.

Lemma fails_only_weaken {A : Type} (r : result A) :
  fails_only uncaught r -> fails_only ordinary r.
Proof. intros H e He. specialize (H e He). destruct e; try discriminate H; reflexivity. Qed.

Lemma raises_only_report {rt : PyRuntime} (masvs_raw : json) (level : string)
  (fail_on_violation : bool) :
  raises_only ordinary (report masvs_raw level fail_on_violation).
Proof.
  unfold report. apply raises_only_then.
  { apply raises_only_lift, fails_only_weaken, fails_only_parse_masvs. }
  intros result. apply raises_only_then; [apply raises_only_print|]. intros _.
  destruct (Py.truthy (JList (failed result))).
  - apply raises_only_then; [apply raises_only_print|]. intros _.
    apply raises_only_then.
    { apply raises_only_lift, fails_only_weaken. unfold render_failures.
      apply fails_only_rbind; [apply fails_only_render_lines|].
      intros lines. apply fails_only_ok. }
    intros rendered. apply raises_only_then; [apply raises_only_print|]. intros _.
    destruct fail_on_violation; [apply raises_only_raise; reflexivity | apply raises_only_ret].
  - apply raises_only_then; [apply raises_only_print|]. intros _. apply raises_only_ret.
Qed.

Lemma raises_only_save_report {rt : PyRuntime} (output_path : option path)
  (masvs_raw : json) :
  raises_only ordinary (save_report output_path masvs_raw).
Proof.
  destruct output_path as [p|]; [|apply raises_only_ret].
  unfold save_report. apply raises_only_then.
  { intros w e w'. unfold mkdir_parents.
    destruct (make_dirs (files w) [] (parent p)) as [fs|e0] eqn:M; intros H;
      [discriminate H|]. injection H as <- _.
    clear - M. revert M. generalize (files w) (@nil string).
    induction (parent p) as [|c rest IH]; intros fs prefix; simpl; [discriminate|].
    destruct (node_at fs (prefix ++ [c])) as [[content|]|]; try apply IH.
    intros H. injection H as <-. reflexivity. }
  intros _. apply raises_only_then; [|intros _; apply raises_only_print].
  intros w e w'. unfold write_text.
  destruct (node_at (files w) (parent p)) as [[content|]|];
    try (intros H; injection H as <- _; reflexivity).
  destruct (node_at (files w) p) as [[content|]|]; destruct p;
    intros H; try discriminate H; injection H as <- _; reflexivity.
Qed.

Lemma raises_only_wait_for_server (s : session) (base_url : string) (timeout : Z) :
  raises_only ordinary (wait_for_server s base_url timeout).
Proof.
  unfold wait_for_server. apply raises_only_then; [apply raises_only_monotonic|].
  intros start. generalize (S (S (Z.to_nat timeout))). intros fuel.
  induction fuel as [|fuel IH]; cbn [wait_for_server_loop];
    [apply raises_only_raise; reflexivity|].
  apply raises_only_then; [apply raises_only_monotonic|]. intros now.
  apply raises_only_then; [apply raises_only_float_test|].
  intros [|]; [|apply raises_only_raise; reflexivity].
  apply raises_only_then; [apply raises_only_probe|].
  intros [|]; [apply raises_only_ret|].
  apply raises_only_then; [apply raises_only_sleep | intros _; exact IH].
Qed.

Lemma missing_keys_none (payload : list (string * json)) :
  missing_keys payload = [] -> has_metadata payload.
Proof.
  intros M key Hin Hnone.
  assert (Hmiss : In key (missing_keys payload)).
  { apply missing_keys_spec. split; [simpl in *; tauto | exact Hnone]. }
  rewrite M in Hmiss. destruct Hmiss.
Qed.

(** What [upload_app] returns holds the three keys. *)
Lemma returns_only_upload_app (s : session) (base_url : string) (app_path : path) :
  returns_only has_metadata (upload_app s base_url app_path).
Proof.
  intros w meta w'. unfold upload_app, bind.
  destruct (read_file app_path w) as [[content|e] w0]; [|discriminate].
  destruct (send _ w0) as [[response|e] w1]; [|discriminate].
  destruct (_raise_for_status response "Upload" w1) as [[[]|e] w2]; [|discriminate].
  destruct (response_json response w2) as [[payload|e] w3]; [|discriminate].
  destruct payload; try discriminate.
  destruct (missing_keys items) eqn:M; [|discriminate].
  intros H. injection H as <- _. exact (missing_keys_none items M).
Qed.

Lemma raises_only_upload_app (s : session) (base_url : string) (app_path : path) :
  raises_only ordinary (upload_app s base_url app_path).
Proof.
  unfold upload_app. apply raises_only_then.
  { intros w e w'. unfold read_file.
    destruct (node_at (files w) app_path) as [[content|]|]; intros H;
      try discriminate H; injection H as <- _; reflexivity. }
  intros content. apply raises_only_then; [apply raises_only_send|]. intros response.
  apply raises_only_then.
  { intros w e w'. unfold _raise_for_status.
    destruct (is_http_error (status_code response)); intros H;
      [injection H as <- _; reflexivity | discriminate H]. }
  intros _. apply raises_only_then.
  { intros w e w'. unfold response_json.
    destruct (decoded response); intros H;
      [discriminate H | injection H as <- _; reflexivity]. }
  intros payload. destruct payload; try (apply raises_only_raise; reflexivity).
  destruct (missing_keys items); [apply raises_only_ret | apply raises_only_raise; reflexivity].
Qed.

Lemma has_metadata_item (upload_meta : list (string * json)) (key : string) :
  has_metadata upload_meta ->
  In key ["scan_type"; "file_name"; "hash"]%string ->
  exists v, Py.item upload_meta key = Ok v.
Proof.
  intros Hm Hin. unfold Py.item. specialize (Hm key Hin).
  destruct (Py.lookup upload_meta key) as [v|]; [eexists; reflexivity | congruence].
Qed.

Lemma raises_only_fallback (first second : request) (context : string)
  (rejected : Z -> bool) :
  raises_only ordinary
    (response <- send first ;;
     response <- (if rejected (status_code response) then send second else ret response) ;;
     _raise_for_status response context ;;
     response_json response).
Proof.
  apply raises_only_then; [apply raises_only_send|]. intros response.
  apply raises_only_then.
  - destruct (rejected (status_code response));
      [apply raises_only_send | apply raises_only_ret].
  - intros response'. apply raises_only_settle.
Qed.

Lemma raises_only_trigger_scan (s : session) (base_url : string)
  (upload_meta : list (string * json)) :
  has_metadata upload_meta ->
  raises_only ordinary (trigger_scan s base_url upload_meta).
Proof.
  intros Hm.
  destruct (has_metadata_item upload_meta "scan_type" Hm) as [scan_type Hs];
    [simpl; tauto|].
  destruct (has_metadata_item upload_meta "file_name" Hm) as [file_name Hf];
    [simpl; tauto|].
  destruct (has_metadata_item upload_meta "hash" Hm) as [hash Hh]; [simpl; tauto|].
  unfold trigger_scan. rewrite Hs, Hf, Hh.
  intros w e w'. unfold bind at 1 2 3. unfold lift.
  exact (raises_only_fallback _ _ "Scan" (fun status => status =? 415) w e w').
Qed.

Lemma raises_only_request_masvs_report (s : session) (base_url : string)
  (upload_meta : list (string * json)) (level : string) :
  has_metadata upload_meta ->
  raises_only ordinary (request_masvs_report s base_url upload_meta level).
Proof.
  intros Hm.
  destruct (has_metadata_item upload_meta "scan_type" Hm) as [scan_type Hs];
    [simpl; tauto|].
  destruct (has_metadata_item upload_meta "file_name" Hm) as [file_name Hf];
    [simpl; tauto|].
  destruct (has_metadata_item upload_meta "hash" Hm) as [hash Hh]; [simpl; tauto|].
  unfold request_masvs_report. cbv zeta. rewrite Hs, Hf, Hh.
  intros w e w'. unfold bind at 1 2 3. unfold lift.
  exact (raises_only_fallback _ _ "MASVS report"
           (fun status => (status =? 400) || (status =? 415)) w e w').
Qed.

Lemma raises_only_wait_for_scan_completion (g : globals) (s : session)
  (base_url : string) (upload_meta : list (string * json)) :
  has_metadata upload_meta ->
  raises_only ordinary (wait_for_scan_completion g s base_url upload_meta).
Proof.
  intros Hm.
  destruct (has_metadata_item upload_meta "hash" Hm) as [hash Hh]; [simpl; tauto|].
  unfold wait_for_scan_completion.
  apply raises_only_then; [apply raises_only_monotonic|]. intros start.
  apply raises_only_then; [apply raises_only_float_test|].
  intros [|]; [|apply raises_only_raise; reflexivity].
  cbv zeta. rewrite Hh.
  apply raises_only_then; [intros w e w' H; discriminate H|]. intros hash'.
  generalize (S (S (Z.to_nat (2 * POLL_TIMEOUT_SECONDS g)))). intros fuel.
  induction fuel as [|fuel IH]; cbn [wait_for_scan_completion_loop];
    [apply raises_only_raise; reflexivity|].
  apply raises_only_then; [apply raises_only_monotonic|]. intros now.
  apply raises_only_then; [apply raises_only_float_test|].
  intros [|]; [|apply raises_only_raise; reflexivity].
  apply raises_only_then; [apply raises_only_probe|].
  intros [|]; [apply raises_only_ret|].
  apply raises_only_then; [apply raises_only_sleep | intros _; exact IH].
Qed.

(** The steps of [fetch_report] that follow the check of the binary. *)
Lemma raises_only_scan (g : globals) (s : session) (app_path : path)
  (level base_url : string) :
  raises_only ordinary
    (wait_for_server s base_url 120 ;;
     print Stdout (ServerReachable base_url) ;;
     upload_meta <- upload_app s base_url app_path ;;
     file_name <- lift (Py.item upload_meta "file_name") ;;
     hash <- lift (Py.item upload_meta "hash") ;;
     print Stdout (Uploaded file_name hash) ;;
     trigger_scan s base_url upload_meta ;;
     print Stdout AnalysisStarted ;;
     wait_for_scan_completion g s base_url upload_meta ;;
     request_masvs_report s base_url upload_meta level).
Proof.
  apply raises_only_then; [apply raises_only_wait_for_server|]. intros _.
  apply raises_only_then; [apply raises_only_print|]. intros _.
  apply (raises_only_bind ordinary has_metadata);
    [apply raises_only_upload_app | apply returns_only_upload_app|].
  intros upload_meta Hm.
  destruct (has_metadata_item upload_meta "file_name" Hm) as [file_name Hf];
    [simpl; tauto|].
  destruct (has_metadata_item upload_meta "hash" Hm) as [hash Hh]; [simpl; tauto|].
  rewrite Hf, Hh.
  apply raises_only_then; [intros w e w' H; discriminate H|]. intros file_name'.
  apply raises_only_then; [intros w e w' H; discriminate H|]. intros hash'.
  apply raises_only_then; [apply raises_only_print|]. intros _.
  apply raises_only_then; [apply raises_only_trigger_scan, Hm|]. intros _.
  apply raises_only_then; [apply raises_only_print|]. intros _.
  apply raises_only_then; [apply raises_only_wait_for_scan_completion, Hm|].
  intros _. apply raises_only_request_masvs_report, Hm.
Qed.

Lemma fetch_report_run (g : globals) (app_path : path) (level base_url api_key : string)
  (w : world) :
  fetch_report g app_path level base_url api_key w =
  match node_at (files w) app_path with
  | None => (Raise (MobSFError (AppNotFound app_path)), w)
  | Some _ =>
      (wait_for_server {| authorization := api_key |} base_url 120 ;;
       print Stdout (ServerReachable base_url) ;;
       upload_meta <- upload_app {| authorization := api_key |} base_url app_path ;;
       file_name <- lift (Py.item upload_meta "file_name") ;;
       hash <- lift (Py.item upload_meta "hash") ;;
       print Stdout (Uploaded file_name hash) ;;
       trigger_scan {| authorization := api_key |} base_url upload_meta ;;
       print Stdout AnalysisStarted ;;
       wait_for_scan_completion g {| authorization := api_key |} base_url upload_meta ;;
       request_masvs_report {| authorization := api_key |} base_url upload_meta level) w
  end.
Proof.
  unfold fetch_report. unfold bind at 1. unfold path_exists.
  destruct (node_at (files w) app_path); reflexivity.
Qed.

Lemma ordinary_not_key_error (e : exn) : ordinary e = true -> not_key_error e = true.
Proof. destruct e; try reflexivity. discriminate. Qed.

Lemma raises_only_fetch_report (g : globals) (app_path : path)
  (level base_url api_key : string) :
  raises_only not_key_error (fetch_report g app_path level base_url api_key).
Proof.
  intros w e w'. rewrite fetch_report_run.
  destruct (node_at (files w) app_path) as [n|].
  - intros H. apply ordinary_not_key_error.
    exact (raises_only_scan g _ app_path level base_url w e w' H).
  - intros H. injection H as <- _. reflexivity.
Qed.

Lemma raises_only_run_masvs_audit {rt : PyRuntime} (g : globals) (app_path : path)
  (level : string) (fail_on_violation : bool) (base_url api_key : string)
  (output_path : option path) :
  raises_only not_key_error
    (run_masvs_audit g app_path level fail_on_violation base_url api_key output_path).
Proof.
  unfold run_masvs_audit.
  apply raises_only_then; [apply raises_only_fetch_report|]. intros masvs_raw.
  apply raises_only_then.
  { apply (raises_only_weaken ordinary); [exact ordinary_not_key_error|].
    apply raises_only_save_report. }
  intros _. apply (raises_only_weaken ordinary); [exact ordinary_not_key_error|].
  apply raises_only_report.
Qed.

(** X3: no run ends with a [KeyError].  The later steps of a run read
    [file_name], [hash] and [scan_type] from what [upload_app] returned,
    and [upload_app] returns only metadata that holds the three: so
    neither [run_masvs_audit], nor [main], which lets through what it
    does not catch, nor the script as a whole raises [KeyError], whatever
    the service answers. *)
Theorem no_run_ends_with_a_key_error {rt : PyRuntime} (g : globals) (a : args)
  (w : world) (key : string) :
  fst (run_masvs_audit g (app a) (masvs_level a) (fail_on_violation a)
         (mobsf_url a) (api_key a) (output a) w) <> Raise (KeyError key)
  /\ fst (main g a w) <> Raise (KeyError key)
  /\ fst (script a w) <> Raise (KeyError key).
Proof.
  assert (Hrun : forall (g0 : globals) (w0 : world),
             fst (run_masvs_audit g0 (app a) (masvs_level a) (fail_on_violation a)
                    (mobsf_url a) (api_key a) (output a) w0) <> Raise (KeyError key)).
  { intros g0 w0 H.
    pose proof (raises_only_run_masvs_audit g0 (app a) (masvs_level a)
                  (fail_on_violation a) (mobsf_url a) (api_key a) (output a) w0
                  (KeyError key)
                  (snd (run_masvs_audit g0 (app a) (masvs_level a) (fail_on_violation a)
                          (mobsf_url a) (api_key a) (output a) w0))) as Hno.
    rewrite <- H in Hno. rewrite <- surjective_pairing in Hno.
    specialize (Hno eq_refl). discriminate Hno. }
  assert (Hmain : forall (g0 : globals) (w0 : world),
             fst (main g0 a w0) <> Raise (KeyError key)).
  { intros g0 w0. unfold main. specialize (Hrun g0 w0).
    destruct (run_masvs_audit g0 (app a) (masvs_level a) (fail_on_violation a)
                (mobsf_url a) (api_key a) (output a) w0) as [[result|e] w1].
    - unfold bind.
      destruct (append_step_summary_returns
                  (SummaryDone (Py.truthy (JList (failed result))) (level result)
                     (passed result) (List.length (failed result)) (output a)) w1)
        as [w2 ->]. discriminate.
    - assert (Hcaught : forall (m : message) (sm : step_summary),
                 fst ((print Stderr m ;; _append_step_summary sm ;; ret 1) w1) = Ok 1).
      { intros m sm. unfold bind at 1. unfold print at 1. unfold bind.
        destruct (append_step_summary_returns sm
                    (set_printed (printed w1 ++ [(Stderr, m)]) w1)) as [w2 ->].
        reflexivity. }
      destruct e; try (rewrite Hcaught; discriminate); try discriminate.
      simpl in *. intros H. apply Hrun. injection H as ->. reflexivity. }
  split; [apply Hrun|]. split; [apply Hmain|].
  unfold script. unfold bind at 1.
  destruct (load_globals w) as [[g0|e] w0] eqn:Hload; [apply Hmain|].
  exfalso. unfold load_globals, bind in Hload.
  destruct (get_positive_int_env_value
              "MOBSF_POLL_DELAY_SECONDS" DEFAULT_POLL_DELAY_SECONDS w)
    as (w1 & H1 & _).
  rewrite H1 in Hload.
  destruct (get_positive_int_env_value
              "MOBSF_POLL_TIMEOUT_SECONDS" DEFAULT_POLL_TIMEOUT_SECONDS w1)
    as (w2 & H2 & _).
  rewrite H2 in Hload. discriminate Hload.
Qed.

(** ** Verdict and exit code *)

Lemma report_flag {rt : PyRuntime} (masvs_raw : json) (level : string) (w : world) :
  snd (report masvs_raw level true w) = snd (report masvs_raw level false w)
  /\ match fst (report masvs_raw level false w) with
     | Ok r =>
         fst (report masvs_raw level true w)
         = if Py.truthy (JList (failed r))
           then Raise (MobSFError PolicyViolation) else Ok r
     | Raise e => fst (report masvs_raw level true w) = Raise e
     end.
Proof.
  unfold report, bind, lift, print, raise, ret.
  destruct (parse_masvs masvs_raw level) as [result|e]; [|split; reflexivity].
  destruct (Py.truthy (JList (failed result))) eqn:T.
  - destruct (render_failures (failed result)) as [rendered|e]; [|split; reflexivity].
    split; [reflexivity|]. cbn [fst]. now rewrite T.
  - split; [reflexivity|]. cbn [fst]. now rewrite T.
Qed.

Lemma run_masvs_audit_steps {rt : PyRuntime} (g : globals) (app_path : path)
  (level : string) (fail_on_violation : bool) (base_url api_key : string)
  (output_path : option path) (w : world) :
  run_masvs_audit g app_path level fail_on_violation base_url api_key output_path w =
  match fetch_report g app_path level base_url api_key w with
  | (Ok masvs_raw, w1) =>
      match save_report output_path masvs_raw w1 with
      | (Ok _, w2) => report masvs_raw level fail_on_violation w2
      | (Raise e, w2) => (Raise e, w2)
      end
  | (Raise e, w1) => (Raise e, w1)
  end.
Proof.
  unfold run_masvs_audit, bind.
  destruct (fetch_report g app_path level base_url api_key w) as [[masvs_raw|e] w1];
    [|reflexivity].
  destruct (save_report output_path masvs_raw w1) as [[[]|e] w2]; reflexivity.
Qed.

(** X4: [fail_on_violation] changes the verdict and nothing else: with
    the flag on and with it off a run has the same effects on the world,
    and it ends the same way, except that a result with failures is
    returned with the flag off and raised as a policy violation with the
    flag on. *)
Theorem fail_on_violation_only_changes_the_verdict {rt : PyRuntime} (g : globals)
  (app_path : path) (level base_url api_key : string) (output_path : option path)
  (w : world) :
  snd (run_masvs_audit g app_path level true base_url api_key output_path w)
  = snd (run_masvs_audit g app_path level false base_url api_key output_path w)
  /\ match fst (run_masvs_audit g app_path level false base_url api_key output_path w) with
     | Ok r =>
         fst (run_masvs_audit g app_path level true base_url api_key output_path w)
         = if Py.truthy (JList (failed r))
           then Raise (MobSFError PolicyViolation) else Ok r
     | Raise e =>
         fst (run_masvs_audit g app_path level true base_url api_key output_path w)
         = Raise e
     end.
Proof.
  rewrite !run_masvs_audit_steps.
  destruct (fetch_report g app_path level base_url api_key w) as [[masvs_raw|e] w1];
    [|split; reflexivity].
  destruct (save_report output_path masvs_raw w1) as [[[]|e] w2]; [|split; reflexivity].
  apply report_flag.
Qed.

Lemma append_step_summary_keeps_printed (summary : step_summary) (w : world) :
  printed (snd (_append_step_summary summary w)) = printed w.
Proof.
  unfold _append_step_summary, bind, getenv.
  destruct (environ w "GITHUB_STEP_SUMMARY") as [p|]; [|reflexivity].
  destruct (Text.is_empty p); [reflexivity|].
  destruct (appendable w p); reflexivity.
Qed.

Lemma report_returns {rt : PyRuntime} (masvs_raw : json) (level : string)
  (fail_on_violation : bool) (w w' : world) (r : MASVSResult) :
  report masvs_raw level fail_on_violation w = (Ok r, w') ->
  parse_masvs masvs_raw level = Ok r
  /\ (fail_on_violation = true -> failed r = []).
Proof.
  unfold report, bind, lift, print, raise, ret.
  destruct (parse_masvs masvs_raw level) as [result|e]; [|discriminate].
  destruct (Py.truthy (JList (failed result))) eqn:T.
  - destruct (render_failures (failed result)) as [rendered|e]; [|discriminate].
    destruct fail_on_violation; [discriminate|].
    intros H. injection H as <- _. split; [reflexivity | discriminate].
  - intros H. injection H as <- _. split; [reflexivity|].
    intros _. destruct (failed result); [reflexivity | discriminate T].
Qed.

(** X5: what an exit code of [main] tells.  Code 0: the report was
    fetched and classified, the run returned the classification, and with
    [fail_on_violation] on it holds no failure.  Code 1: the run raised
    the tool's error or a failure of the HTTP library, and the last line
    printed is its error line on the error stream. *)
Theorem exit_code_meaning {rt : PyRuntime} (g : globals) (a : args) (w w' : world) :
  (main g a w = (Ok 0, w') ->
   exists (masvs_raw : json) (w1 : world) (r : MASVSResult),
     fetch_report g (app a) (masvs_level a) (mobsf_url a) (api_key a) w
     = (Ok masvs_raw, w1)
     /\ parse_masvs masvs_raw (masvs_level a) = Ok r
     /\ fst (run_masvs_audit g (app a) (masvs_level a) (fail_on_violation a)
               (mobsf_url a) (api_key a) (output a) w) = Ok r
     /\ (fail_on_violation a = true -> failed r = [] /\ is_compliant r = true))
  /\ (main g a w = (Ok 1, w') ->
      exists (before : list (stream * message)) (line : message),
        printed w' = before ++ [(Stderr, line)]
        /\ ((exists m, line = ErrorLine m
                       /\ fst (run_masvs_audit g (app a) (masvs_level a)
                                 (fail_on_violation a) (mobsf_url a) (api_key a)
                                 (output a) w) = Raise (MobSFError m))
            \/ (exists k, line = NetworkErrorLine k
                          /\ fst (run_masvs_audit g (app a) (masvs_level a)
                                    (fail_on_violation a) (mobsf_url a) (api_key a)
                                    (output a) w) = Raise (RequestException k)))).
Proof.
  assert (Hcaught : forall (m : message) (sm : step_summary) (w0 : world),
             fst ((print Stderr m ;; _append_step_summary sm ;; ret 1) w0) = Ok 1
             /\ printed (snd ((print Stderr m ;; _append_step_summary sm ;; ret 1) w0))
                = printed w0 ++ [(Stderr, m)]).
  { intros m sm w0. unfold bind, print.
    pose proof (append_step_summary_keeps_printed sm
                  (set_printed (printed w0 ++ [(Stderr, m)]) w0)) as Hp.
    destruct (append_step_summary_returns sm
                (set_printed (printed w0 ++ [(Stderr, m)]) w0)) as [w'' Hs].
    rewrite Hs in Hp. rewrite Hs. simpl in *. split; [reflexivity | exact Hp]. }
  unfold main.
  pose proof (run_masvs_audit_steps g (app a) (masvs_level a) (fail_on_violation a)
                (mobsf_url a) (api_key a) (output a) w) as Hsteps.
  destruct (run_masvs_audit g (app a) (masvs_level a) (fail_on_violation a)
              (mobsf_url a) (api_key a) (output a) w) as [[r|e] w0].
  - split.
    + intros _.
      destruct (fetch_report g (app a) (masvs_level a) (mobsf_url a) (api_key a) w)
        as [[masvs_raw|e] w1]; [|discriminate Hsteps].
      destruct (save_report (output a) masvs_raw w1) as [[[]|e] w2];
        [|discriminate Hsteps].
      symmetry in Hsteps.
      destruct (report_returns _ _ _ _ _ _ Hsteps) as [Hparse Hflag].
      exists masvs_raw, w1, r. repeat split; auto.
      apply is_compliant_iff. auto.
    + unfold bind.
      destruct (append_step_summary_returns
                  (SummaryDone (Py.truthy (JList (failed r))) (level r) (passed r)
                     (List.length (failed r)) (output a)) w0) as [w'' ->].
      discriminate.
  - split.
    + destruct e; try discriminate; intros H.
      * pose proof (proj1 (Hcaught (ErrorLine m) (SummaryFailed m) w0)) as Hc.
        rewrite H in Hc. discriminate Hc.
      * pose proof (proj1 (Hcaught (NetworkErrorLine k) (SummaryNetwork k) w0)) as Hc.
        rewrite H in Hc. discriminate Hc.
    + destruct e; try discriminate; intros H.
      * pose proof (proj2 (Hcaught (ErrorLine m) (SummaryFailed m) w0)) as Hp.
        rewrite H in Hp. simpl in Hp.
        exists (printed w0), (ErrorLine m). split; [exact Hp|].
        left. exists m. split; reflexivity.
      * pose proof (proj2 (Hcaught (NetworkErrorLine k) (SummaryNetwork k) w0)) as Hp.
        rewrite H in Hp. simpl in Hp.
        exists (printed w0), (NetworkErrorLine k). split; [exact Hp|].
        right. exists k. split; reflexivity.
Qed.

Lemma exit_code_meaning_witness :
  exists (masvs_raw : json) (w1 : world) (r : MASVSResult),
    fetch_report default_globals (app lenient_args) (masvs_level lenient_args)
      (mobsf_url lenient_args) (api_key lenient_args) (world_serving example_payload)
    = (Ok masvs_raw, w1)
    /\ @parse_masvs sample_runtime masvs_raw (masvs_level lenient_args) = Ok r
    /\ fst (@run_masvs_audit sample_runtime default_globals (app lenient_args)
              (masvs_level lenient_args) (fail_on_violation lenient_args)
              (mobsf_url lenient_args) (api_key lenient_args) (output lenient_args)
              (world_serving example_payload)) = Ok r
    /\ (fail_on_violation lenient_args = true -> failed r = [] /\ is_compliant r = true).
Proof.
  refine (proj1 (@exit_code_meaning sample_runtime default_globals lenient_args
                   (world_serving example_payload)
                   (snd (@main sample_runtime default_globals lenient_args
                           (world_serving example_payload)))) _).
  apply pair_from_fst. vm_compute. reflexivity.
Defined.

(** X6: the error of a binary not found means exactly that.  When
    nothing exists at the path of the binary, [run_masvs_audit] raises
    the error that names the path before it does anything else: the world
    is left as it was, with no request sent, no wait, nothing written and
    nothing printed.  And no later step of a run raises that error: a run
    that ends with it found nothing at the path and did nothing. *)
Theorem missing_binary_stops_before_any_request {rt : PyRuntime} (g : globals)
  (app_path : path) (level : string) (fail_on_violation : bool)
  (base_url api_key : string) (output_path : option path) (w : world) :
  (node_at (files w) app_path = None ->
   run_masvs_audit g app_path level fail_on_violation base_url api_key output_path w
   = (Raise (MobSFError (AppNotFound app_path)), w))
  /\ (forall (p : path) (w' : world),
         run_masvs_audit g app_path level fail_on_violation base_url api_key
           output_path w
         = (Raise (MobSFError (AppNotFound p)), w') ->
         node_at (files w) app_path = None /\ p = app_path /\ w' = w).
Proof.
  rewrite run_masvs_audit_steps, fetch_report_run. split.
  - intros ->. reflexivity.
  - intros p w'. destruct (node_at (files w) app_path) as [n|].
    + destruct ((wait_for_server {| authorization := api_key |} base_url 120 ;;
                 print Stdout (ServerReachable base_url) ;;
                 upload_meta <- upload_app {| authorization := api_key |} base_url
                                  app_path ;;
                 file_name <- lift (Py.item upload_meta "file_name") ;;
                 hash <- lift (Py.item upload_meta "hash") ;;
                 print Stdout (Uploaded file_name hash) ;;
                 trigger_scan {| authorization := api_key |} base_url upload_meta ;;
                 print Stdout AnalysisStarted ;;
                 wait_for_scan_completion g {| authorization := api_key |} base_url
                   upload_meta ;;
                 request_masvs_report {| authorization := api_key |} base_url
                   upload_meta level) w) as [[masvs_raw|e] w1] eqn:Hscan.
      * destruct (save_report output_path masvs_raw w1) as [[[]|e] w2] eqn:Hsave.
        -- intros H.
           pose proof (raises_only_report masvs_raw level fail_on_violation w2 _ _ H)
             as Hno.
           discriminate Hno.
        -- intros H. injection H as -> _.
           pose proof (raises_only_save_report output_path masvs_raw w1 _ _ Hsave)
             as Hno.
           discriminate Hno.
      * intros H. injection H as -> _.
        pose proof (raises_only_scan g _ app_path level base_url w _ _ Hscan) as Hno.
        discriminate Hno.
    + intros H. injection H as <- <-. repeat split.
Qed.

Lemma missing_binary_stops_before_any_request_witness :
  @run_masvs_audit sample_runtime default_globals ["work"; "app.apk"]%string "L2" false
    "http://127.0.0.1:8000" "mobsf_default_api_key" None
    (set_files [] (world_serving example_payload))
  = (Raise (MobSFError (AppNotFound ["work"; "app.apk"]%string)),
     set_files [] (world_serving example_payload)).
Proof.
  exact (proj1 (@missing_binary_stops_before_any_request sample_runtime default_globals
                  ["work"; "app.apk"]%string "L2"%string false
                  "http://127.0.0.1:8000"%string "mobsf_default_api_key"%string None
                  (set_files [] (world_serving example_payload)))
           eq_refl).
Defined.

(** ** Rendering of the failures *)

Lemma render_entry_record {rt : PyRuntime} (items : list (string * json)) :
  exists line, render_entry (JDict items) = Ok line.
Proof.
  unfold render_entry, get_or. cbn [Py.get rbind]. rewrite !get_first_dict.
  unfold or_else. destruct (Py.truthy (Py.dict_get items "control" JNull));
    cbn [rbind]; eexists; reflexivity.
Qed.

Lemma render_entry_other {rt : PyRuntime} (entry : json) :
  ~ is_record entry -> render_entry entry = Raise AttributeError.
Proof.
  intros Hn. destruct entry; try reflexivity.
  exfalso. apply Hn. eexists; reflexivity.
Qed.

Lemma render_lines_records {rt : PyRuntime} (failures : list json) :
  Forall is_record failures ->
  exists lines, render_lines failures = Ok lines
                /\ List.length lines = List.length failures.
Proof.
  induction 1 as [|entry rest [items ->] _ (lines & IH & Hlen)]; cbn [render_lines].
  - exists []. split; reflexivity.
  - destruct (render_entry_record items) as [line ->]. cbn [rbind]. rewrite IH.
    exists (line :: lines). split; [reflexivity | simpl; now rewrite Hlen].
Qed.

Lemma render_lines_other {rt : PyRuntime} (failures : list json) :
  Exists (fun entry => ~ is_record entry) failures ->
  render_lines failures = Raise AttributeError.
Proof.
  induction 1 as [entry rest Hn|entry rest _ IH]; cbn [render_lines].
  - now rewrite (render_entry_other entry Hn).
  - rewrite IH. destruct entry as [| b | n | x | text | l | d];
      try reflexivity.
    destruct (render_entry_record d) as [line ->]. reflexivity.
Qed.

(** X7: [render_failures] gives one block per failure when every failure
    is a record, each block three lines long with the placeholder
    [Unknown control] and empty texts for what the record lacks; it
    raises [AttributeError] as soon as one failure is not a record. *)
Theorem render_failures_blocks {rt : PyRuntime} (failures : list json) :
  (Forall is_record failures ->
   exists lines, render_lines failures = Ok lines
                 /\ List.length lines = List.length failures
                 /\ render_failures failures = Ok (Text.join Json.newline lines))
  /\ (Exists (fun entry => ~ is_record entry) failures ->
      render_failures failures = Raise AttributeError)
  /\ (forall items : list (string * json),
         (forall key, In key ["control"; "id"; "title"; "description"; "details";
                              "remediation"; "remedy"]%string ->
                      Py.truthy (Py.dict_get items key JNull) = false) ->
         render_entry (JDict items)
         = Ok ("- Unknown control" ++ Json.newline ++ "  Description: " ++ Json.newline
               ++ "  Guidance: ")%string).
Proof.
  split; [|split].
  - intros Hrec. destruct (render_lines_records failures Hrec) as (lines & Hl & Hlen).
    exists lines. unfold render_failures. rewrite Hl. repeat split. exact Hlen.
  - intros Hex. unfold render_failures. now rewrite (render_lines_other failures Hex).
  - intros items Hfalsy. unfold render_entry, get_or. cbn [Py.get rbind].
    rewrite !get_first_dict. unfold or_else.
    rewrite !Hfalsy by (simpl; tauto). reflexivity.
Qed.

Lemma render_failures_blocks_witness :
  exists lines,
    @render_lines sample_runtime [example_failed_entry; JDict []] = Ok lines
    /\ List.length lines = 2%nat
    /\ @render_failures sample_runtime [example_failed_entry; JDict []]
       = Ok (Text.join Json.newline lines).
Proof.
  refine (proj1 (@render_failures_blocks sample_runtime [example_failed_entry; JDict []]) _).
  repeat constructor; eexists; reflexivity.
Defined.

(** X8: a classification whose failures are not all records (an aggregate
    summary that lists its failures by name, say) ends the run with an
    [AttributeError] raised while the failures are rendered; [main]
    catches it with neither handler, so no exit code is returned, and no
    error line and no step summary are written. *)
Theorem non_record_failure_escapes_main {rt : PyRuntime} (g : globals) (a : args)
  (w w1 w2 : world) (masvs_raw : json) (r : MASVSResult) :
  fetch_report g (app a) (masvs_level a) (mobsf_url a) (api_key a) w
  = (Ok masvs_raw, w1) ->
  save_report (output a) masvs_raw w1 = (Ok tt, w2) ->
  parse_masvs masvs_raw (masvs_level a) = Ok r ->
  Exists (fun entry => ~ is_record entry) (failed r) ->
  main g a w
  = (Raise AttributeError,
     set_printed (printed w2
                  ++ [(Stdout, LevelSummary (level r) (passed r) (List.length (failed r)));
                      (Stdout, NonCompliantDetected)]) w2).
Proof.
  intros Hfetch Hsave Hparse Hex. unfold main.
  rewrite run_masvs_audit_steps, Hfetch, Hsave.
  unfold report, bind, lift, print. rewrite Hparse.
  assert (Ht : Py.truthy (JList (failed r)) = true)
    by (destruct Hex; reflexivity).
  rewrite Ht. unfold render_failures. rewrite (render_lines_other (failed r) Hex).
  cbn. rewrite <- app_assoc. reflexivity.
Qed.

Lemma non_record_failure_escapes_main_witness :
  fst (@main sample_runtime default_globals lenient_args
         (world_serving named_failures_payload)) = Raise AttributeError.
Proof.
  refine (f_equal fst
            (@non_record_failure_escapes_main sample_runtime default_globals lenient_args
               (world_serving named_failures_payload)
               (snd (fetch_report default_globals (app lenient_args)
                       (masvs_level lenient_args) (mobsf_url lenient_args)
                       (api_key lenient_args) (world_serving named_failures_payload)))
               (snd (fetch_report default_globals (app lenient_args)
                       (masvs_level lenient_args) (mobsf_url lenient_args)
                       (api_key lenient_args) (world_serving named_failures_payload)))
               named_failures_payload
               {| level := "L2"; passed := JInt 12; failed := [JStr "MSTG-STORAGE-1"] |}
               _ eq_refl eq_refl _)).
  - apply pair_from_fst. vm_compute. reflexivity.
  - constructor. intros [items H]. discriminate H.
Defined.

(** ** More on the classification *)

Lemma violates_negb_passes {rt : PyRuntime} (entry : json) :
  is_record entry -> violates entry = negb (passes entry).
Proof.
  intros Hrec. destruct (entry_status_record entry Hrec) as [status Hs].
  unfold violates, passes. now rewrite Hs.
Qed.

Lemma filter_split_length {rt : PyRuntime} (entries : list json) :
  Forall is_record entries ->
  (List.length (filter passes entries) + List.length (filter violates entries))%nat
  = List.length entries.
Proof.
  induction 1 as [|entry rest Hrec _ IH]; [reflexivity|].
  cbn [filter]. rewrite (violates_negb_passes entry Hrec).
  destruct (passes entry); cbn [negb List.length]; lia.
Qed.

(** X9: for a non-empty per-control list of records every entry is
    counted once: [passed] is a count, the count and the number of
    failures add up to the length of the list, and every failure is an
    entry of the list. *)
Theorem every_entry_is_counted_once {rt : PyRuntime} (data : json) (level : string)
  (entries : list json) :
  get_first data "controls" "masvs_controls" (JList []) = Ok (JList entries) ->
  Forall is_record entries ->
  entries <> [] ->
  exists (count : Z) (r : MASVSResult),
    parse_masvs data level = Ok r
    /\ passed r = JInt count
    /\ 0 <= count
    /\ count + Z.of_nat (List.length (failed r)) = Z.of_nat (List.length entries)
    /\ (forall entry, In entry (failed r) -> In entry entries).
Proof.
  intros Hc Hrec Hne.
  rewrite (parse_masvs_controls data level entries Hc Hrec Hne).
  eexists; eexists; split; [reflexivity|]. cbn [passed failed].
  split; [reflexivity|]. split; [lia|]. split.
  - rewrite <- (filter_split_length entries Hrec). lia.
  - intros entry Hin. apply filter_In in Hin. tauto.
Qed.

Lemma every_entry_is_counted_once_witness :
  exists (count : Z) (r : MASVSResult),
    @parse_masvs sample_runtime example_payload "L1" = Ok r
    /\ passed r = JInt count
    /\ 0 <= count
    /\ count + Z.of_nat (List.length (failed r)) = 2
    /\ (forall entry, In entry (failed r) ->
                      In entry [example_passed_entry; example_failed_entry]).
Proof.
  refine (@every_entry_is_counted_once sample_runtime example_payload "L1"%string
            [example_passed_entry; example_failed_entry] eq_refl _ _).
  - repeat constructor; eexists; reflexivity.
  - discriminate.
Defined.

Lemma entry_status_other {rt : PyRuntime} (entry : json) :
  ~ is_record entry -> entry_status entry = Raise AttributeError.
Proof.
  intros Hn. destruct entry; try reflexivity.
  exfalso. apply Hn. eexists; reflexivity.
Qed.

Lemma classify_other {rt : PyRuntime} (entries : list json) :
  Exists (fun entry => ~ is_record entry) entries ->
  forall (count : Z) (kept : list json),
    classify entries count kept = Raise AttributeError.
Proof.
  induction 1 as [entry rest Hn|entry rest _ IH]; intros count kept; cbn [classify].
  - now rewrite (entry_status_other entry Hn).
  - destruct entry as [| b | n | x | text | l | d]; try reflexivity.
    destruct (entry_status_record (JDict d)) as [status ->]; [eexists; reflexivity|].
    cbn [rbind]. destruct (Text.mem status PASS_TOKENS); [apply IH|].
    destruct (negb (Text.is_empty status)); apply IH.
Qed.

Lemma parse_masvs_truthy_controls {rt : PyRuntime} (data : json) (level : string)
  (controls : json) :
  get_first data "controls" "masvs_controls" (JList []) = Ok controls ->
  Py.truthy controls = true ->
  parse_masvs data level =
  (entries <- Py.iterate controls ;;
   counted <- classify entries 0 [] ;;
   Ok {| level := level; passed := JInt (fst counted); failed := snd counted |})%res.
Proof.
  intros Hc Ht. unfold parse_masvs. rewrite Hc. cbn [rbind].
  destruct (Py.iterate controls) as [entries|e]; [|reflexivity]. cbn [rbind].
  destruct (classify entries 0 []) as [counted|e]; [|reflexivity]. cbn [rbind].
  destruct (get_first_ok_record _ _ _ _ _ Hc) as [items ->].
  rewrite get_first_dict, Ht. reflexivity.
Qed.

(** X10: what [parse_masvs] does with a truthy value under the controls
    key that is not a list of records: a list with an entry that is not a
    record, a non-empty object and a non-empty string raise
    [AttributeError]; a number or [true] raises [TypeError].  No result
    is returned in these cases, whatever the summary keys hold. *)
Theorem malformed_controls_raise {rt : PyRuntime} (data : json) (level : string)
  (controls : json) :
  get_first data "controls" "masvs_controls" (JList []) = Ok controls ->
  Py.truthy controls = true ->
  (forall entries, controls = JList entries ->
                   Exists (fun entry => ~ is_record entry) entries ->
                   parse_masvs data level = Raise AttributeError)
  /\ (forall items, controls = JDict items -> parse_masvs data level = Raise AttributeError)
  /\ (forall text, controls = JStr text -> parse_masvs data level = Raise AttributeError)
  /\ ((forall entries, controls <> JList entries) ->
      (forall items, controls <> JDict items) ->
      (forall text, controls <> JStr text) ->
      parse_masvs data level = Raise TypeError).
Proof.
  intros Hc Ht. rewrite (parse_masvs_truthy_controls data level controls Hc Ht).
  split; [|split; [|split]].
  - intros entries -> Hex. cbn [Py.iterate rbind].
    now rewrite (classify_other entries Hex).
  - intros items ->. destruct items as [|[k v] rest]; [discriminate Ht|]. reflexivity.
  - intros text ->. destruct text as [|c rest]; [discriminate Ht|]. reflexivity.
  - intros Hl Hd Hs. destruct controls; try reflexivity; try discriminate Ht.
    + destruct (Hs s eq_refl).
    + destruct (Hl items eq_refl).
    + destruct (Hd items eq_refl).
Qed.

Lemma malformed_controls_raise_witness :
  @parse_masvs sample_runtime
    (JDict [("controls", JList [example_passed_entry; JStr "MSTG-CODE-1"])]%string) "L2"
  = Raise AttributeError.
Proof.
  refine (proj1 (@malformed_controls_raise sample_runtime
                   (JDict [("controls",
                            JList [example_passed_entry; JStr "MSTG-CODE-1"])]%string)
                   "L2"%string (JList [example_passed_entry; JStr "MSTG-CODE-1"])
                   eq_refl eq_refl)
            [example_passed_entry; JStr "MSTG-CODE-1"] eq_refl _).
  apply Exists_cons_tl. constructor. intros [items H]. discriminate H.
Defined.

(** X11: in the aggregate case, failures that the summary reports as
    anything but a list (a count, a text) are dropped: [failed] is empty
    and the result is compliant. *)
Theorem aggregate_failures_not_a_list_are_dropped {rt : PyRuntime} (data : json)
  (level : string) (aggregate : list (string * json)) (failed_controls : json) :
  get_first data "controls" "masvs_controls" (JList []) = Ok (JList []) ->
  get_first data "summary" "masvs_summary" (JDict []) = Ok (JDict aggregate) ->
  aggregate <> [] ->
  get_first (JDict aggregate) "failed" "non_compliant" (JList []) = Ok failed_controls ->
  Py.is_list failed_controls = false ->
  exists r, parse_masvs data level = Ok r /\ failed r = [] /\ is_compliant r = true.
Proof.
  intros Hc Ha Hne Hf Hnl.
  rewrite (parse_masvs_no_controls data level (JDict aggregate) Hc Ha).
  destruct aggregate as [|kv rest]; [congruence|]. cbn [Py.truthy].
  unfold from_aggregate. rewrite Hf. cbn [rbind Py.get]. unfold or_else.
  destruct (Py.truthy (Py.dict_get (kv :: rest) "pass" (JInt 0))); cbn [rbind];
    (eexists; split; [reflexivity|]);
    destruct failed_controls; try discriminate Hnl; split; reflexivity.
Qed.

Lemma aggregate_failures_not_a_list_are_dropped_witness :
  exists r,
    @parse_masvs sample_runtime
      (JDict [("summary", JDict [("pass", JInt 40); ("failed", JInt 3)])]%string) "L2"
    = Ok r
    /\ failed r = [] /\ is_compliant r = true.
Proof.
  refine (@aggregate_failures_not_a_list_are_dropped sample_runtime
            (JDict [("summary", JDict [("pass", JInt 40); ("failed", JInt 3)])]%string)
            "L2"%string [("pass", JInt 40); ("failed", JInt 3)]%string (JInt 3)
            eq_refl eq_refl _ eq_refl eq_refl).
  discriminate.
Defined.

(** ** Patience and bounds of the readiness probe *)

Section ReadinessBounds.
Variables (s : session) (base_url : string) (timeout : Z) (w : world).
Hypothesis accurate : elapsed_test_accurate (timer w) timeout.

Local Abbreviation r := (get_request s base_url 10).

(** X12: [wait_for_server] is patient and bounded, the test of its loop
    being taken to follow the clock to within a second.  It ends by
    returning or by raising the readiness error.  When it gives up, more
    than [timeout - 1] seconds have passed on the clock since the call.
    However it ends, the requests it sent are [m] copies of the one probe,
    with [3 * (m - 1) < timeout + 1]: none for a negative timeout, at most
    41 for the timeout of 120 seconds the run uses. *)
Theorem readiness_probe_is_patient_and_bounded (outcome : result unit) (w' : world) :
  wait_for_server s base_url timeout w = (outcome, w') ->
  (outcome = Ok tt \/ outcome = Raise (MobSFError (ServerNotReady base_url timeout)))
  /\ (outcome <> Ok tt -> nanoseconds (timeout - 1) < clock w' - clock w)
  /\ (exists m : nat,
         sent w' = sent w ++ repeat r m
         /\ (m = 0%nat \/ 3 * (Z.of_nat m - 1) < timeout + 1)
         /\ (timeout < 0 -> m = 0%nat)
         /\ (timeout = 120 -> (m <= 41)%nat)).
Proof.
  intros Hrun.
  assert (Hbound : forall m : nat,
             m = 0%nat \/ 3 * (Z.of_nat m - 1) < timeout + 1 ->
             (timeout < 0 -> m = 0%nat) /\ (timeout = 120 -> (m <= 41)%nat))
    by (intros m [->|Hm]; split; intros; lia).
  destruct (wait_for_server_ends s base_url timeout w accurate)
    as (n & Hbusy & [[Hin Hready]|Hout]).
  - rewrite (wait_for_server_returns s base_url timeout w accurate n Hbusy Hin Hready)
      in Hrun.
    injection Hrun as <- <-. split; [left; reflexivity|].
    split; [intros H; destruct (H eq_refl)|].
    exists (S n). rewrite poll_done_sent. split; [reflexivity|].
    pose proof (in_time_bound s base_url timeout w accurate n Hin) as Hn.
    assert (Hm : S n = 0%nat \/ 3 * (Z.of_nat (S n) - 1) < timeout + 1) by (right; lia).
    split; [exact Hm | exact (Hbound (S n) Hm)].
  - rewrite (wait_for_server_gives_up s base_url timeout w accurate n Hbusy Hout) in Hrun.
    injection Hrun as <- <-. split; [right; reflexivity|]. split.
    + intros _. unfold in_time, probe_world in Hout.
      exact (proj2 (accurate _ _) Hout).
    + exists n. rewrite poll_world_sent. split; [reflexivity|].
      assert (Hm : n = 0%nat \/ 3 * (Z.of_nat n - 1) < timeout + 1).
      { destruct n as [|p]; [left; reflexivity|]. right.
        assert (Hp : (p < S p)%nat) by lia.
        destruct (Hbusy p Hp) as [Hin _].
        pose proof (in_time_bound s base_url timeout w accurate p Hin). lia. }
      split; [exact Hm | exact (Hbound n Hm)].
Qed.

End ReadinessBounds.

Lemma readiness_probe_is_patient_and_bounded_witness :
  exists m : nat,
    sent (snd (wait_for_server sample_session sample_base_url 120 sample_world))
    = sent sample_world ++ repeat (get_request sample_session sample_base_url 10) m
    /\ (m = 0%nat \/ 3 * (Z.of_nat m - 1) < 120 + 1)
    /\ (120 < 0 -> m = 0%nat)
    /\ (120 = 120 -> (m <= 41)%nat).
Proof.
  exact (proj2 (proj2 (readiness_probe_is_patient_and_bounded sample_session
                         sample_base_url 120 sample_world
                         (proj1 (exact_clock_accurate 120))
                         (fst (wait_for_server sample_session sample_base_url 120
                                 sample_world))
                         (snd (wait_for_server sample_session sample_base_url 120
                                 sample_world))
                         (surjective_pairing _)))).
Defined.

(** ** Outcomes of the completion poll *)

Section CompletionPoll.
Variables (g : globals) (s : session) (base_url : string) (hash : json) (w : world).
Hypothesis delay_fits : 0 < POLL_DELAY_SECONDS g <= longest_sleep.
Hypothesis timeout_fits : deadline_fits (timer w) (POLL_TIMEOUT_SECONDS g) = true.
Hypothesis accurate : deadline_test_accurate (timer w) (POLL_TIMEOUT_SECONDS g).

Local Abbreviation r := (report_request s base_url hash).
Local Abbreviation delay := (POLL_DELAY_SECONDS g).
Local Abbreviation timeout := (POLL_TIMEOUT_SECONDS g).
Local Abbreviation loop fuel :=
  (wait_for_scan_completion_loop g fuel s (base_url ++ "/api/v1/report_json")
     (JDict [("hash", hash)]%string) (clock w)).

(** One turn of the loop, taken in the world of poll [k]. *)
Lemma poll_loop_step (fuel k : nat) :
  loop (S fuel) (poll_world delay r w k) =
  if before_the_deadline g r w k then
    if answered_200 r (poll_world delay r w k) then (Ok tt, poll_done delay r w k)
    else loop fuel (poll_world delay r w (S k))
  else (Raise (MobSFError PollTimeout), poll_world delay r w k).
Proof.
  unfold before_the_deadline, report_request.
  cbn [wait_for_scan_completion_loop]. unfold bind at 1. unfold monotonic at 1.
  unfold bind at 1. unfold float_test at 1. rewrite poll_world_timer.
  match goal with
  | |- context [before_deadline ?t ?now ?start ?limit] =>
      destruct (before_deadline t now start limit); [|reflexivity]
  end.
  unfold bind at 1. rewrite probe_run.
  match goal with
  | |- context [answered_200 ?q ?w0] => destruct (answered_200 q w0); [reflexivity|]
  end.
  unfold bind at 1. rewrite sleep_run by lia. reflexivity.
Qed.

Lemma wait_for_scan_completion_unfold (upload_meta : list (string * json)) :
  Py.lookup upload_meta "hash" = Some hash ->
  wait_for_scan_completion g s base_url upload_meta w
  = loop (S (S (Z.to_nat (2 * timeout)))) (poll_world delay r w 0).
Proof.
  intros Hhash. unfold wait_for_scan_completion.
  unfold bind at 1. unfold monotonic at 1.
  unfold bind at 1. unfold float_test at 1. rewrite timeout_fits. cbv zeta.
  unfold bind at 1. unfold lift, Py.item. rewrite Hhash. reflexivity.
Qed.

(** A poll that starts while the test holds starts less than
    [timeout + 1] seconds after the call. *)
Lemma before_the_deadline_bound (k : nat) :
  before_the_deadline g r w k = true -> delay * Z.of_nat k < timeout + 1.
Proof.
  unfold before_the_deadline. intros H. apply (proj1 (accurate _ _)) in H.
  assert (Hdelay : 0 <= delay) by lia.
  pose proof (poll_world_clock_from delay r w k Hdelay) as Hc.
  unfold nanoseconds in *. nia.
Qed.

Lemma before_the_deadline_count (k : nat) :
  before_the_deadline g r w k = true -> (k < S (Z.to_nat timeout))%nat.
Proof.
  intros H. apply before_the_deadline_bound in H.
  assert (Hk : Z.of_nat k <= timeout) by nia. lia.
Qed.

Lemma polls_within_fuel (n : nat) :
  (forall k, (k < n)%nat ->
             before_the_deadline g r w k = true
             /\ answered_200 r (poll_world delay r w k) = false) ->
  (n < S (S (Z.to_nat (2 * timeout))))%nat.
Proof.
  intros Hbusy. destruct n as [|p]; [lia|].
  assert (Hp : (p < S p)%nat) by lia.
  destruct (Hbusy p Hp) as [Hin _]. apply before_the_deadline_count in Hin. lia.
Qed.

(** X13: the completion poll, for a delay of a second or more that can
    be slept, a timeout that fits a float, a hash in the metadata, and
    the test of the loop taken to follow the clock to within a second.  A
    poll that fails or is answered with another status than 200 is
    followed by the sleep and another poll; the call returns at the first
    poll answered with 200, provided every poll up to that one starts
    while the test holds, and sends nothing after it; it raises the
    timeout error at the first poll for which the test fails, and then
    more than [timeout - 1] seconds have passed.  It always ends in one of
    the two ways, and the polls sent are [m] copies of one request, with
    [delay * (m - 1) < timeout + 1]. *)
Theorem completion_poll_outcomes (upload_meta : list (string * json)) :
  Py.lookup upload_meta "hash" = Some hash ->
  (forall n : nat,
      (forall k, (k < n)%nat ->
                 before_the_deadline g r w k = true
                 /\ answered_200 r (poll_world delay r w k) = false) ->
      before_the_deadline g r w n = true ->
      answered_200 r (poll_world delay r w n) = true ->
      wait_for_scan_completion g s base_url upload_meta w
      = (Ok tt, poll_done delay r w n)
      /\ sent (poll_done delay r w n) = sent w ++ repeat r (S n))
  /\ (forall n : nat,
         (forall k, (k < n)%nat ->
                    before_the_deadline g r w k = true
                    /\ answered_200 r (poll_world delay r w k) = false) ->
         before_the_deadline g r w n = false ->
         wait_for_scan_completion g s base_url upload_meta w
         = (Raise (MobSFError PollTimeout), poll_world delay r w n)
         /\ nanoseconds (timeout - 1) < clock (poll_world delay r w n) - clock w)
  /\ (exists (m : nat) (outcome : result unit) (w' : world),
         wait_for_scan_completion g s base_url upload_meta w = (outcome, w')
         /\ (outcome = Ok tt \/ outcome = Raise (MobSFError PollTimeout))
         /\ sent w' = sent w ++ repeat r m
         /\ (m = 0%nat \/ delay * (Z.of_nat m - 1) < timeout + 1)).
Proof.
  intros Hhash. rewrite (wait_for_scan_completion_unfold upload_meta Hhash).
  assert (Hreturns : forall n : nat,
             (forall k, (k < n)%nat ->
                        before_the_deadline g r w k = true
                        /\ answered_200 r (poll_world delay r w k) = false) ->
             before_the_deadline g r w n = true ->
             answered_200 r (poll_world delay r w n) = true ->
             loop (S (S (Z.to_nat (2 * timeout)))) (poll_world delay r w 0)
             = (Ok tt, poll_done delay r w n)).
  { intros n Hbusy Hin Hready. pose proof (polls_within_fuel n Hbusy) as Hfuel.
    apply (waiting_returns delay r w (before_the_deadline g r w)
             (MobSFError PollTimeout) (fun fuel => loop fuel) poll_loop_step
             n Hbusy Hin Hready); lia. }
  assert (Hgives_up : forall n : nat,
             (forall k, (k < n)%nat ->
                        before_the_deadline g r w k = true
                        /\ answered_200 r (poll_world delay r w k) = false) ->
             before_the_deadline g r w n = false ->
             loop (S (S (Z.to_nat (2 * timeout)))) (poll_world delay r w 0)
             = (Raise (MobSFError PollTimeout), poll_world delay r w n)).
  { intros n Hbusy Hout. pose proof (polls_within_fuel n Hbusy) as Hfuel.
    apply (waiting_gives_up delay r w (before_the_deadline g r w)
             (MobSFError PollTimeout) (fun fuel => loop fuel) poll_loop_step
             n Hbusy Hout); lia. }
  split; [|split].
  - intros n Hbusy Hin Hready. split; [exact (Hreturns n Hbusy Hin Hready)|].
    apply poll_done_sent.
  - intros n Hbusy Hout. split; [exact (Hgives_up n Hbusy Hout)|].
    unfold before_the_deadline in Hout. exact (proj2 (accurate _ _) Hout).
  - destruct (waiting_ends delay r w (before_the_deadline g r w) (S (Z.to_nat timeout))
                before_the_deadline_count)
      as (n & _ & Hbusy & [[Hin Hready]|Hout]).
    + exists (S n), (Ok tt), (poll_done delay r w n).
      split; [exact (Hreturns n Hbusy Hin Hready)|]. split; [left; reflexivity|].
      split; [apply poll_done_sent|]. right.
      pose proof (before_the_deadline_bound n Hin). lia.
    + exists n, (Raise (MobSFError PollTimeout)), (poll_world delay r w n).
      split; [exact (Hgives_up n Hbusy Hout)|]. split; [right; reflexivity|].
      split; [apply poll_world_sent|].
      destruct n as [|p]; [left; reflexivity|]. right.
      assert (Hp : (p < S p)%nat) by lia.
      destruct (Hbusy p Hp) as [Hin _].
      pose proof (before_the_deadline_bound p Hin). lia.
Qed.

End CompletionPoll.

Lemma completion_poll_outcomes_witness :
  wait_for_scan_completion sample_globals sample_session sample_base_url
    sample_upload_meta (sample_world_after 5)
  = (Ok tt,
     poll_done 5 (report_request sample_session sample_base_url (JStr "abc"))
       (sample_world_after 5) 1).
Proof.
  refine (proj1 (proj1 (completion_poll_outcomes sample_globals sample_session
                          sample_base_url (JStr "abc") (sample_world_after 5)
                          _ eq_refl (proj2 (exact_clock_accurate 90))
                          sample_upload_meta eq_refl)
                   1%nat _ eq_refl eq_refl)).
  - unfold longest_sleep. simpl. lia.
  - intros k Hk. destruct k as [|k]; [split; reflexivity|].
    exfalso. exact (Nat.nlt_0_r k (proj2 (Nat.succ_lt_mono k 0) Hk)).
Defined.

(** ** Poll settings too large *)

(** X18: a poll timeout or a poll delay that passed the validation can
    still be too large.  A timeout that does not fit a float raises
    [OverflowError] where the deadline is computed, before the hash is
    read and before any poll is sent.  A delay longer than the longest
    sleep raises [OverflowError] at the first sleep, after one poll that
    did not find the report.  Neither handler of [main] catches the
    exception: the run ends with it, with no exit code, no error line and
    no summary. *)
Theorem oversized_poll_settings_overflow {rt : PyRuntime} (g : globals) (s : session)
  (base_url : string) (upload_meta : list (string * json)) (w : world) :
  (deadline_fits (timer w) (POLL_TIMEOUT_SECONDS g) = false ->
   wait_for_scan_completion g s base_url upload_meta w = (Raise OverflowError, w))
  /\ (forall hash : json,
         deadline_fits (timer w) (POLL_TIMEOUT_SECONDS g) = true ->
         Py.lookup upload_meta "hash" = Some hash ->
         longest_sleep < POLL_DELAY_SECONDS g ->
         before_the_deadline g (report_request s base_url hash) w 0 = true ->
         answered_200 (report_request s base_url hash) w = false ->
         wait_for_scan_completion g s base_url upload_meta w
         = (Raise OverflowError,
            exchanged (report_request s base_url hash)
              (fst (answer w (report_request s base_url hash))) w))
  /\ (forall (a : args) (w' : world),
         run_masvs_audit g (app a) (masvs_level a) (fail_on_violation a)
           (mobsf_url a) (api_key a) (output a) w = (Raise OverflowError, w') ->
         main g a w = (Raise OverflowError, w')).
Proof.
  split; [|split].
  - intros Hfits. unfold wait_for_scan_completion.
    unfold bind at 1. unfold monotonic at 1.
    unfold bind at 1. unfold float_test at 1. rewrite Hfits. reflexivity.
  - intros hash Hfits Hhash Hdelay Hin Hready. unfold wait_for_scan_completion.
    unfold bind at 1. unfold monotonic at 1.
    unfold bind at 1. unfold float_test at 1. rewrite Hfits. cbv zeta.
    unfold bind at 1. unfold lift, Py.item. rewrite Hhash.
    cbn [wait_for_scan_completion_loop]. unfold bind at 1. unfold monotonic at 1.
    unfold bind at 1. unfold float_test at 1.
    unfold before_the_deadline, report_request in *. cbn [poll_world] in Hin.
    rewrite Hin. unfold bind at 1. rewrite probe_run, Hready.
    unfold bind at 1. unfold sleep.
    destruct (Z.ltb_spec (POLL_DELAY_SECONDS g) 0) as [Hneg|_];
      [unfold longest_sleep in Hdelay; lia|].
    destruct (Z.ltb_spec longest_sleep (POLL_DELAY_SECONDS g)) as [_|Hle];
      [reflexivity | lia].
  - intros a w' Hrun. unfold main. rewrite Hrun. reflexivity.
Qed.

Lemma oversized_poll_settings_overflow_witness :
  wait_for_scan_completion
    {| POLL_DELAY_SECONDS := 10000000000; POLL_TIMEOUT_SECONDS := 600 |}
    sample_session sample_base_url sample_upload_meta (sample_world_after 5)
  = (Raise OverflowError,
     exchanged (report_request sample_session sample_base_url (JStr "abc"))
       (fst (answer (sample_world_after 5)
               (report_request sample_session sample_base_url (JStr "abc"))))
       (sample_world_after 5)).
Proof.
  exact (proj1 (proj2 (@oversized_poll_settings_overflow sample_runtime
                         {| POLL_DELAY_SECONDS := 10000000000;
                            POLL_TIMEOUT_SECONDS := 600 |}
                         sample_session sample_base_url sample_upload_meta
                         (sample_world_after 5)))
           (JStr "abc") eq_refl eq_refl eq_refl eq_refl eq_refl).
Defined.

(** ** The step summary *)

Lemma sink_kept_refl (w : world) :
  environ w = environ w /\ appendable w = appendable w /\ summaries w = summaries w.
Proof. repeat split. Qed.

Lemma sink_kept_by_save_report {rt : PyRuntime} (output_path : option path)
  (masvs_raw : json) (w : world) :
  environ (snd (save_report output_path masvs_raw w)) = environ w
  /\ appendable (snd (save_report output_path masvs_raw w)) = appendable w
  /\ summaries (snd (save_report output_path masvs_raw w)) = summaries w.
Proof.
  destruct output_path as [p|]; [|repeat split].
  unfold save_report, bind, mkdir_parents, write_text, print.
  destruct (make_dirs (files w) [] (parent p)) as [fs|e]; [|repeat split]. simpl.
  destruct (node_at fs (parent p)) as [[content|]|]; try (repeat split; fail).
  destruct (node_at fs p) as [[content|]|]; try (repeat split; fail);
    destruct p; repeat split.
Qed.

Lemma sink_kept_by_run {rt : PyRuntime} (g : globals) (a : args) (w : world) :
  environ (snd (run_masvs_audit g (app a) (masvs_level a) (fail_on_violation a)
                  (mobsf_url a) (api_key a) (output a) w)) = environ w
  /\ appendable (snd (run_masvs_audit g (app a) (masvs_level a) (fail_on_violation a)
                        (mobsf_url a) (api_key a) (output a) w)) = appendable w
  /\ summaries (snd (run_masvs_audit g (app a) (masvs_level a) (fail_on_violation a)
                       (mobsf_url a) (api_key a) (output a) w)) = summaries w.
Proof.
  apply (respects_run_masvs_audit
           (fun w0 w' => environ w' = environ w0 /\ appendable w' = appendable w0
                         /\ summaries w' = summaries w0)
           sink_kept_refl
           (fun w1 w2 w3 H12 H23 =>
              conj (eq_trans (proj1 H23) (proj1 H12))
                (conj (eq_trans (proj1 (proj2 H23)) (proj1 (proj2 H12)))
                   (eq_trans (proj2 (proj2 H23)) (proj2 (proj2 H12)))))
           (fun _ => True)).
  - intros r _ w0. unfold send. destruct (answer w0 r) as [elapsed [|resp]]; repeat split.
  - intros s m w0. repeat split.
  - intros n w0. split; [|split].
    + exact (sleep_keeps environ n w0 (fun _ _ => eq_refl)).
    + exact (sleep_keeps appendable n w0 (fun _ _ => eq_refl)).
    + exact (sleep_keeps summaries n w0 (fun _ _ => eq_refl)).
  - intros timeout. exact I.
  - intros suffix b timeout. exact I.
  - intros masvs_raw w0. apply sink_kept_by_save_report.
Qed.

Lemma append_step_summary_run (summary : step_summary) (w : world) :
  _append_step_summary summary w
  = (Ok tt,
     match summary_sink w with
     | Some p => set_summaries (summaries w ++ [(p, summary)]) w
     | None => w
     end).
Proof.
  unfold _append_step_summary, summary_sink, bind, getenv.
  destruct (environ w "GITHUB_STEP_SUMMARY") as [p|]; [|reflexivity].
  destruct (Text.is_empty p); [reflexivity|]. simpl.
  destruct (appendable w p); reflexivity.
Qed.



(** Without a sink nothing is appended, however [main] ends. *)
Lemma main_without_sink {rt : PyRuntime} (g : globals) (a : args) (w : world) :
  summary_sink w = None -> summaries (snd (main g a w)) = summaries w.
Proof.
  intros Hnone. unfold main.
  pose proof (sink_kept_by_run g a w) as (Henv & Happ & Hsum).
  assert (Hkept : forall w0 : world,
             environ w0 = environ w -> appendable w0 = appendable w ->
             summary_sink w0 = None).
  { intros w0 He Ha. unfold summary_sink in *. now rewrite He, Ha. }
  destruct (run_masvs_audit g (app a) (masvs_level a) (fail_on_violation a)
              (mobsf_url a) (api_key a) (output a) w) as [[r|e] w0];
    cbn [snd] in Henv, Happ, Hsum.
  - unfold bind. rewrite append_step_summary_run.
    rewrite (Hkept w0 Henv Happ). exact Hsum.
  - assert (Hcaught : forall (m : message) (sm : step_summary),
               summaries (snd ((print Stderr m ;; _append_step_summary sm ;; ret 1) w0))
               = summaries w).
    { intros m sm. unfold bind, print. rewrite append_step_summary_run.
      rewrite (Hkept (set_printed (printed w0 ++ [(Stderr, m)]) w0) Henv Happ).
      exact Hsum. }
    destruct e; try exact Hsum; apply Hcaught.
Qed.

(** X2: with no step-summary sink named by the environment, [main]
    never removes or changes a file or directory other than the output
    path: every node at another path is still there after the run,
    however the run ends; without an output path the files are exactly as
    before; and nothing is appended to a sink. *)
Theorem other_files_are_untouched {rt : PyRuntime} (g : globals) (a : args) (w : world) :
  (environ w "GITHUB_STEP_SUMMARY" = None
   \/ environ w "GITHUB_STEP_SUMMARY" = Some EmptyString) ->
  (forall (q : path) (n : node),
      output a <> Some q ->
      node_at (files w) q = Some n ->
      node_at (files (snd (main g a w))) q = Some n)
  /\ (output a = None -> files (snd (main g a w)) = files w)
  /\ summaries (snd (main g a w)) = summaries w.
Proof.
  intros Hsink. split; [|split].
  - apply (respects_main (keeps_nodes (fun q => output a <> Some q))
             (keeps_nodes_refl _) (keeps_nodes_trans _) (fun _ => True)
             (fun r _ w0 => keeps_nodes_same_files _ _ _ (same_files_send r w0))
             (fun s m w0 => keeps_nodes_same_files _ _ _ eq_refl)
             (fun n w0 =>
                keeps_nodes_same_files _ _ _ (sleep_keeps files n w0 (fun _ _ => eq_refl)))
             (fun l w0 => keeps_nodes_same_files _ _ _ eq_refl)
             (mobsf_url a) (api_key a) (output a) (fun _ => I) (fun _ _ _ => I)
             (keeps_nodes_save_report _) g a eq_refl eq_refl eq_refl).
  - intros Hnone.
    apply (respects_main (fun w0 w' => files w' = files w0)
             (fun _ => eq_refl) (fun w1 w2 w3 H1 H2 => eq_trans H2 H1) (fun _ => True)
             (fun r _ w0 => same_files_send r w0)
             (fun s m w0 => eq_refl)
             (fun n w0 => sleep_keeps files n w0 (fun _ _ => eq_refl))
             (fun l w0 => eq_refl)
             (mobsf_url a) (api_key a) None (fun _ => I) (fun _ _ _ => I)
             (fun raw w0 => eq_refl) g a eq_refl eq_refl Hnone).
  - apply main_without_sink. unfold summary_sink.
    destruct Hsink as [-> | ->]; reflexivity.
Qed.

Lemma other_files_are_untouched_witness :
  node_at
    (files (snd (@main sample_runtime sample_globals sample_args
                   (world_serving example_payload))))
    ["work"; "app.apk"]%string
  = Some (File "PK").
Proof.
  refine (proj1 (@other_files_are_untouched sample_runtime sample_globals sample_args
                   (world_serving example_payload) (or_introl eq_refl))
            ["work"; "app.apk"]%string (File "PK") _ eq_refl).
  intros H. discriminate H.
Defined.

(** ** Failures of the upload *)

(** X15: how [upload_app] fails.  A path that is not a readable file
    raises [OSError] before anything is sent.  A status in 400..599
    raises the tool's error with the status and the body text, whatever
    the body holds, the three keys included.  With an accepted status, a
    body that is not JSON raises the decode error of the HTTP library,
    and a JSON body that is not an object raises [AttributeError], not
    the tool's error. *)
Theorem upload_failures (s : session) (base_url : string) (app_path : path) (w : world) :
  ((forall content, node_at (files w) app_path <> Some (File content)) ->
   upload_app s base_url app_path w = (Raise OSError, w))
  /\ (forall (content : string) (elapsed : N) (resp : response),
         node_at (files w) app_path = Some (File content) ->
         answer w (post_request s (base_url ++ "/api/v1/upload")
                     (FilesBody (name app_path) content) 120)
         = (elapsed, Replied resp) ->
         let w' := exchanged (post_request s (base_url ++ "/api/v1/upload")
                                (FilesBody (name app_path) content) 120) elapsed w in
         (is_http_error (status_code resp) = true ->
          upload_app s base_url app_path w
          = (Raise (MobSFError (StatusFailure "Upload" (status_code resp) (raw resp))), w'))
         /\ (is_http_error (status_code resp) = false ->
             decoded resp = None ->
             upload_app s base_url app_path w
             = (Raise (RequestException JSONDecodeFailure), w'))
         /\ (is_http_error (status_code resp) = false ->
             forall v, decoded resp = Some v -> ~ is_record v ->
                       upload_app s base_url app_path w = (Raise AttributeError, w'))).
Proof.
  split.
  - intros Hnot. unfold upload_app, bind, read_file.
    destruct (node_at (files w) app_path) as [[content|]|]; try reflexivity.
    destruct (Hnot content eq_refl).
  - intros content elapsed resp Hfile Hans. cbv zeta.
    assert (Hstart : upload_app s base_url app_path w
                     = (_raise_for_status resp "Upload" ;;
                        payload <- response_json resp ;;
                        match payload with
                        | JDict items =>
                            match missing_keys items with
                            | [] => ret items
                            | missing => raise (MobSFError (UploadMissingKeys missing))
                            end
                        | _ => raise AttributeError
                        end)
                         (exchanged (post_request s (base_url ++ "/api/v1/upload")
                                       (FilesBody (name app_path) content) 120)
                            elapsed w)).
    { unfold upload_app. unfold bind at 1. unfold read_file. rewrite Hfile.
      rewrite bind_send, Hans. reflexivity. }
    rewrite Hstart. unfold bind, _raise_for_status, response_json, raise, ret.
    split; [|split].
    + intros ->. reflexivity.
    + intros -> ->. reflexivity.
    + intros -> v -> Hn. destruct v; try reflexivity.
      exfalso. apply Hn. eexists; reflexivity.
Qed.

Lemma upload_failures_witness :
  upload_app sample_session sample_base_url ["work"; "app.apk"]%string
    (sample_world_after 7)
  = (Raise (MobSFError (StatusFailure "Upload" 400 "Bad Request")),
     exchanged (post_request sample_session (sample_base_url ++ "/api/v1/upload")
                  (FilesBody "app.apk" "PK") 120) 10000000 (sample_world_after 7)).
Proof.
  exact (proj1 (proj2 (upload_failures sample_session sample_base_url
                         ["work"; "app.apk"]%string (sample_world_after 7))
                  "PK"%string 10000000%N
                  {| status_code := 400; raw := "Bad Request"; decoded := None |}
                  eq_refl eq_refl)
           eq_refl).
Defined.

(** ** Metadata with a key missing *)

(** X16: given metadata that lacks a key they read, [trigger_scan] and
    [request_masvs_report] raise [KeyError] for the first key they miss,
    before any request is sent: the world is left as it was.
    [wait_for_scan_completion] computes its deadline first: given
    metadata without a hash it raises [KeyError] for the hash when the
    timeout fits a float, [OverflowError] when it does not, and in both
    cases sends nothing. *)
Theorem missing_metadata_key_raises_before_sending (g : globals) (s : session)
  (base_url level : string) (upload_meta : list (string * json)) (w : world) :
  ~ has_metadata upload_meta ->
  (exists key, In key ["scan_type"; "file_name"; "hash"]%string
               /\ Py.lookup upload_meta key = None
               /\ trigger_scan s base_url upload_meta w = (Raise (KeyError key), w)
               /\ request_masvs_report s base_url upload_meta level w
                  = (Raise (KeyError key), w))
  /\ (Py.lookup upload_meta "hash" = None ->
      wait_for_scan_completion g s base_url upload_meta w
      = (if deadline_fits (timer w) (POLL_TIMEOUT_SECONDS g)
         then Raise (KeyError "hash") else Raise OverflowError, w)).
Proof.
  intros Hnot. split.
  - unfold trigger_scan, request_masvs_report, bind, lift, Py.item. cbv zeta.
    destruct (Py.lookup upload_meta "scan_type") as [scan_type|] eqn:Hs;
      [|exists "scan_type"%string; simpl; tauto].
    destruct (Py.lookup upload_meta "file_name") as [file_name|] eqn:Hf;
      [|exists "file_name"%string; simpl; tauto].
    destruct (Py.lookup upload_meta "hash") as [hash|] eqn:Hh;
      [|exists "hash"%string; simpl; tauto].
    exfalso. apply Hnot. intros key [<-|[<-|[<-|[]]]]; congruence.
  - intros Hh. unfold wait_for_scan_completion, bind, monotonic, float_test, lift, Py.item.
    cbv zeta. rewrite Hh.
    destruct (deadline_fits (timer w) (POLL_TIMEOUT_SECONDS g)); reflexivity.
Qed.

Lemma missing_metadata_key_raises_before_sending_witness :
  exists key, In key ["scan_type"; "file_name"; "hash"]%string
              /\ Py.lookup [("hash", JStr "abc")]%string key = None
              /\ trigger_scan sample_session sample_base_url [("hash", JStr "abc")]%string
                   sample_world = (Raise (KeyError key), sample_world)
              /\ request_masvs_report sample_session sample_base_url
                   [("hash", JStr "abc")]%string "L2" sample_world
                 = (Raise (KeyError key), sample_world).
Proof.
  refine (proj1 (missing_metadata_key_raises_before_sending sample_globals sample_session
                   sample_base_url "L2" [("hash", JStr "abc")]%string sample_world _)).
  intros H. exact (H "scan_type"%string (or_introl eq_refl) eq_refl).
Defined.

(** ** Poll settings *)

(** X17: whatever the environment holds, loading the script gives a poll
    delay and a poll timeout that are positive; a variable that is not
    set gives its default, 5 or 600, and with neither set nothing is
    printed. *)
Theorem poll_settings_are_positive {rt : PyRuntime} (w : world) :
  exists (g : globals) (w' : world),
    load_globals w = (Ok g, w')
    /\ 0 < POLL_DELAY_SECONDS g /\ 0 < POLL_TIMEOUT_SECONDS g
    /\ (environ w "MOBSF_POLL_DELAY_SECONDS" = None -> POLL_DELAY_SECONDS g = 5)
    /\ (environ w "MOBSF_POLL_TIMEOUT_SECONDS" = None -> POLL_TIMEOUT_SECONDS g = 600)
    /\ (environ w "MOBSF_POLL_DELAY_SECONDS" = None ->
        environ w "MOBSF_POLL_TIMEOUT_SECONDS" = None -> w' = w).
Proof.
  destruct (get_positive_int_env_value
              "MOBSF_POLL_DELAY_SECONDS" DEFAULT_POLL_DELAY_SECONDS w)
    as (w1 & H1 & Hsame).
  destruct (get_positive_int_env_value
              "MOBSF_POLL_TIMEOUT_SECONDS" DEFAULT_POLL_TIMEOUT_SECONDS w1)
    as (w2 & H2 & _).
  exists {| POLL_DELAY_SECONDS :=
              validated_override (environ w "MOBSF_POLL_DELAY_SECONDS")
                DEFAULT_POLL_DELAY_SECONDS;
            POLL_TIMEOUT_SECONDS :=
              validated_override (environ w1 "MOBSF_POLL_TIMEOUT_SECONDS")
                DEFAULT_POLL_TIMEOUT_SECONDS |}, w2.
  split; [unfold load_globals, bind; rewrite H1, H2; reflexivity|].
  cbn [POLL_DELAY_SECONDS POLL_TIMEOUT_SECONDS].
  split; [apply validated_override_positive; reflexivity|].
  split; [apply validated_override_positive; reflexivity|].
  rewrite Hsame.
  split; [intros ->; reflexivity|]. split; [intros ->; reflexivity|].
  intros Hd Ht.
  unfold _get_positive_int_env, bind, getenv, ret in H1. rewrite Hd in H1.
  assert (E1 : w1 = w) by congruence. subst w1.
  unfold _get_positive_int_env, bind, getenv, ret in H2. rewrite Ht in H2.
  congruence.
Qed.

Lemma poll_settings_are_positive_witness :
  exists (g : globals) (w' : world),
    @load_globals sample_runtime (world_serving example_payload) = (Ok g, w')
    /\ 0 < POLL_DELAY_SECONDS g /\ 0 < POLL_TIMEOUT_SECONDS g
    /\ (environ (world_serving example_payload) "MOBSF_POLL_DELAY_SECONDS" = None ->
        POLL_DELAY_SECONDS g = 5)
    /\ (environ (world_serving example_payload) "MOBSF_POLL_TIMEOUT_SECONDS" = None ->
        POLL_TIMEOUT_SECONDS g = 600)
    /\ (environ (world_serving example_payload) "MOBSF_POLL_DELAY_SECONDS" = None ->
        environ (world_serving example_payload) "MOBSF_POLL_TIMEOUT_SECONDS" = None ->
        w' = world_serving example_payload).
Proof.
  exact (@poll_settings_are_positive sample_runtime (world_serving example_payload)).
Defined.
